(** * minimal-timer: the time codec, the clock worker and the timer controller

    A shallow embedding of [worker.js] and of the timer script (the second
    part of [sw.js]: state, [formatTime]/[parseTime], display update, worker
    integration, timer control, mode switching, time editing, countdown
    completion), with the properties of the dual-clock timer engine stated
    and proved over it.

    Conventions.
    - A JS string is its sequence of UTF-16 code units, each a [Z].
    - A JS number that the program only ever uses as a count of
      milliseconds is a [Z].  [Math.floor(a / b)] for a positive constant
      [b] is [Z.div] (floor division), [%] is [Z.rem] (sign of the
      dividend).  A fractional [ms] handed to [formatTime] is floored by its
      first statement, so the integer model covers what is displayed.
    - [performance.now()] is an input: every handler that reads the clock
      takes the instant [now] as an argument.
    - [postMessage] appends to an outbox; the host's timer tables
      ([setInterval], [requestAnimationFrame]) are explicit lists of live
      ids. *)

From Stdlib Require Import ZArith List Bool Lia String Ascii.
Import ListNotations.
Open Scope Z_scope.

(* ====================================================================== *)
(** ** Host-language primitives *)
(* ====================================================================== *)

Module JS.

Definition jsstring := list Z.

(** A string literal of the source, as code units. *)
Definition lit (s : string) : jsstring :=
  map (fun a => Z.of_N (N_of_ascii a)) (list_ascii_of_string s).

Definition COLON : Z := 58.
Definition DOT : Z := 46.
Definition ZERO : Z := 48.
Definition MINUS : Z := 45.
Definition PLUS : Z := 43.

(** [\d] of a RegExp without the [u]/[v] flag peculiarities: ASCII 0-9. *)
Definition is_digit (c : Z) : bool := (48 <=? c) && (c <=? 57).

(** WhiteSpace and LineTerminator code units, as stripped by
    [String.prototype.trim] and skipped by [parseInt]. *)
Definition is_ws (c : Z) : bool :=
  (c =? 9) || (c =? 10) || (c =? 11) || (c =? 12) || (c =? 13) ||
  (c =? 32) || (c =? 160) || (c =? 5760) ||
  ((8192 <=? c) && (c <=? 8202)) ||
  (c =? 8232) || (c =? 8233) || (c =? 8239) || (c =? 8287) ||
  (c =? 12288) || (c =? 65279).

Fixpoint dropWhile (p : Z -> bool) (s : jsstring) : jsstring :=
  match s with
  | [] => []
  | c :: r => if p c then dropWhile p r else s
  end.

Fixpoint takeWhile (p : Z -> bool) (s : jsstring) : jsstring :=
  match s with
  | [] => []
  | c :: r => if p c then c :: takeWhile p r else []
  end.

(** [str.trim()] *)
Definition trim (s : jsstring) : jsstring :=
  rev (dropWhile is_ws (rev (dropWhile is_ws s))).

Definition digit_val (c : Z) : Z := c - 48.

Definition digits_value (ds : jsstring) : Z :=
  fold_left (fun acc c => acc * 10 + digit_val c) ds 0.

(** [parseInt(s, 10)]: skip leading white space, an optional sign, then the
    longest prefix of decimal digits; [None] is NaN. *)
Definition parseInt (s : jsstring) : option Z :=
  let s1 := dropWhile is_ws s in
  let '(sign, s2) :=
    match s1 with
    | c :: r => if c =? MINUS then (-1, r)
                else if c =? PLUS then (1, r) else (1, s1)
    | [] => (1, s1)
    end in
  match takeWhile is_digit s2 with
  | [] => None
  | ds => Some (sign * digits_value ds)
  end.

(** Decimal digits of a non-negative integer, most significant first. *)
Fixpoint nat_digits (fuel : nat) (n : Z) (acc : jsstring) : jsstring :=
  match fuel with
  | O => acc
  | S f =>
      let acc' := (ZERO + n mod 10) :: acc in
      if n <? 10 then acc' else nat_digits f (n / 10) acc'
  end.

(** [String(n)] for an integer [n] (below 1e21 in magnitude, where JS
    prints plain decimal digits). *)
Definition String_of (n : Z) : jsstring :=
  if n <? 0
  then MINUS :: nat_digits (S (Z.to_nat (Z.log2 (- n)))) (- n) []
  else nat_digits (S (Z.to_nat (Z.log2 n))) n [].

(** [s.padStart(len, '0')] *)
Definition padStart (len : nat) (s : jsstring) : jsstring :=
  repeat ZERO (len - List.length s) ++ s.

End JS.

(* ====================================================================== *)
(** ** Time formatting and parsing ([formatTime], [parseTime], [msToString]) *)
(* ====================================================================== *)

Module Codec.
Import JS.

Definition MS_PER_SECOND : Z := 1000.
Definition MS_PER_MINUTE : Z := 60 * MS_PER_SECOND.
Definition MS_PER_HOUR : Z := 60 * MS_PER_MINUTE.
Definition CENTISECONDS_PER_SECOND : Z := 100.

Record Formatted := { hh : jsstring; mm : jsstring; ss : jsstring; cc : jsstring }.

Definition formatTime (ms : Z) : Formatted :=
  let totalCs := ms / 10 in
  let cs := Z.rem totalCs CENTISECONDS_PER_SECOND in
  let totalSeconds := totalCs / CENTISECONDS_PER_SECOND in
  let seconds := Z.rem totalSeconds 60 in
  let totalMinutes := totalSeconds / 60 in
  let minutes := Z.rem totalMinutes 60 in
  let hours := totalMinutes / 60 in
  {| hh := padStart 2 (String_of hours);
     mm := padStart 2 (String_of minutes);
     ss := padStart 2 (String_of seconds);
     cc := padStart 2 (String_of cs) |}.

Definition msToString (ms : Z) : jsstring :=
  let f := formatTime ms in
  hh f ++ [COLON] ++ mm f ++ [COLON] ++ ss f ++ [DOT] ++ cc f.

(** *** The RegExp [/^(\d{1,2}):(\d{1,2}):(\d{1,2})\.(\d{1,2})$/]

    Matching is written as the backtracking matcher the RegExp denotes:
    [\d{1,2}] is greedy (two digits first, then one), each piece takes the
    continuation that matches the rest of the pattern. *)

Definition re_digits12 {A} (k : jsstring -> jsstring -> option A)
  (s : jsstring) : option A :=
  match s with
  | d1 :: rest =>
      if is_digit d1 then
        match rest with
        | d2 :: rest' =>
            if is_digit d2 then
              match k [d1; d2] rest' with
              | Some r => Some r
              | None => k [d1] rest
              end
            else k [d1] rest
        | [] => k [d1] rest
        end
      else None
  | [] => None
  end.

Definition re_char {A} (c : Z) (k : jsstring -> option A)
  (s : jsstring) : option A :=
  match s with
  | x :: rest => if x =? c then k rest else None
  | [] => None
  end.

Definition re_end {A} (r : A) (s : jsstring) : option A :=
  match s with
  | [] => Some r
  | _ :: _ => None
  end.

(** The four capture groups of a match, [None] when [match] is [null]. *)
Definition pattern_match (s : jsstring)
  : option (jsstring * jsstring * jsstring * jsstring) :=
  re_digits12 (fun g1 =>
    re_char COLON (re_digits12 (fun g2 =>
      re_char COLON (re_digits12 (fun g3 =>
        re_char DOT (re_digits12 (fun g4 =>
          re_end (g1, g2, g3, g4)))))))) s.

(** [parseTime]: [None] is the source's [null]. *)
Definition parseTime (str : jsstring) : option Z :=
  match pattern_match (trim str) with
  | None => None
  | Some (m1, m2, m3, m4) =>
      match parseInt m1, parseInt m2, parseInt m3, parseInt m4 with
      | Some hours, Some minutes, Some seconds, Some centiseconds =>
          if (minutes >=? 60) || (seconds >=? 60) || (centiseconds >=? 100)
          then None
          else Some (hours * MS_PER_HOUR + minutes * MS_PER_MINUTE +
                     seconds * MS_PER_SECOND + centiseconds * 10)
      | _, _, _, _ => None  (* NaN compares false and propagates; unreachable after a match *)
      end
  end.

End Codec.

(* ====================================================================== *)
(** ** The clock worker ([worker.js]) *)
(* ====================================================================== *)

(** Messages on the channel between the two contexts. *)
Module Msg.

(** Controller to worker: [{type, payload}].  The payload of a start
    message may be absent, or present without [fromMs]. *)
Inductive ToWorker :=
| WStart (payload : option (option Z))
| WPause
| WReset
| WGetState
| WUnknown.

(** Worker to controller: [{type, elapsed, running}]. *)
Inductive ToMain :=
| MReady
| MTick (elapsed : Z)
| MStarted (elapsed : Z)
| MPaused (elapsed : Z)
| MReset
| MState (running : bool) (elapsed : Z).

End Msg.

(** The host's table of live timers ([setInterval]/[clearInterval],
    [requestAnimationFrame]/[cancelAnimationFrame]). *)
Module Timers.

Definition clear (id : option nat) (live : list nat) : list nat :=
  match id with
  | Some i => filter (fun j => negb (Nat.eqb i j)) live
  | None => live
  end.

End Timers.

Module Worker.
Import Msg.

Definition TICK_RATE_MS : Z := 16.

Record W := {
  running : bool;
  startTime : Z;
  accumulatedMs : Z;
  tickInterval : option nat;
  (* host side of the worker context *)
  intervals : list nat;      (* live setInterval(tick, TICK_RATE_MS) timers *)
  nextId : nat;
  posted : list ToMain       (* self.postMessage, oldest first *)
}.

Definition initial : W :=
  {| running := false; startTime := 0; accumulatedMs := 0;
     tickInterval := None; intervals := []; nextId := 1;
     posted := [MReady] |}.

Definition postMessage (m : ToMain) (w : W) : W :=
  {| running := running w; startTime := startTime w;
     accumulatedMs := accumulatedMs w; tickInterval := tickInterval w;
     intervals := intervals w; nextId := nextId w;
     posted := posted w ++ [m] |}.

Definition tick (now : Z) (w : W) : W :=
  if negb (running w) then w
  else
    let currentElapsed := accumulatedMs w + (now - startTime w) in
    postMessage (MTick currentElapsed) w.

Definition start (fromMs : Z) (now : Z) (w : W) : W :=
  if running w then w
  else
    let id := nextId w in
    postMessage (MStarted fromMs)
      {| running := true; startTime := now; accumulatedMs := fromMs;
         tickInterval := Some id; intervals := intervals w ++ [id];
         nextId := S id; posted := posted w |}.

Definition pause (now : Z) (w : W) : W :=
  if negb (running w) then w
  else
    let acc := accumulatedMs w + (now - startTime w) in
    let '(ti, live) :=
      match tickInterval w with
      | Some i => (None, Timers.clear (Some i) (intervals w))
      | None => (None, intervals w)
      end in
    postMessage (MPaused acc)
      {| running := false; startTime := startTime w; accumulatedMs := acc;
         tickInterval := ti; intervals := live; nextId := nextId w;
         posted := posted w |}.

Definition reset (now : Z) (w : W) : W :=
  let wasRunning := running w in
  let '(ti, live) :=
    if running w
    then (None, Timers.clear (tickInterval w) (intervals w))
    else (tickInterval w, intervals w) in
  let w1 :=
    postMessage MReset
      {| running := false; startTime := 0; accumulatedMs := 0;
         tickInterval := ti; intervals := live; nextId := nextId w;
         posted := posted w |} in
  (* If was running, restart from zero *)
  if wasRunning then start 0 now w1 else w1.

Definition getState (now : Z) (w : W) : W :=
  let currentElapsed :=
    if running w then accumulatedMs w + (now - startTime w)
    else accumulatedMs w in
  postMessage (MState (running w) currentElapsed) w.

(** [payload?.fromMs ?? accumulatedMs] *)
Definition fromMs_or (payload : option (option Z)) (dflt : Z) : Z :=
  match payload with
  | Some (Some v) => v
  | Some None => dflt
  | None => dflt
  end.

(** The ['message'] listener; an unknown type is only logged. *)
Definition onmessage (m : ToWorker) (now : Z) (w : W) : W :=
  match m with
  | WStart payload => start (fromMs_or payload (accumulatedMs w)) now w
  | WPause => pause now w
  | WReset => reset now w
  | WGetState => getState now w
  | WUnknown => w
  end.

(** What can happen in the worker context: a message is delivered, or a live
    interval fires its callback [tick]. *)
Inductive Event :=
| Deliver (m : ToWorker) (now : Z)
| Fire (id : nat) (now : Z).

Definition step (e : Event) (w : W) : W :=
  match e with
  | Deliver m now => onmessage m now w
  | Fire id now => if existsb (Nat.eqb id) (intervals w) then tick now w else w
  end.

Definition run (es : list Event) (w : W) : W :=
  fold_left (fun w e => step e w) es w.

(** [tickInterval !== null] exactly when [running]. *)
Definition scheduled_iff_running (w : W) : Prop :=
  tickInterval w <> None <-> running w = true.

(** The same, and the live timers of the context are exactly the one held
    in [tickInterval]. *)
Definition consistent (w : W) : Prop :=
  scheduled_iff_running w /\
  intervals w = match tickInterval w with Some i => [i] | None => [] end.

End Worker.

(* ====================================================================== *)
(** ** The timer script (controller): state, display, control, editing *)
(* ====================================================================== *)

Module Script.
Import JS Codec Msg.

Inductive Mode := MODE_STOPWATCH | MODE_COUNTDOWN.

Definition mode_eqb (a b : Mode) : bool :=
  match a, b with
  | MODE_STOPWATCH, MODE_STOPWATCH => true
  | MODE_COUNTDOWN, MODE_COUNTDOWN => true
  | _, _ => false
  end.

(** The [state] object (theme and the worker handle left out: the worker
    exists whenever [workerFallback] is false). *)
Record State := {
  mode : Mode;
  running : bool;
  elapsedMs : Z;
  countdownTargetMs : Z;
  countdownCompleted : bool;
  muted : bool;
  animationFrameId : option nat;
  workerFallback : bool
}.

(** [elements.startPauseBtn.textContent] *)
Inductive Label := LabelStart | LabelPause.

(** What reaches the outside collaborators. *)
Inductive Effect :=
| AnnounceTimerReset        (* announce('Timer reset') *)
| AnnounceCountdownComplete (* announce('Countdown complete') *)
| Pulse                     (* classList.add('pulsing') *)
| Beep                      (* playBeep() *)
| Vibrate.                  (* vibrate([200, 100, 200]) *)

(** The host of the controlling thread: pending animation frames, live
    intervals, the id counter, and [localStorage]'s countdown value. *)
Record Host := {
  frames : list nat;
  timers : list nat;
  nextId : nat;
  storedCountdown : option jsstring
}.

(** The DOM nodes the engine writes: the two spans of the display, the
    start/pause button, the editor's value. *)
Record Dom := {
  timeMain : jsstring;
  timeMs : jsstring;
  startPauseBtn : Label;
  editorValue : jsstring
}.

Record Ctl := {
  state : State;
  fallbackStartTime : Z;
  fallbackAccumulated : Z;
  fallbackInterval : option nat;
  isEditing : bool;
  host : Host;
  dom : Dom;
  outbox : list ToWorker;   (* state.worker.postMessage, oldest first *)
  effects : list Effect     (* oldest first *)
}.

(** *** Field updates *)

Definition st_mode v (s : State) := {| mode := v; running := running s; elapsedMs := elapsedMs s; countdownTargetMs := countdownTargetMs s; countdownCompleted := countdownCompleted s; muted := muted s; animationFrameId := animationFrameId s; workerFallback := workerFallback s |}.
Definition st_running v (s : State) := {| mode := mode s; running := v; elapsedMs := elapsedMs s; countdownTargetMs := countdownTargetMs s; countdownCompleted := countdownCompleted s; muted := muted s; animationFrameId := animationFrameId s; workerFallback := workerFallback s |}.
Definition st_elapsedMs v (s : State) := {| mode := mode s; running := running s; elapsedMs := v; countdownTargetMs := countdownTargetMs s; countdownCompleted := countdownCompleted s; muted := muted s; animationFrameId := animationFrameId s; workerFallback := workerFallback s |}.
Definition st_countdownTargetMs v (s : State) := {| mode := mode s; running := running s; elapsedMs := elapsedMs s; countdownTargetMs := v; countdownCompleted := countdownCompleted s; muted := muted s; animationFrameId := animationFrameId s; workerFallback := workerFallback s |}.
Definition st_countdownCompleted v (s : State) := {| mode := mode s; running := running s; elapsedMs := elapsedMs s; countdownTargetMs := countdownTargetMs s; countdownCompleted := v; muted := muted s; animationFrameId := animationFrameId s; workerFallback := workerFallback s |}.
Definition st_muted v (s : State) := {| mode := mode s; running := running s; elapsedMs := elapsedMs s; countdownTargetMs := countdownTargetMs s; countdownCompleted := countdownCompleted s; muted := v; animationFrameId := animationFrameId s; workerFallback := workerFallback s |}.
Definition st_animationFrameId v (s : State) := {| mode := mode s; running := running s; elapsedMs := elapsedMs s; countdownTargetMs := countdownTargetMs s; countdownCompleted := countdownCompleted s; muted := muted s; animationFrameId := v; workerFallback := workerFallback s |}.
Definition st_workerFallback v (s : State) := {| mode := mode s; running := running s; elapsedMs := elapsedMs s; countdownTargetMs := countdownTargetMs s; countdownCompleted := countdownCompleted s; muted := muted s; animationFrameId := animationFrameId s; workerFallback := v |}.

Definition on_state (f : State -> State) (c : Ctl) := {| state := f (state c); fallbackStartTime := fallbackStartTime c; fallbackAccumulated := fallbackAccumulated c; fallbackInterval := fallbackInterval c; isEditing := isEditing c; host := host c; dom := dom c; outbox := outbox c; effects := effects c |}.
Definition on_host (f : Host -> Host) (c : Ctl) := {| state := state c; fallbackStartTime := fallbackStartTime c; fallbackAccumulated := fallbackAccumulated c; fallbackInterval := fallbackInterval c; isEditing := isEditing c; host := f (host c); dom := dom c; outbox := outbox c; effects := effects c |}.
Definition on_dom (f : Dom -> Dom) (c : Ctl) := {| state := state c; fallbackStartTime := fallbackStartTime c; fallbackAccumulated := fallbackAccumulated c; fallbackInterval := fallbackInterval c; isEditing := isEditing c; host := host c; dom := f (dom c); outbox := outbox c; effects := effects c |}.
Definition set_fallbackStartTime v (c : Ctl) := {| state := state c; fallbackStartTime := v; fallbackAccumulated := fallbackAccumulated c; fallbackInterval := fallbackInterval c; isEditing := isEditing c; host := host c; dom := dom c; outbox := outbox c; effects := effects c |}.
Definition set_fallbackAccumulated v (c : Ctl) := {| state := state c; fallbackStartTime := fallbackStartTime c; fallbackAccumulated := v; fallbackInterval := fallbackInterval c; isEditing := isEditing c; host := host c; dom := dom c; outbox := outbox c; effects := effects c |}.
Definition set_fallbackInterval v (c : Ctl) := {| state := state c; fallbackStartTime := fallbackStartTime c; fallbackAccumulated := fallbackAccumulated c; fallbackInterval := v; isEditing := isEditing c; host := host c; dom := dom c; outbox := outbox c; effects := effects c |}.
Definition set_isEditing v (c : Ctl) := {| state := state c; fallbackStartTime := fallbackStartTime c; fallbackAccumulated := fallbackAccumulated c; fallbackInterval := fallbackInterval c; isEditing := v; host := host c; dom := dom c; outbox := outbox c; effects := effects c |}.
Definition postMessage (m : ToWorker) (c : Ctl) := {| state := state c; fallbackStartTime := fallbackStartTime c; fallbackAccumulated := fallbackAccumulated c; fallbackInterval := fallbackInterval c; isEditing := isEditing c; host := host c; dom := dom c; outbox := outbox c ++ [m]; effects := effects c |}.
Definition emit (es : list Effect) (c : Ctl) := {| state := state c; fallbackStartTime := fallbackStartTime c; fallbackAccumulated := fallbackAccumulated c; fallbackInterval := fallbackInterval c; isEditing := isEditing c; host := host c; dom := dom c; outbox := outbox c; effects := effects c ++ es |}.

Definition h_frames v (h : Host) := {| frames := v; timers := timers h; nextId := nextId h; storedCountdown := storedCountdown h |}.
Definition h_timers v (h : Host) := {| frames := frames h; timers := v; nextId := nextId h; storedCountdown := storedCountdown h |}.
Definition h_nextId v (h : Host) := {| frames := frames h; timers := timers h; nextId := v; storedCountdown := storedCountdown h |}.
Definition h_storedCountdown v (h : Host) := {| frames := frames h; timers := timers h; nextId := nextId h; storedCountdown := v |}.

Definition d_display main ms (d : Dom) := {| timeMain := main; timeMs := ms; startPauseBtn := startPauseBtn d; editorValue := editorValue d |}.
Definition d_startPauseBtn v (d : Dom) := {| timeMain := timeMain d; timeMs := timeMs d; startPauseBtn := v; editorValue := editorValue d |}.
Definition d_editorValue v (d : Dom) := {| timeMain := timeMain d; timeMs := timeMs d; startPauseBtn := startPauseBtn d; editorValue := v |}.

(** *** Host calls *)

(** [requestAnimationFrame(renderLoop)]: a fresh id, pending until it fires
    or is cancelled. *)
Definition requestAnimationFrame (c : Ctl) : nat * Ctl :=
  let id := nextId (host c) in
  (id, on_host (fun h => h_nextId (S id) (h_frames (frames h ++ [id]) h)) c).

Definition cancelAnimationFrame (id : option nat) (c : Ctl) : Ctl :=
  on_host (fun h => h_frames (Timers.clear id (frames h)) h) c.

Definition setInterval (c : Ctl) : nat * Ctl :=
  let id := nextId (host c) in
  (id, on_host (fun h => h_nextId (S id) (h_timers (timers h ++ [id]) h)) c).

Definition clearInterval (id : option nat) (c : Ctl) : Ctl :=
  on_host (fun h => h_timers (Timers.clear id (timers h)) h) c.

(** *** Render loop bookkeeping *)

Definition startRenderLoop (c : Ctl) : Ctl :=
  match animationFrameId (state c) with
  | None =>
      let '(id, c) := requestAnimationFrame c in
      on_state (st_animationFrameId (Some id)) c
  | Some _ => c
  end.

Definition stopRenderLoop (c : Ctl) : Ctl :=
  match animationFrameId (state c) with
  | Some id =>
      let c := cancelAnimationFrame (Some id) c in
      on_state (st_animationFrameId None) c
  | None => c
  end.

(** *** [updateDisplay], [pauseTimer], [handleCountdownComplete]

    The three call one another: [updateDisplay] calls
    [handleCountdownComplete] when the countdown is due, that calls
    [pauseTimer], which (on the fallback clock) calls [updateDisplay] again.
    Each body is written over the function it calls; the cycle is closed
    below. *)

Definition updateDisplay_with (handleCountdownComplete : Ctl -> Ctl)
  (ms : Z) (c : Ctl) : Ctl :=
  match mode (state c) with
  | MODE_COUNTDOWN =>
      let remaining := Z.max 0 (countdownTargetMs (state c) - ms) in
      let f := formatTime remaining in
      let c := on_dom (d_display (hh f ++ [COLON] ++ mm f ++ [COLON] ++ ss f)
                                 (DOT :: cc f)) c in
      if (remaining =? 0) && running (state c)
         && negb (countdownCompleted (state c))
      then handleCountdownComplete c
      else c
  | MODE_STOPWATCH =>
      let f := formatTime ms in
      on_dom (d_display (hh f ++ [COLON] ++ mm f ++ [COLON] ++ ss f)
                        (DOT :: cc f)) c
  end.

Definition pauseTimer_with (updateDisplay : Z -> Ctl -> Ctl) (c : Ctl) : Ctl :=
  if negb (running (state c)) then c
  else
    let c :=
      if workerFallback (state c) then
        let c := on_state (st_running false) c in
        let c := set_fallbackAccumulated (elapsedMs (state c)) c in
        let c := clearInterval (fallbackInterval c) c in
        let c := set_fallbackInterval None c in
        let c := stopRenderLoop c in
        updateDisplay (elapsedMs (state c)) c
      else postMessage WPause c in
    on_dom (d_startPauseBtn LabelStart) c.

Definition handleCountdownComplete_with (updateDisplay : Z -> Ctl -> Ctl)
  (c : Ctl) : Ctl :=
  let c := on_state (st_countdownCompleted true) c in
  let c := pauseTimer_with updateDisplay c in
  let c := emit [AnnounceCountdownComplete; Pulse] c in
  if negb (muted (state c)) then emit [Beep; Vibrate] c else c.

(** The call cycle unrolled to depth [n]; at depth 0 the call does not
    return anything new. *)
Fixpoint updateDisplay_depth (n : nat) (ms : Z) (c : Ctl) : Ctl :=
  match n with
  | O => c
  | S n' =>
      updateDisplay_with
        (handleCountdownComplete_with (updateDisplay_depth n')) ms c
  end.

(** Depth 2 is all the program ever uses: the inner [updateDisplay] runs
    with [running] already false, so its own completion test fails.
    [updateDisplay_fixpoint] and [updateDisplay_depth_enough] below show that
    this definition satisfies the source's equations and that more depth
    changes nothing. *)
Definition updateDisplay : Z -> Ctl -> Ctl := updateDisplay_depth 2.

Definition pauseTimer : Ctl -> Ctl := pauseTimer_with updateDisplay.

Definition handleCountdownComplete : Ctl -> Ctl :=
  handleCountdownComplete_with updateDisplay.

Definition renderLoop (c : Ctl) : Ctl :=
  if running (state c) then
    let c := updateDisplay (elapsedMs (state c)) c in
    let '(id, c) := requestAnimationFrame c in
    on_state (st_animationFrameId (Some id)) c
  else c.

(** *** Worker integration *)

(** The ['message'] listener installed by [initWorker]. *)
Definition onWorkerMessage (m : ToMain) (c : Ctl) : Ctl :=
  match m with
  | MReady => c
  | MTick elapsed => on_state (st_elapsedMs elapsed) c
  | MStarted elapsed =>
      let c := on_state (st_running true) c in
      let c := on_state (st_elapsedMs elapsed) c in
      startRenderLoop c
  | MPaused elapsed =>
      let c := on_state (st_running false) c in
      let c := on_state (st_elapsedMs elapsed) c in
      let c := stopRenderLoop c in
      updateDisplay elapsed c
  | MReset =>
      let c := on_state (st_running false) c in
      let c := on_state (st_elapsedMs 0) c in
      let c := on_state (st_countdownCompleted false) c in
      let c := stopRenderLoop c in
      updateDisplay 0 c
  | MState r elapsed =>
      let c := on_state (st_running r) c in
      on_state (st_elapsedMs elapsed) c
  end.

Definition fallbackToMainThread (c : Ctl) : Ctl :=
  on_state (st_workerFallback true) c.

(** The ['error'] listener installed by [initWorker]. *)
Definition onWorkerError (c : Ctl) : Ctl := fallbackToMainThread c.

(** The callback of the fallback clock's [setInterval(..., 16)]. *)
Definition fallbackTick (now : Z) (c : Ctl) : Ctl :=
  on_state (st_elapsedMs (fallbackAccumulated c + (now - fallbackStartTime c))) c.

(** *** Timer control *)

Definition startTimer (now : Z) (c : Ctl) : Ctl :=
  if running (state c) then c
  else
    let c := on_state (st_countdownCompleted false) c in
    let c :=
      if workerFallback (state c) then
        let c := on_state (st_running true) c in
        let c := set_fallbackStartTime now c in
        let c := set_fallbackAccumulated (elapsedMs (state c)) c in
        let '(id, c) := setInterval c in
        let c := set_fallbackInterval (Some id) c in
        startRenderLoop c
      else
        postMessage (WStart (Some (Some (elapsedMs (state c))))) c in
    on_dom (d_startPauseBtn LabelPause) c.

(** The source's [const wasRunning = state.running] is never read. *)
Definition resetTimer (c : Ctl) : Ctl :=
  let c :=
    if workerFallback (state c) then
      let c :=
        if running (state c) then
          let c := clearInterval (fallbackInterval c) c in
          set_fallbackInterval None c
        else c in
      let c := on_state (st_running false) c in
      let c := on_state (st_elapsedMs 0) c in
      let c := set_fallbackAccumulated 0 c in
      let c := on_state (st_countdownCompleted false) c in
      let c := stopRenderLoop c in
      updateDisplay 0 c
    else postMessage WReset c in
  let c := on_dom (d_startPauseBtn LabelStart) c in
  emit [AnnounceTimerReset] c.

Definition toggleStartPause (now : Z) (c : Ctl) : Ctl :=
  if running (state c) then pauseTimer c else startTimer now c.

(** *** Mode switching

    [localStorage.setItem(STORAGE_KEYS.MODE, mode)] is left out: the stored
    mode is read at start-up only, where it is an argument of [loadState]. *)

Definition setMode (m : Mode) (c : Ctl) : Ctl :=
  if mode_eqb (mode (state c)) m then c
  else
    let c := if running (state c) then pauseTimer c else c in
    let c := on_state (st_mode m) c in
    let c := on_state (st_elapsedMs 0) c in
    let c := on_state (st_countdownCompleted false) c in
    let c :=
      match m with
      | MODE_COUNTDOWN =>
          (* Load saved countdown value *)
          let c :=
            match storedCountdown (host c) with
            | Some ((_ :: _) as saved) =>
                match parseInt saved with
                | Some ms =>
                    if ms >? 0 then on_state (st_countdownTargetMs ms) c else c
                | None => c
                end
            | _ => c
            end in
          (* Default to 5 minutes if not set *)
          if countdownTargetMs (state c) =? 0
          then on_state (st_countdownTargetMs (5 * MS_PER_MINUTE)) c
          else c
      | MODE_STOPWATCH => c
      end in
    let c := updateDisplay 0 c in
    on_dom (d_startPauseBtn LabelStart) c.

Definition toggleMode (c : Ctl) : Ctl :=
  let newMode :=
    match mode (state c) with
    | MODE_STOPWATCH => MODE_COUNTDOWN
    | MODE_COUNTDOWN => MODE_STOPWATCH
    end in
  setMode newMode c.

(** *** Time editing *)

Definition enterEditMode (c : Ctl) : Ctl :=
  if isEditing c then c
  else
    let c := set_isEditing true c in
    let c := if running (state c) then pauseTimer c else c in
    let currentValue :=
      match mode (state c) with
      | MODE_COUNTDOWN => msToString (countdownTargetMs (state c))
      | MODE_STOPWATCH => msToString (elapsedMs (state c))
      end in
    on_dom (d_editorValue currentValue) c.

Definition exitEditMode (save : bool) (c : Ctl) : Ctl :=
  if negb (isEditing c) then c
  else
    let c := set_isEditing false c in
    let c :=
      if save then
        match parseTime (editorValue (dom c)) with
        | Some ms =>
            match mode (state c) with
            | MODE_COUNTDOWN =>
                let c := on_state (st_countdownTargetMs ms) c in
                let c := on_state (st_elapsedMs 0) c in
                on_host (h_storedCountdown (Some (String_of ms))) c
            | MODE_STOPWATCH => on_state (st_elapsedMs ms) c
            end
        | None => c   (* Invalid input: only the hint changes *)
        end
      else c in
    updateDisplay (elapsedMs (state c)) c.

Definition toggleMute (c : Ctl) : Ctl :=
  on_state (st_muted (negb (muted (state c)))) c.

(** The ['visibilitychange'] listener; [hidden] is [document.hidden]. *)
Definition onVisibilityChange (hidden : bool) (c : Ctl) : Ctl :=
  if hidden then stopRenderLoop c
  else if running (state c) then startRenderLoop c
  else updateDisplay (elapsedMs (state c)) c.

(** *** Everything that can happen on the controlling thread *)

Inductive KeyName := KeySpace | KeyR | KeyE | KeyM.

Inductive Event :=
| ClickStartPause (now : Z)       (* startPauseBtn 'click' *)
| ClickReset                      (* resetBtn 'click', or a confirmed long press *)
| ClickMode                       (* modeToggle 'click', or a double tap *)
| ClickMute
| ClickDisplay                    (* timerDisplay 'click' *)
| EditorInput (value : jsstring)  (* the user types into timeEditor *)
| EditorBlur
| EditorEnter
| EditorEscape
| Key (k : KeyName) (now : Z)     (* document 'keydown' *)
| Frame (id : nat)                (* a pending animation frame fires *)
| Interval (id : nat) (now : Z)   (* a live fallback interval fires *)
| WorkerMessage (m : ToMain)
| WorkerError
| Visibility (hidden : bool).

Definition step (e : Event) (c : Ctl) : Ctl :=
  match e with
  | ClickStartPause now => toggleStartPause now c
  | ClickReset => resetTimer c
  | ClickMode => toggleMode c
  | ClickMute => toggleMute c
  | ClickDisplay => if negb (isEditing c) then enterEditMode c else c
  | EditorInput v => on_dom (d_editorValue v) c
  | EditorBlur => exitEditMode true c
  | EditorEnter => exitEditMode true c
  | EditorEscape => exitEditMode false c
  | Key k now =>
      if isEditing c then c   (* Ignore if editing *)
      else match k with
           | KeySpace => toggleStartPause now c
           | KeyR => resetTimer c
           | KeyE => enterEditMode c
           | KeyM => toggleMode c
           end
  | Frame id =>
      if existsb (Nat.eqb id) (frames (host c))
      then renderLoop (on_host (fun h => h_frames (Timers.clear (Some id) (frames h)) h) c)
      else c
  | Interval id now =>
      if existsb (Nat.eqb id) (timers (host c)) then fallbackTick now c else c
  | WorkerMessage m => onWorkerMessage m c
  | WorkerError => onWorkerError c
  | Visibility hidden => onVisibilityChange hidden c
  end.

Definition run (es : list Event) (c : Ctl) : Ctl :=
  fold_left (fun c e => step e c) es c.

(** *** Start-up ([loadState], [initWorker], [init]) *)

Definition state0 : State :=
  {| mode := MODE_STOPWATCH; running := false; elapsedMs := 0;
     countdownTargetMs := 0; countdownCompleted := false; muted := false;
     animationFrameId := None; workerFallback := false |}.

Definition boot (savedCountdown : option jsstring) : Ctl :=
  {| state := state0;
     fallbackStartTime := 0; fallbackAccumulated := 0;
     fallbackInterval := None; isEditing := false;
     host := {| frames := []; timers := []; nextId := 1;
                storedCountdown := savedCountdown |};
     dom := {| timeMain := []; timeMs := []; startPauseBtn := LabelStart;
               editorValue := [] |};
     outbox := []; effects := [] |}.

Definition loadState (savedMode : option Mode) (savedMute : bool) (c : Ctl) : Ctl :=
  let c :=
    match savedMode with
    | Some MODE_COUNTDOWN =>
        let c := on_state (st_mode MODE_COUNTDOWN) c in
        let c :=
          match storedCountdown (host c) with
          | Some ((_ :: _) as savedValue) =>
              match parseInt savedValue with
              | Some ms =>
                  if ms >? 0 then on_state (st_countdownTargetMs ms) c else c
              | None => c
              end
          | _ => c
          end in
        if countdownTargetMs (state c) =? 0
        then on_state (st_countdownTargetMs (5 * MS_PER_MINUTE)) c
        else c
    | _ => c
    end in
  let c := if savedMute then on_state (st_muted true) c else c in
  setMode (mode (state c)) c.

(** [workerOk] tells whether [new Worker('worker.js')] succeeds. *)
Definition initWorker (workerOk : bool) (c : Ctl) : Ctl :=
  if workerOk then c else fallbackToMainThread c.

Definition init (savedMode : option Mode) (savedCountdown : option jsstring)
  (savedMute workerOk : bool) : Ctl :=
  let c := loadState savedMode savedMute (boot savedCountdown) in
  let c := initWorker workerOk c in
  updateDisplay 0 c.

(** How often the completion side effects were emitted. *)
Definition completions (c : Ctl) : nat :=
  List.length (filter (fun e => match e with AnnounceCountdownComplete => true | _ => false end)
                      (effects c)).

End Script.

(* ====================================================================== *)
(** ** Both contexts and the channel between them *)
(* ====================================================================== *)

Module System.
Import Msg.

Record Sys := { ctl : Script.Ctl; wk : Worker.W }.

Inductive Step :=
| Main (e : Script.Event)          (* an event on the controlling thread *)
| ToWorker (now : Z)               (* the oldest message to the worker is delivered *)
| ToMain                           (* the oldest message from the worker is delivered *)
| WorkerTimer (id : nat) (now : Z) (* a worker interval fires *).

Definition take_outbox (c : Script.Ctl) : Script.Ctl :=
  {| Script.state := Script.state c;
     Script.fallbackStartTime := Script.fallbackStartTime c;
     Script.fallbackAccumulated := Script.fallbackAccumulated c;
     Script.fallbackInterval := Script.fallbackInterval c;
     Script.isEditing := Script.isEditing c;
     Script.host := Script.host c; Script.dom := Script.dom c;
     Script.outbox := tl (Script.outbox c);
     Script.effects := Script.effects c |}.

Definition take_posted (w : Worker.W) : Worker.W :=
  {| Worker.running := Worker.running w; Worker.startTime := Worker.startTime w;
     Worker.accumulatedMs := Worker.accumulatedMs w;
     Worker.tickInterval := Worker.tickInterval w;
     Worker.intervals := Worker.intervals w; Worker.nextId := Worker.nextId w;
     Worker.posted := tl (Worker.posted w) |}.

Definition step (st : Step) (s : Sys) : Sys :=
  match st with
  | Main e => {| ctl := Script.step e (ctl s); wk := wk s |}
  | ToWorker now =>
      match Script.outbox (ctl s) with
      | m :: _ => {| ctl := take_outbox (ctl s);
                     wk := Worker.onmessage m now (wk s) |}
      | [] => s
      end
  | ToMain =>
      match Worker.posted (wk s) with
      | m :: _ => {| ctl := Script.onWorkerMessage m (ctl s);
                     wk := take_posted (wk s) |}
      | [] => s
      end
  | WorkerTimer id now =>
      {| ctl := ctl s; wk := Worker.step (Worker.Fire id now) (wk s) |}
  end.

Definition run (sts : list Step) (s : Sys) : Sys :=
  fold_left (fun s st => step st s) sts s.

(** The system right after start-up with a working worker. *)
Definition start_up (savedMode : option Script.Mode)
  (savedCountdown : option JS.jsstring) (savedMute : bool) : Sys :=
  {| ctl := Script.init savedMode savedCountdown savedMute true;
     wk := Worker.initial |}.

End System.

(* ====================================================================== *)
(** ** Spec-side vocabulary for the codec *)
(* ====================================================================== *)

Module CodecSpec.
Import JS Codec.

(** One component of the pattern: one or two decimal digits. *)
Definition digits12 (g : jsstring) : Prop :=
  (List.length g = 1%nat \/ List.length g = 2%nat) /\
  Forall (fun c => is_digit c = true) g.

(** The strict pattern [H{1,2}:M{1,2}:S{1,2}.C{1,2}], as the spec words it:
    the whole string is the four components with their separators. *)
Definition strict_pattern (s H M S C : jsstring) : Prop :=
  s = H ++ [COLON] ++ M ++ [COLON] ++ S ++ [DOT] ++ C /\
  digits12 H /\ digits12 M /\ digits12 S /\ digits12 C.

(** The spec's acceptance condition and result for a string. *)
Definition accepts (s : jsstring) (ms : Z) : Prop :=
  exists H M S C,
    strict_pattern s H M S C /\
    digits_value M < 60 /\ digits_value S < 60 /\ digits_value C < 100 /\
    ms = digits_value H * 3600000 + digits_value M * 60000 +
         digits_value S * 1000 + digits_value C * 10.

(** The values the [hh:mm:ss.cc] form can carry: whole centiseconds below
    one hundred hours. *)
Definition representable (ms : Z) : Prop :=
  0 <= ms < 100 * MS_PER_HOUR /\ ms mod 10 = 0.

(** The two digits of a number below one hundred. *)
Definition two_digits (n : Z) : jsstring := [ZERO + n / 10; ZERO + n mod 10].

End CodecSpec.

(* ====================================================================== *)
(** ** Spec-side vocabulary for the timer session *)
(* ====================================================================== *)

Module SessionSpec.
Import JS Codec Msg Script.

(** The completion test of [updateDisplay]: Countdown mode, nothing
    remaining, running, not yet completed. *)
Definition due (ms : Z) (c : Ctl) : bool :=
  match mode (state c) with
  | MODE_COUNTDOWN =>
      (Z.max 0 (countdownTargetMs (state c) - ms) =? 0)
      && running (state c) && negb (countdownCompleted (state c))
  | MODE_STOPWATCH => false
  end.

(** The display write of [updateDisplay]: remaining time in Countdown mode,
    elapsed time in Stopwatch mode. *)
Definition shown (ms : Z) (c : Ctl) : Ctl :=
  let v := match mode (state c) with
           | MODE_COUNTDOWN => Z.max 0 (countdownTargetMs (state c) - ms)
           | MODE_STOPWATCH => ms
           end in
  let f := formatTime v in
  on_dom (d_display (hh f ++ [COLON] ++ mm f ++ [COLON] ++ ss f) (DOT :: cc f)) c.

(** The fields of the spec's TimerSession. *)
Record Session := {
  s_mode : Mode;
  s_running : bool;
  s_elapsedMs : Z;
  s_targetMs : Z;
  s_completedFlag : bool
}.

Definition session (c : Ctl) : Session :=
  {| s_mode := mode (state c);
     s_running := running (state c);
     s_elapsedMs := elapsedMs (state c);
     s_targetMs := countdownTargetMs (state c);
     s_completedFlag := countdownCompleted (state c) |}.

(** The spec's Idle after a reset: not running, nothing elapsed, flag clear. *)
Definition idle_at_zero (c : Ctl) : Prop :=
  running (state c) = false /\ elapsedMs (state c) = 0 /\
  countdownCompleted (state c) = false.

(** The target a switch into Countdown mode ends with: the saved value when
    it reads as a positive number, else the current target, else (when that
    is 0) five minutes. *)
Definition loaded_target (c : Ctl) : Z :=
  let t1 :=
    match storedCountdown (host c) with
    | Some ((_ :: _) as saved) =>
        match parseInt saved with
        | Some ms => if ms >? 0 then ms else countdownTargetMs (state c)
        | None => countdownTargetMs (state c)
        end
    | _ => countdownTargetMs (state c)
    end in
  if t1 =? 0 then 5 * MS_PER_MINUTE else t1.

(** The events that stand for "a reset, a fresh start, or a mode change" in
    state [c]: a start request while not running, a reset on the fallback
    clock or the worker's reset acknowledgement, a mode toggle. *)
Definition clears_completed (e : Event) (c : Ctl) : bool :=
  match e with
  | ClickStartPause _ => negb (running (state c))
  | ClickReset => workerFallback (state c)
  | ClickMode => true
  | Key k _ =>
      negb (isEditing c) &&
      match k with
      | KeySpace => negb (running (state c))
      | KeyR => workerFallback (state c)
      | KeyM => true
      | KeyE => false
      end
  | WorkerMessage MReset => true
  | _ => false
  end.

(** An incoming elapsed value: a worker tick, or the fallback interval
    callback. *)
Definition is_elapsed_update (e : Event) : bool :=
  match e with
  | WorkerMessage (MTick _) => true
  | Interval _ _ => true
  | _ => false
  end.

(** No event of the trace, taken in the state it meets, clears the flag. *)
Fixpoint no_clear (es : list Event) (c : Ctl) : bool :=
  match es with
  | [] => true
  | e :: es' => negb (clears_completed e c) && no_clear es' (step e c)
  end.

End SessionSpec.

(** Concrete situations used as inputs below. *)
Module Scenario.
Import JS Msg Script System.

(** A five-second countdown restored from storage, started at instant 1000
    on the worker clock; the worker's 'ready' and 'started' have arrived. *)
Definition countdown_on_worker : Sys :=
  System.run [Main (ClickStartPause 1000); ToWorker 1000; ToMain; ToMain]
    (start_up (Some MODE_COUNTDOWN) (Some (lit "5000")) false).

(** The same countdown with the surface hidden, so that no frame is
    pending. *)
Definition hidden_countdown : Ctl :=
  Script.step (Visibility true) (ctl countdown_on_worker).

(** A stopwatch started at instant 1000 on the worker clock, with the tick
    of instant 6000 delivered. *)
Definition stopwatch_on_worker : Sys :=
  System.run [Main (ClickStartPause 1000); ToWorker 1000; ToMain; ToMain;
              WorkerTimer 1 6000; ToMain]
    (start_up None None false).

(** A five-second countdown started at instant 1000 on the fallback clock
    (the worker could not be constructed), with the interval callback of
    instant 6000 run. *)
Definition countdown_on_fallback : Ctl :=
  Script.run [ClickStartPause 1000; Interval 1 6000]
    (init (Some MODE_COUNTDOWN) (Some (lit "5000")) false false).

(** A stopwatch on the worker clock, paused at 5000 and opened for editing. *)
Definition editing_stopwatch : Sys :=
  System.run [Main ClickDisplay; ToWorker 6000; ToMain] stopwatch_on_worker.

(** The countdown on the fallback clock, opened for editing (which pauses
    it) with a ten-second target typed in. *)
Definition editing_countdown : Ctl :=
  Script.run [ClickDisplay; EditorInput (lit "00:00:10.00")] countdown_on_fallback.

End Scenario.

(* ====================================================================== *)
(** ** Vocabulary for further properties of the code *)
(* ====================================================================== *)

(** Spans during which the worker clock runs. *)
Module WorkerRuns.
Import Msg Worker.

(** Resume at the first instant of each pair, pause at the second; the
    resume carries no [fromMs]. *)
Fixpoint spans (l : list (Z * Z)) : list Event :=
  match l with
  | [] => []
  | (a, b) :: l' => Deliver (WStart None) a :: Deliver WPause b :: spans l'
  end.

(** The total length of the spans. *)
Fixpoint total (l : list (Z * Z)) : Z :=
  match l with
  | [] => 0
  | (a, b) :: l' => (b - a) + total l'
  end.

End WorkerRuns.

(** Bookkeeping the controller keeps across events. *)
Module SessionInv.
Import JS Codec Msg Script.

(** At most one animation frame is pending, and a pending one is the frame
    recorded in [state.animationFrameId]. *)
Definition one_frame (c : Ctl) : Prop :=
  frames (host c) = [] \/
  exists i, animationFrameId (state c) = Some i /\ frames (host c) = [i].

(** The fallback clock when no worker could be constructed: nothing is
    posted to the missing worker, the only live interval is the one held in
    [fallbackInterval], and it is held exactly while the session runs. *)
Definition fallback_clock (c : Ctl) : Prop :=
  workerFallback (state c) = true /\ outbox c = [] /\
  timers (host c) =
    match fallbackInterval c with Some i => [i] | None => [] end /\
  (running (state c) = true <-> fallbackInterval c <> None).

Definition is_worker_message (e : Event) : bool :=
  match e with
  | WorkerMessage _ => true
  | _ => false
  end.

(** Start at the first instant of each pair, sample the clock at the
    second and pause, all on the controlling thread. *)
Fixpoint fallback_spans (l : list (Z * Z)) (c : Ctl) : Ctl :=
  match l with
  | [] => c
  | (a, b) :: l' =>
      fallback_spans l' (pauseTimer (fallbackTick b (startTimer a c)))
  end.

(** The completion flag is only ever set in Countdown mode. *)
Definition completed_in_countdown (c : Ctl) : Prop :=
  countdownCompleted (state c) = true -> mode (state c) = MODE_COUNTDOWN.

(** What [updateDisplay] leaves alone, whatever it does besides writing
    the display. *)
Definition kept (c : Ctl) :=
  (mode (state c), elapsedMs (state c), countdownTargetMs (state c),
   muted (state c), workerFallback (state c), isEditing c,
   storedCountdown (host c), editorValue (dom c)).

(** The text on the display. *)
Definition display_text (c : Ctl) : jsstring :=
  timeMain (dom c) ++ timeMs (dom c).

End SessionInv.

(** The protocol between the controller and the worker. *)
Module Channel.
Import Msg Script.

(** What a message from the worker does to [state.running] when the
    controller receives it. *)
Definition running_after (m : ToMain) (r : bool) : bool :=
  match m with
  | MStarted _ => true
  | MPaused _ => false
  | MReset => false
  | MState r' _ => r'
  | MReady => r
  | MTick _ => r
  end.

(** [state.running] once the messages still in flight have arrived. *)
Definition replay_running (ms : list ToMain) (r : bool) : bool :=
  fold_left (fun r m => running_after m r) ms r.

(** A step that hands the controller a worker message or a worker error
    that the worker of the system did not send. *)
Definition injected (st : System.Step) : bool :=
  match st with
  | System.Main (WorkerMessage _) => true
  | System.Main WorkerError => true
  | _ => false
  end.

(** The requests the controller has a reason to send: a start that
    carries [fromMs], a pause, a reset. *)
Definition request_ok (m : ToWorker) : bool :=
  match m with
  | WStart (Some (Some _)) => true
  | WPause => true
  | WReset => true
  | _ => false
  end.

Definition requests_ok (c : Ctl) : Prop :=
  forallb request_ok (outbox c) = true.

(** The session is timed by the worker and [state.running] is [r]. *)
Definition on_worker_clock (r : bool) (c : Ctl) : Prop :=
  workerFallback (state c) = false /\ running (state c) = r.

(** The controller's [running] agrees with the worker's once the worker's
    messages in flight have arrived. *)
Definition in_step (s : System.Sys) : Prop :=
  workerFallback (state (System.ctl s)) = false /\
  replay_running (Worker.posted (System.wk s))
    (running (state (System.ctl s))) =
  Worker.running (System.wk s).

End Channel.

(** [===] on strings. *)
Module StrictEq.
Import JS.

Fixpoint str_eqb (a b : jsstring) : bool :=
  match a, b with
  | [], [] => true
  | x :: a', y :: b' => (x =? y) && str_eqb a' b'
  | _, _ => false
  end.

End StrictEq.

(** Theme management ([cycleTheme], [setTheme], the theme part of
    [loadState]). *)
Module Theme.
Import JS StrictEq.

Definition AUTO : jsstring := lit "auto".
Definition LIGHT : jsstring := lit "light".
Definition DARK : jsstring := lit "dark".

(** The sun (U+2600 U+FE0F) and the moon (U+D83C U+DF19) of the toggle. *)
Definition SUN : jsstring := [9728; 65039].
Definition MOON : jsstring := [55356; 57113].

(** [state.theme], the [data-theme] attribute of the document element
    ([None]: absent), the text and label of the toggle, and what
    [localStorage] holds under the theme key. *)
Record Ui := {
  theme : jsstring;
  dataTheme : option jsstring;
  toggleText : jsstring;
  ariaLabel : jsstring;
  storedTheme : option jsstring
}.

Definition setTheme (t : jsstring) (u : Ui) : Ui :=
  let u := {| theme := t; dataTheme := dataTheme u;
              toggleText := toggleText u; ariaLabel := ariaLabel u;
              storedTheme := storedTheme u |} in
  let u :=
    if str_eqb t AUTO then
      {| theme := theme u; dataTheme := None; toggleText := SUN;
         ariaLabel := lit "Theme: Auto"; storedTheme := storedTheme u |}
    else if str_eqb t LIGHT then
      {| theme := theme u; dataTheme := Some LIGHT; toggleText := SUN;
         ariaLabel := lit "Theme: Light"; storedTheme := storedTheme u |}
    else if str_eqb t DARK then
      {| theme := theme u; dataTheme := Some DARK; toggleText := MOON;
         ariaLabel := lit "Theme: Dark"; storedTheme := storedTheme u |}
    else u in
  {| theme := theme u; dataTheme := dataTheme u; toggleText := toggleText u;
     ariaLabel := ariaLabel u; storedTheme := Some t |}.

(** [Array.prototype.indexOf]: the first index holding the value, or -1. *)
Fixpoint indexOf_from (x : jsstring) (l : list jsstring) (i : Z) : Z :=
  match l with
  | [] => -1
  | y :: l' => if str_eqb y x then i else indexOf_from x l' (i + 1)
  end.

Definition indexOf (x : jsstring) (l : list jsstring) : Z :=
  indexOf_from x l 0.

Definition themes : list jsstring := [AUTO; LIGHT; DARK].

(** [themes[nextIndex]] is [undefined] out of range, which does not
    happen: [nextIndex] is 0, 1 or 2, so [None] below is never taken. *)
Definition cycleTheme (u : Ui) : Ui :=
  let currentIndex := indexOf (theme u) themes in
  let nextIndex := Z.rem (currentIndex + 1) (Z.of_nat (List.length themes)) in
  match nth_error themes (Z.to_nat nextIndex) with
  | Some nextTheme => setTheme nextTheme u
  | None => u
  end.

(** The theme part of [loadState]: an empty saved string counts as none. *)
Definition loadTheme (savedTheme : option jsstring) (u : Ui) : Ui :=
  match savedTheme with
  | Some ((_ :: _) as t) => setTheme t u
  | _ => setTheme AUTO u
  end.

(** The state before [loadState], with nothing set on the document yet. *)
Definition boot (saved : option jsstring) : Ui :=
  {| theme := AUTO; dataTheme := None; toggleText := []; ariaLabel := [];
     storedTheme := saved |}.

(** The attribute the style sheet should see for a theme. *)
Definition attribute_for (t : jsstring) : option jsstring :=
  if str_eqb t AUTO then None else Some t.

Definition known (t : jsstring) : Prop := In t themes.

End Theme.

(* ====================================================================== *)
(** ** The service worker ([sw.js], first part): the asset cache *)
(* ====================================================================== *)

(** The handlers are written over the Cache API as its specification
    describes it, with every promise settled: [CacheStorage] is a list of
    named caches in creation order, a cache maps request URLs to
    responses, the network answers a URL with a response that is ok, a
    response that is not, or an error.  [skipWaiting] and [clients.claim]
    only move the worker through its life cycle and are left out. *)
Module ServiceWorker.
Import JS StrictEq.

Definition CACHE_NAME : jsstring := lit "minimal-timer-v1".

Definition ASSETS : list jsstring :=
  [lit "/"; lit "/index.html"; lit "/styles.css"; lit "/script.js";
   lit "/worker.js"; lit "/manifest.webmanifest"].

Section Caches.
Variable Response : Type.

Inductive Fetched :=
| Ok (r : Response)       (* a response with an ok status *)
| NotOk (r : Response)    (* a response with another status *)
| NetworkError.

Definition Network := jsstring -> Fetched.

(** The newest entry for a URL comes first. *)
Definition Cache := list (jsstring * Response).
Definition CacheStorage := list (jsstring * Cache).

(** [cache.match(request)] *)
Fixpoint cache_match (c : Cache) (url : jsstring) : option Response :=
  match c with
  | [] => None
  | (u, r) :: c' => if str_eqb u url then Some r else cache_match c' url
  end.

(** [caches.match(request)]: the caches are tried in creation order. *)
Fixpoint caches_match (s : CacheStorage) (url : jsstring) : option Response :=
  match s with
  | [] => None
  | (_, c) :: s' =>
      match cache_match c url with
      | Some r => Some r
      | None => caches_match s' url
      end
  end.

(** [caches.keys()] *)
Definition caches_keys (s : CacheStorage) : list jsstring := map fst s.

(** [caches.delete(key)] *)
Definition caches_delete (key : jsstring) (s : CacheStorage) : CacheStorage :=
  filter (fun e => negb (str_eqb (fst e) key)) s.

(** [caches.open(name)]: the cache is created when there is none. *)
Definition caches_open (name : jsstring) (s : CacheStorage) : CacheStorage :=
  if existsb (fun e => str_eqb (fst e) name) s then s else s ++ [(name, [])].

(** The responses of [cache.addAll]: all of them, or none when one request
    fails or is answered with a status that is not ok. *)
Fixpoint fetch_all (net : Network) (urls : list jsstring)
  : option (list (jsstring * Response)) :=
  match urls with
  | [] => Some []
  | u :: urls' =>
      match net u, fetch_all net urls' with
      | Ok r, Some rs => Some ((u, r) :: rs)
      | _, _ => None
      end
  end.

(** The cache [name] after [cache.addAll] has stored [entries]. *)
Definition put_all (name : jsstring) (entries : list (jsstring * Response))
  (s : CacheStorage) : CacheStorage :=
  map (fun e => if str_eqb (fst e) name
                then (fst e, rev entries ++ snd e) else e) s.

(** The ['install'] handler; [false] when the promise given to
    [waitUntil] rejects, so that the installation fails. *)
Definition install (net : Network) (s : CacheStorage) : bool * CacheStorage :=
  let s := caches_open CACHE_NAME s in
  match fetch_all net ASSETS with
  | Some entries => (true, put_all CACHE_NAME entries s)
  | None => (false, s)
  end.

(** The ['activate'] handler. *)
Definition activate (s : CacheStorage) : CacheStorage :=
  let old := filter (fun key => negb (str_eqb key CACHE_NAME)) (caches_keys s) in
  fold_left (fun s key => caches_delete key s) old s.

(** The ['fetch'] handler: [response || fetch(event.request)]; [None] when
    the promise given to [respondWith] rejects. *)
Definition fetch (net : Network) (s : CacheStorage) (url : jsstring)
  : option Response :=
  match caches_match s url with
  | Some r => Some r
  | None =>
      match net url with
      | Ok r => Some r
      | NotOk r => Some r
      | NetworkError => None
      end
  end.

End Caches.

Arguments Ok {Response} r.
Arguments NotOk {Response} r.
Arguments NetworkError {Response}.
Arguments cache_match {Response} c url.
Arguments caches_match {Response} s url.
Arguments caches_keys {Response} s.
Arguments caches_delete {Response} key s.
Arguments caches_open {Response} name s.
Arguments fetch_all {Response} net urls.
Arguments put_all {Response} name entries s.
Arguments install {Response} net s.
Arguments activate {Response} s.
Arguments fetch {Response} net s url.

End ServiceWorker.

(* ====================================================================== *)
(** ** The codec on the spec's examples *)
(* ====================================================================== *)

Module CodecExamples.
Import JS Codec.

Example format_12345 : msToString 12345 = lit "00:00:12.34".
Proof. reflexivity. Qed.

Example parse_edit : parseTime (lit "01:02:03.45") = Some 3723450.
Proof. reflexivity. Qed.

Example parse_single : parseTime (lit "1:2:3.4") = Some 3723040.
Proof. reflexivity. Qed.

Example parse_bad_min : parseTime (lit "00:60:00.00") = None.
Proof. reflexivity. Qed.

Example format_hours_100 : msToString 360000000 = lit "100:00:00.00".
Proof. reflexivity. Qed.

End CodecExamples.

(* ====================================================================== *)
(** ** Properties of the codec *)
(* ====================================================================== *)

Section CodecFacts.
Import JS Codec CodecSpec.

Lemma is_digit_iff c : is_digit c = true <-> 48 <= c <= 57.
Proof. unfold is_digit. rewrite andb_true_iff, !Z.leb_le. tauto. Qed.

Lemma is_digit_not_ws c : is_digit c = true -> is_ws c = false.
Proof.
  intros H. apply is_digit_iff in H. unfold is_ws.
  repeat match goal with
         | |- (_ || _)%bool = false => apply orb_false_iff; split
         | |- (_ && _)%bool = false => apply andb_false_iff; left
         | |- (_ =? _) = false => apply Z.eqb_neq; lia
         | |- (_ <=? _) = false => apply Z.leb_gt; lia
         end.
Qed.

Lemma is_digit_not_sign c :
  is_digit c = true -> (c =? MINUS) = false /\ (c =? PLUS) = false.
Proof.
  intros H. apply is_digit_iff in H. unfold MINUS, PLUS.
  split; apply Z.eqb_neq; lia.
Qed.

Lemma takeWhile_all p s :
  Forall (fun c => p c = true) s -> takeWhile p s = s.
Proof.
  induction 1 as [|c r Hc _ IH]; simpl; [reflexivity|].
  now rewrite Hc, IH.
Qed.

(** [parseInt] on a capture group reads its decimal value. *)
Lemma parseInt_digits12 g :
  digits12 g -> parseInt g = Some (digits_value g).
Proof.
  intros [Hlen Hall]. destruct g as [|c r]; [simpl in Hlen; lia|].
  pose proof (Forall_inv Hall) as Hc. cbv beta in Hc.
  unfold parseInt. simpl dropWhile.
  rewrite (is_digit_not_ws _ Hc).
  destruct (is_digit_not_sign _ Hc) as [-> ->].
  rewrite (takeWhile_all _ _ Hall).
  now rewrite Z.mul_1_l.
Qed.

Lemma digits_value_bounds g :
  digits12 g -> 0 <= digits_value g < 100.
Proof.
  intros [Hlen Hall].
  destruct g as [|a [|b [|? ?]]]; simpl in Hlen; try lia;
    repeat match goal with
           | H : Forall _ (_ :: _) |- _ =>
               let Hc := fresh "Hc" in
               pose proof (Forall_inv H) as Hc; cbv beta in Hc;
               apply is_digit_iff in Hc; apply Forall_inv_tail in H
           end;
    unfold digits_value, digit_val; simpl; lia.
Qed.

(** *** The matcher against the pattern *)

Lemma re_digits12_sound {A} (k : jsstring -> jsstring -> option A) s r :
  re_digits12 k s = Some r ->
  exists g rest, s = g ++ rest /\ digits12 g /\ k g rest = Some r.
Proof.
  unfold re_digits12. intros H.
  destruct s as [|d1 rest]; [discriminate|].
  destruct (is_digit d1) eqn:H1; [|discriminate].
  assert (Hone : k [d1] rest = Some r ->
                 exists g rest0, d1 :: rest = g ++ rest0 /\ digits12 g /\ k g rest0 = Some r).
  { intros Hk. exists [d1], rest. repeat split; auto. }
  destruct rest as [|d2 rest']; [auto|].
  destruct (is_digit d2) eqn:H2; [|auto].
  destruct (k [d1; d2] rest') eqn:Hk2; [|auto].
  injection H as <-.
  exists [d1; d2], rest'. repeat split; auto.
Qed.

Lemma re_char_sound {A} c (k : jsstring -> option A) s r :
  re_char c k s = Some r -> exists rest, s = c :: rest /\ k rest = Some r.
Proof.
  unfold re_char. destruct s as [|x rest]; [discriminate|].
  destruct (x =? c) eqn:E; [|discriminate].
  apply Z.eqb_eq in E. subst. eauto.
Qed.

Lemma re_end_sound {A} (v r : A) s : re_end v s = Some r -> s = [] /\ v = r.
Proof. destruct s; simpl; [intros [= ->]; auto | discriminate]. Qed.

Lemma pattern_match_sound s H M S C :
  pattern_match s = Some (H, M, S, C) -> strict_pattern s H M S C.
Proof.
  unfold pattern_match. intros E.
  apply re_digits12_sound in E as (g1 & r1 & -> & D1 & E).
  apply re_char_sound in E as (r2 & -> & E).
  apply re_digits12_sound in E as (g2 & r3 & -> & D2 & E).
  apply re_char_sound in E as (r4 & -> & E).
  apply re_digits12_sound in E as (g3 & r5 & -> & D3 & E).
  apply re_char_sound in E as (r6 & -> & E).
  apply re_digits12_sound in E as (g4 & r7 & -> & D4 & E).
  apply re_end_sound in E as [-> [= <- <- <- <-]].
  unfold strict_pattern. rewrite app_nil_r. auto.
Qed.

(** A component followed by something that is not a digit is taken whole. *)
Lemma re_digits12_complete {A} (k : jsstring -> jsstring -> option A) g rest r :
  digits12 g ->
  match rest with [] => True | x :: _ => is_digit x = false end ->
  k g rest = Some r ->
  re_digits12 k (g ++ rest) = Some r.
Proof.
  intros [Hlen Hall] Hrest Hk.
  destruct g as [|a [|b [|? ?]]]; simpl in Hlen; try lia.
  - pose proof (Forall_inv Hall) as Ha. cbv beta in Ha.
    simpl. rewrite Ha. destruct rest as [|x rest']; [exact Hk|].
    now rewrite Hrest.
  - pose proof (Forall_inv Hall) as Ha. cbv beta in Ha.
    pose proof (Forall_inv (Forall_inv_tail Hall)) as Hb. cbv beta in Hb.
    simpl. rewrite Ha, Hb. simpl in Hk. now rewrite Hk.
Qed.

Lemma pattern_match_complete s H M S C :
  strict_pattern s H M S C -> pattern_match s = Some (H, M, S, C).
Proof.
  intros (-> & D1 & D2 & D3 & D4). unfold pattern_match.
  apply re_digits12_complete; [assumption|reflexivity|]. simpl.
  apply re_digits12_complete; [assumption|reflexivity|]. simpl.
  apply re_digits12_complete; [assumption|reflexivity|]. simpl.
  rewrite <- (app_nil_r C) at 1.
  apply re_digits12_complete; [assumption|exact I|]. reflexivity.
Qed.

(** [parseTime] in terms of the pattern: what it returns is decided by the
    trimmed input alone. *)
Lemma parseTime_accepts s ms :
  parseTime s = Some ms <-> accepts (trim s) ms.
Proof.
  unfold parseTime. split.
  - destruct (pattern_match (trim s)) as [[[[H M] S] C]|] eqn:E; [|discriminate].
    apply pattern_match_sound in E. pose proof E as (_ & D1 & D2 & D3 & D4).
    rewrite !parseInt_digits12 by assumption.
    destruct (_ || _)%bool eqn:B; [discriminate|]. intros [= <-].
    apply orb_false_iff in B as [B B3]. apply orb_false_iff in B as [B1 B2].
    rewrite Z.geb_leb in B1, B2, B3. apply Z.leb_gt in B1, B2, B3.
    exists H, M, S, C. repeat split; auto; try apply E.
  - intros (H & M & S & C & P & B1 & B2 & B3 & ->).
    pose proof P as (_ & D1 & D2 & D3 & D4).
    rewrite (pattern_match_complete _ _ _ _ _ P).
    rewrite !parseInt_digits12 by assumption.
    assert ((digits_value M >=? 60) = false) as -> by (rewrite Z.geb_leb; apply Z.leb_gt; lia).
    assert ((digits_value S >=? 60) = false) as -> by (rewrite Z.geb_leb; apply Z.leb_gt; lia).
    assert ((digits_value C >=? 100) = false) as -> by (rewrite Z.geb_leb; apply Z.leb_gt; lia).
    reflexivity.
Qed.

End CodecFacts.

Section CodecRoundTrip.
Import JS Codec CodecSpec.

Lemma String_of_one n : 0 <= n < 10 -> String_of n = [ZERO + n].
Proof.
  intros H. unfold String_of.
  assert ((n <? 0) = false) as -> by (apply Z.ltb_ge; lia).
  simpl. assert ((n <? 10) = true) as -> by (apply Z.ltb_lt; lia).
  now rewrite Z.mod_small by lia.
Qed.

Lemma String_of_two n :
  10 <= n < 100 -> String_of n = [ZERO + n / 10; ZERO + n mod 10].
Proof.
  intros H. unfold String_of.
  assert ((n <? 0) = false) as -> by (apply Z.ltb_ge; lia).
  assert (3 <= Z.log2 n) by (change 3 with (Z.log2 10); apply Z.log2_le_mono; lia).
  destruct (Z.to_nat (Z.log2 n)) as [|f] eqn:E; [lia|].
  simpl. assert ((n <? 10) = false) as -> by (apply Z.ltb_ge; lia).
  assert ((n / 10 <? 10) = true) as ->.
  { apply Z.ltb_lt. apply Z.div_lt_upper_bound; lia. }
  rewrite (Z.mod_small (n / 10)); [reflexivity|].
  split; [apply Z.div_pos; lia | apply Z.div_lt_upper_bound; lia].
Qed.

Lemma padStart_String_of n :
  0 <= n < 100 -> padStart 2 (String_of n) = two_digits n.
Proof.
  intros H. unfold two_digits. destruct (Z_lt_ge_dec n 10).
  - rewrite String_of_one by lia. unfold padStart. simpl.
    rewrite Z.div_small, Z.mod_small by lia. reflexivity.
  - rewrite String_of_two by lia. reflexivity.
Qed.

Lemma two_digits_digits12 n : 0 <= n < 100 -> digits12 (two_digits n).
Proof.
  intros H. split; [right; reflexivity|].
  assert (0 <= n / 10 < 10)
    by (split; [apply Z.div_pos; lia | apply Z.div_lt_upper_bound; lia]).
  pose proof (Z.mod_pos_bound n 10 ltac:(lia)).
  unfold two_digits, ZERO.
  repeat constructor; apply is_digit_iff; lia.
Qed.

Lemma two_digits_value n : 0 <= n < 100 -> digits_value (two_digits n) = n.
Proof.
  intros H. unfold digits_value, two_digits, digit_val, ZERO.
  cbn [fold_left].
  pose proof (Z.div_mod n 10 ltac:(lia)). lia.
Qed.

(** The fields of a formatted representable value. *)
Lemma msToString_representable ms :
  representable ms ->
  let h := ms / 3600000 in
  let m := (ms / 60000) mod 60 in
  let s := (ms / 1000) mod 60 in
  let c := (ms / 10) mod 100 in
  0 <= h < 100 /\
  msToString ms =
    two_digits h ++ [COLON] ++ two_digits m ++ [COLON] ++
    two_digits s ++ [DOT] ++ two_digits c.
Proof.
  unfold representable, MS_PER_HOUR, MS_PER_MINUTE, MS_PER_SECOND.
  intros [Hr Hm]. cbv zeta.
  assert (Hh : 0 <= ms / 3600000 < 100)
    by (split; [apply Z.div_pos; lia | apply Z.div_lt_upper_bound; lia]).
  split; [exact Hh|].
  unfold msToString, formatTime, CENTISECONDS_PER_SECOND. cbn [hh mm ss cc].
  assert (H10 : 0 <= ms / 10) by (apply Z.div_pos; lia).
  assert (H1000 : 0 <= ms / 10 / 100) by (apply Z.div_pos; lia).
  assert (H60000 : 0 <= ms / 10 / 100 / 60) by (apply Z.div_pos; lia).
  rewrite !Z.rem_mod_nonneg by lia.
  rewrite !Z.div_div by lia.
  change (10 * 100) with 1000. change (1000 * 60) with 60000.
  change (60000 * 60) with 3600000.
  rewrite !padStart_String_of.
  all: first
    [ reflexivity
    | exact Hh
    | match goal with
      | |- 0 <= ?x mod ?k < _ =>
          pose proof (Z.mod_pos_bound x k ltac:(lia)); lia
      end ].
Qed.

Lemma dropWhile_head p a r : p a = false -> dropWhile p (a :: r) = a :: r.
Proof. intros H. simpl. now rewrite H. Qed.

(** A string with no white space at either end is its own trim. *)
Lemma trim_no_ws a mid z :
  is_ws a = false -> is_ws z = false ->
  trim (a :: mid ++ [z]) = a :: mid ++ [z].
Proof.
  intros Ha Hz. unfold trim.
  rewrite dropWhile_head by assumption.
  assert (E : rev (a :: mid ++ [z]) = z :: rev (a :: mid)).
  { change (a :: mid ++ [z]) with ((a :: mid) ++ [z]). apply rev_unit. }
  rewrite E, dropWhile_head by assumption.
  rewrite <- E. apply rev_involutive.
Qed.

Lemma trim_between_digits a mid z :
  is_digit a = true -> is_digit z = true ->
  trim (a :: mid ++ [z]) = a :: mid ++ [z].
Proof. intros Ha Hz. apply trim_no_ws; now apply is_digit_not_ws. Qed.

(** A value parses back from its canonical rendering. *)
Lemma parseTime_canonical h m s c :
  0 <= h < 100 -> 0 <= m < 60 -> 0 <= s < 60 -> 0 <= c < 100 ->
  parseTime (two_digits h ++ [COLON] ++ two_digits m ++ [COLON] ++
             two_digits s ++ [DOT] ++ two_digits c)
  = Some (h * 3600000 + m * 60000 + s * 1000 + c * 10).
Proof.
  intros Hh Hm Hs Hc. apply parseTime_accepts.
  pose proof (two_digits_digits12 h Hh) as Dh.
  pose proof (two_digits_digits12 c Hc) as Dc.
  assert (Et : trim (two_digits h ++ [COLON] ++ two_digits m ++ [COLON] ++
                     two_digits s ++ [DOT] ++ two_digits c)
               = two_digits h ++ [COLON] ++ two_digits m ++ [COLON] ++
                 two_digits s ++ [DOT] ++ two_digits c).
  { destruct Dh as [_ Fh], Dc as [_ Fc]. unfold two_digits in *. simpl.
    apply (trim_between_digits _
             [ZERO + h mod 10; COLON; ZERO + m / 10; ZERO + m mod 10; COLON;
              ZERO + s / 10; ZERO + s mod 10; DOT; ZERO + c / 10]).
    - exact (Forall_inv Fh).
    - exact (Forall_inv (Forall_inv_tail Fc)). }
  rewrite Et.
  exists (two_digits h), (two_digits m), (two_digits s), (two_digits c).
  rewrite !two_digits_value by lia.
  repeat split; try lia; try (apply two_digits_digits12; lia).
  all: try (left; reflexivity); try (right; reflexivity).
Qed.

(** Whatever [parseTime] returns is a representable value. *)
Lemma parseTime_representable str ms :
  parseTime str = Some ms -> representable ms.
Proof.
  intros H. apply parseTime_accepts in H
    as (Hh & Hm & Hs & Hc & (_ & D1 & D2 & D3 & D4) & B1 & B2 & B3 & ->).
  apply digits_value_bounds in D1, D2, D3, D4.
  unfold representable, MS_PER_HOUR, MS_PER_MINUTE, MS_PER_SECOND.
  split; [lia|].
  replace (digits_value Hh * 3600000 + digits_value Hm * 60000 +
           digits_value Hs * 1000 + digits_value Hc * 10)
    with ((digits_value Hh * 360000 + digits_value Hm * 6000 +
           digits_value Hs * 100 + digits_value Hc) * 10) by ring.
  apply Z.mod_mul. lia.
Qed.

End CodecRoundTrip.

Section CodecClaims.
Import JS Codec CodecSpec.

(** The four fields of a representable value add up to it again. *)
Lemma fields_recompose ms :
  representable ms ->
  ms / 3600000 * 3600000 + (ms / 60000) mod 60 * 60000 +
  (ms / 1000) mod 60 * 1000 + (ms / 10) mod 100 * 10 = ms.
Proof.
  intros [_ Hm].
  pose proof (Z.div_div ms 10 100 ltac:(lia) ltac:(lia)) as E2.
  pose proof (Z.div_div ms 1000 60 ltac:(lia) ltac:(lia)) as E3.
  pose proof (Z.div_div ms 60000 60 ltac:(lia) ltac:(lia)) as E4.
  change (10 * 100) with 1000 in E2. change (1000 * 60) with 60000 in E3.
  change (60000 * 60) with 3600000 in E4.
  pose proof (Z.div_mod ms 10 ltac:(lia)) as M1.
  pose proof (Z.div_mod (ms / 10) 100 ltac:(lia)) as M2.
  pose proof (Z.div_mod (ms / 1000) 60 ltac:(lia)) as M3.
  pose proof (Z.div_mod (ms / 60000) 60 ltac:(lia)) as M4.
  rewrite E2 in M2. rewrite E3 in M3. rewrite E4 in M4.
  lia.
Qed.

(** C5. For every [ms] in the codec's representable range (whole
    centiseconds from 0 up to, not including, one hundred hours),
    parsing the formatted string gives [ms] back:
    [parseTime (msToString ms) = ms]. *)
Theorem parse_format_roundtrip ms :
  representable ms -> parseTime (msToString ms) = Some ms.
Proof.
  intros R.
  (* the display string is the four zero-padded fields *)
  destruct (msToString_representable ms R) as [Hh ->].
  (* each field is in range, so the string matches and passes the checks *)
  rewrite parseTime_canonical;
    try (apply Z.mod_pos_bound; lia); try exact Hh.
  (* and the fields add up to [ms] *)
  f_equal. now apply fields_recompose.
Qed.

Lemma parse_format_roundtrip_witness :
  representable 3723450 /\ parseTime (msToString 3723450) = Some 3723450.
Proof.
  assert (R : representable 3723450).
  { unfold representable. split; [vm_compute; split; [discriminate | reflexivity] | reflexivity]. }
  split; [exact R | exact (parse_format_roundtrip 3723450 R)].
Defined.

(** The representable range is exactly where the round trip holds, and
    exactly the set of values [parseTime] can return. *)
Lemma roundtrip_iff_representable ms :
  parseTime (msToString ms) = Some ms <-> representable ms.
Proof.
  split; [apply parseTime_representable|].
  intros R. destruct (msToString_representable ms R) as [Hh ->].
  rewrite parseTime_canonical;
    try (apply Z.mod_pos_bound; lia); try exact Hh.
  f_equal. now apply fields_recompose.
Qed.

Lemma representable_iff_parsed ms :
  representable ms <-> exists str, parseTime str = Some ms.
Proof.
  split.
  - intros R. exists (msToString ms). now apply roundtrip_iff_representable.
  - intros [str H]. now apply parseTime_representable in H.
Qed.

(** Outside the range the display string does not parse back to the
    value: the display drops the milliseconds digit, and a third hours
    digit does not match the pattern. *)
Example roundtrip_drops_ms : parseTime (msToString 12345) = Some 12340.
Proof. reflexivity. Qed.

Example roundtrip_hundred_hours : parseTime (msToString 360000000) = None.
Proof. reflexivity. Qed.

(** C6, as stated, fails: a string that does not match the strict pattern
    (it begins with a space) is accepted, because [parseTime] trims its
    input before matching. *)
Lemma parse_untrimmed_counterexample :
  parseTime (lit " 1:2:3.4") = Some 3723040 /\
  ~ (exists ms, accepts (lit " 1:2:3.4") ms).
Proof.
  split; [reflexivity|].
  intros (ms & H & M & S & C & (Hs & [Hlen Hall] & _) & _).
  destruct H as [|h H']; [simpl in Hlen; lia|].
  injection Hs as <- _.
  pose proof (Forall_inv Hall) as Hd. discriminate Hd.
Qed.

(** C6, amended. [parseTime] returns the millisecond count
    [hours*3600000 + minutes*60000 + seconds*1000 + centiseconds*10] for
    exactly the strings that, once leading and trailing white space is
    trimmed, match the strict pattern [H{1,2}:M{1,2}:S{1,2}.C{1,2}] with
    minutes < 60, seconds < 60 and centiseconds < 100, and returns invalid
    for every other string; ["00:60:00.00"], ["00:00:60.00"] and ["abc"] are
    invalid, ["1:2:3.4"] is accepted. *)
Theorem parseTime_trimmed_pattern :
  (forall str ms, parseTime str = Some ms <-> accepts (trim str) ms) /\
  (forall str, parseTime str = None <-> ~ (exists ms, accepts (trim str) ms)) /\
  parseTime (lit "00:60:00.00") = None /\
  parseTime (lit "00:00:60.00") = None /\
  parseTime (lit "abc") = None /\
  parseTime (lit "1:2:3.4") = Some (1 * 3600000 + 2 * 60000 + 3 * 1000 + 4 * 10).
Proof.
  split; [exact parseTime_accepts|].
  split; [|repeat split; reflexivity].
  intros str. split.
  - intros HN (ms & A). apply parseTime_accepts in A. congruence.
  - intros HN. destruct (parseTime str) as [ms|] eqn:E; [|reflexivity].
    exfalso. apply HN. exists ms. now apply parseTime_accepts.
Qed.

End CodecClaims.

(* ====================================================================== *)
(** ** Properties of the clock worker *)
(* ====================================================================== *)

Section WorkerFacts.
Import Msg Worker.

Lemma clear_own i : Timers.clear (Some i) [i] = [].
Proof. simpl. now rewrite Nat.eqb_refl. Qed.

(** The claimed invariant is kept by every message on its own. *)
Lemma onmessage_scheduled_iff_running m now w :
  scheduled_iff_running w -> scheduled_iff_running (onmessage m now w).
Proof.
  unfold scheduled_iff_running.
  destruct w as [r st acc ti iv nid po]. cbn [running tickInterval].
  intros Hiff.
  assert (Hr : r = true -> ti <> None) by (intros Hr; now apply Hiff).
  assert (Hn : r = false -> ti = None).
  { intros ->. destruct ti as [i|]; [|reflexivity].
    assert (false = true) by (apply Hiff; discriminate). discriminate. }
  destruct r.
  - specialize (Hr eq_refl). clear Hn Hiff.
    destruct m as [p| | | |]; cbn; try (split; congruence);
      destruct ti; cbn; split; congruence.
  - rewrite (Hn eq_refl). clear Hr Hn Hiff.
    destruct m as [p| | | |]; cbn; split; congruence.
Qed.

Lemma step_consistent e w : consistent w -> consistent (step e w).
Proof.
  unfold consistent, scheduled_iff_running.
  destruct w as [r st acc ti iv nid po]. cbn [running tickInterval intervals].
  intros [Hiff ->].
  assert (Hr : r = true -> exists i, ti = Some i).
  { intros ->. destruct ti as [i|]; [eauto|].
    exfalso. now apply (proj2 Hiff eq_refl). }
  assert (Hn : r = false -> ti = None).
  { intros ->. destruct ti as [i|]; [|reflexivity].
    assert (false = true) by (apply Hiff; discriminate). discriminate. }
  destruct r.
  - destruct (Hr eq_refl) as [i ->]. clear Hr Hn Hiff.
    destruct e as [[p| | | |] now | id now];
      cbn -[Timers.clear]; rewrite ?clear_own;
      try (destruct (Nat.eqb id i)); cbn;
      (split; [split; [reflexivity + congruence | discriminate + congruence] | reflexivity]).
  - rewrite (Hn eq_refl). clear Hr Hn Hiff.
    destruct e as [[p| | | |] now | id now]; cbn;
      (split; [split; [reflexivity + congruence | discriminate + congruence] | reflexivity]).
Qed.

Lemma run_consistent es : forall w, consistent w -> consistent (run es w).
Proof.
  induction es as [|e es IH]; intros w Hw; [exact Hw|].
  apply (IH (step e w)). now apply step_consistent.
Qed.

Lemma initial_consistent : consistent initial.
Proof.
  split; [|reflexivity]. unfold scheduled_iff_running. cbn.
  split; [intros H; now elim H | discriminate].
Qed.

Lemma consistent_one_loop w : consistent w -> (List.length (intervals w) <= 1)%nat.
Proof. intros [_ ->]. destruct (tickInterval w); simpl; lia. Qed.

(** C9. In the worker, "a tick interval is scheduled exactly when [running]
    is true" holds initially and is kept by any incoming message (start,
    pause, reset, getState, unknown); in every reachable state the context
    holds at most one live tick loop, the one in [tickInterval], and a
    start that arrives while running changes nothing. *)
Theorem worker_tick_loop_invariant :
  scheduled_iff_running initial /\
  (forall m now w,
     scheduled_iff_running w -> scheduled_iff_running (onmessage m now w)) /\
  (forall es, consistent (run es initial) /\
              (List.length (intervals (run es initial)) <= 1)%nat) /\
  (forall payload now w, running w = true -> onmessage (WStart payload) now w = w).
Proof.
  split; [exact (proj1 initial_consistent)|].
  split; [exact onmessage_scheduled_iff_running|].
  split.
  - intros es. pose proof (run_consistent es _ initial_consistent) as H.
    split; [exact H | now apply consistent_one_loop].
  - intros payload now w H. cbn. unfold start. now rewrite H.
Qed.

Lemma worker_tick_loop_invariant_witness :
  scheduled_iff_running initial /\
  scheduled_iff_running (onmessage (WStart (Some (Some 0))) 10 initial) /\
  onmessage (WStart None) 20 (onmessage (WStart (Some (Some 0))) 10 initial)
  = onmessage (WStart (Some (Some 0))) 10 initial.
Proof.
  destruct worker_tick_loop_invariant as (H0 & Hstep & _ & Hdup).
  split; [exact H0|].
  split; [exact (Hstep (WStart (Some (Some 0))) 10 initial H0)|].
  exact (Hdup None 20 (onmessage (WStart (Some (Some 0))) 10 initial) eq_refl).
Defined.

(** C10. A start message whose payload is absent, or carries no [fromMs],
    starts from the worker's accumulated time: a worker paused at [e]
    answers 'started' with elapsed [e] and its next ticks count on from
    [e]. *)
Theorem start_without_fromMs_resumes payload e now w :
  payload = None \/ payload = Some None ->
  running w = false -> accumulatedMs w = e ->
  let w' := onmessage (WStart payload) now w in
  posted w' = posted w ++ [MStarted e] /\
  running w' = true /\ accumulatedMs w' = e /\ startTime w' = now /\
  forall later, posted (tick later w') = posted w' ++ [MTick (e + (later - now))].
Proof.
  intros Hp Hr He. assert (Hf : fromMs_or payload (accumulatedMs w) = e)
    by (destruct Hp as [-> | ->]; exact He).
  cbn. rewrite Hf. unfold start. rewrite Hr. cbn. repeat split.
Qed.

Lemma start_without_fromMs_resumes_witness :
  let paused := onmessage WPause 5010 (onmessage (WStart (Some (Some 0))) 10 initial) in
  running paused = false /\ accumulatedMs paused = 5000 /\
  posted (onmessage (WStart None) 9000 paused) = posted paused ++ [MStarted 5000].
Proof.
  cbv zeta.
  split; [reflexivity|]. split; [reflexivity|].
  exact (proj1 (start_without_fromMs_resumes None 5000 9000
                  (onmessage WPause 5010 (onmessage (WStart (Some (Some 0))) 10 initial))
                  (or_introl eq_refl) eq_refl eq_refl)).
Defined.

(** The pause that precedes: a running worker reports the elapsed value it
    will later resume from. *)
Lemma pause_reports_accumulated now w :
  running w = true ->
  let e := accumulatedMs w + (now - startTime w) in
  posted (pause now w) = posted w ++ [MPaused e] /\
  running (pause now w) = false /\ accumulatedMs (pause now w) = e.
Proof.
  intros Hr. unfold pause. rewrite Hr. cbn.
  destruct (tickInterval w); cbn; repeat split.
Qed.

End WorkerFacts.

(* ====================================================================== *)
(** ** Properties of the controller *)
(* ====================================================================== *)

Import JS Codec Msg Script SessionSpec.

Arguments formatTime : simpl never.
Arguments msToString : simpl never.
Arguments parseTime : simpl never.
Arguments parseInt : simpl never.
Arguments String_of : simpl never.
Arguments Z.max : simpl never.
Arguments Z.mul : simpl never.
Arguments Z.add : simpl never.
Arguments Z.sub : simpl never.

(** Take a controller apart into its fields. *)
Ltac break c :=
  destruct c as [[?m ?r ?e ?t ?cc ?mu ?af ?wf] ?fst ?facc ?fint ?ed
                 [?fr ?tm ?nid ?sc] [?tmn ?tms ?btn ?edv] ?ob ?ef].

Section ControllerFacts.

Lemma updateDisplay_with_eq h ms c :
  updateDisplay_with h ms c = if due ms c then h (shown ms c) else shown ms c.
Proof. unfold updateDisplay_with, due, shown. now destruct (mode (state c)). Qed.

Lemma due_idle ms c : running (state c) = false -> due ms c = false.
Proof.
  unfold due. intros ->. destruct (mode (state c)); [reflexivity|].
  now rewrite andb_false_r.
Qed.

Lemma due_completed ms c : countdownCompleted (state c) = true -> due ms c = false.
Proof.
  unfold due. intros ->. destruct (mode (state c)); [reflexivity|].
  now rewrite andb_false_r.
Qed.

Lemma updateDisplay_depth_idle n ms c :
  running (state c) = false -> updateDisplay_depth (S n) ms c = shown ms c.
Proof. intros H. cbn [updateDisplay_depth]. now rewrite updateDisplay_with_eq, due_idle. Qed.

Lemma stopRenderLoop_running c : running (state (stopRenderLoop c)) = running (state c).
Proof. unfold stopRenderLoop. now destruct (animationFrameId (state c)). Qed.

(** [pauseTimer] only ever calls [updateDisplay] on a session that is no
    longer running. *)
Lemma pauseTimer_with_ext u1 u2 c :
  (forall ms c', running (state c') = false -> u1 ms c' = u2 ms c') ->
  pauseTimer_with u1 c = pauseTimer_with u2 c.
Proof.
  intros H. unfold pauseTimer_with.
  destruct (running (state c)); [|reflexivity]. cbn [negb].
  destruct (workerFallback (state c)); [|reflexivity].
  f_equal. apply H. now rewrite stopRenderLoop_running.
Qed.

Lemma handleCountdownComplete_with_ext u1 u2 c :
  (forall ms c', running (state c') = false -> u1 ms c' = u2 ms c') ->
  handleCountdownComplete_with u1 c = handleCountdownComplete_with u2 c.
Proof.
  intros H. unfold handleCountdownComplete_with.
  now rewrite (pauseTimer_with_ext u1 u2).
Qed.

(** More depth than two changes nothing: the call cycle always closes. *)
Lemma updateDisplay_depth_enough n ms c :
  updateDisplay_depth (S (S n)) ms c = updateDisplay ms c.
Proof.
  unfold updateDisplay. cbn [updateDisplay_depth].
  rewrite !updateDisplay_with_eq. destruct (due ms c); [|reflexivity].
  apply handleCountdownComplete_with_ext. intros ms' c' Hc'.
  rewrite !updateDisplay_with_eq, !due_idle; auto.
Qed.

(** The definition satisfies the source's equation for [updateDisplay]. *)
Lemma updateDisplay_fixpoint ms c :
  updateDisplay ms c = updateDisplay_with handleCountdownComplete ms c.
Proof.
  unfold handleCountdownComplete. rewrite <- (updateDisplay_depth_enough 1).
  reflexivity.
Qed.

Lemma updateDisplay_eq ms c :
  updateDisplay ms c =
  if due ms c then handleCountdownComplete (shown ms c) else shown ms c.
Proof. now rewrite updateDisplay_fixpoint, updateDisplay_with_eq. Qed.

Lemma updateDisplay_idle ms c :
  running (state c) = false -> updateDisplay ms c = shown ms c.
Proof. intros H. now rewrite updateDisplay_eq, due_idle. Qed.

Lemma updateDisplay_completed ms c :
  countdownCompleted (state c) = true -> updateDisplay ms c = shown ms c.
Proof. intros H. now rewrite updateDisplay_eq, due_completed. Qed.

Lemma updateDisplay_stopwatch ms c :
  mode (state c) = MODE_STOPWATCH -> updateDisplay ms c = shown ms c.
Proof. intros H. rewrite updateDisplay_eq. unfold due. now rewrite H. Qed.

End ControllerFacts.

Arguments updateDisplay : simpl never.

(** Resolve the nested [updateDisplay] calls and the case distinctions of a
    handler applied to a controller given by its fields, one reduction at a
    time. *)
Ltac settle :=
  repeat first
    [ progress cbn in *
    | rewrite updateDisplay_idle by reflexivity
    | rewrite updateDisplay_completed by reflexivity
    | rewrite updateDisplay_stopwatch by reflexivity
    | match goal with
      | |- context [match ?x with _ => _ end] => is_var x; destruct x
      | |- context [if ?x then _ else _] => destruct x eqn:?
      | |- context [match ?x with _ => _ end] => destruct x eqn:?
      end ].

Section Completion.

Lemma shown_state ms c : state (shown ms c) = state c.
Proof. reflexivity. Qed.

Lemma shown_effects ms c : effects (shown ms c) = effects c.
Proof. reflexivity. Qed.

(** With the flag set, an event that is not a reset, a fresh start or a
    mode change leaves the flag set and emits no completion. *)
Lemma step_keeps_completed e c :
  countdownCompleted (state c) = true ->
  clears_completed e c = false ->
  countdownCompleted (state (step e c)) = true /\
  completions (step e c) = completions c.
Proof.
  intros Hc Hn. break c. cbn in Hc. subst.
  destruct e as [now| | | | |v| | | |k now|id|id now|msg| |hid];
    try destruct k; try destruct msg; cbn in Hn; try discriminate;
    unfold step, toggleStartPause, startTimer, resetTimer, toggleMode, setMode,
      toggleMute, enterEditMode, exitEditMode, renderLoop, fallbackTick,
      onWorkerMessage, onWorkerError, fallbackToMainThread, onVisibilityChange,
      pauseTimer, pauseTimer_with, startRenderLoop, stopRenderLoop, completions;
    settle; try discriminate; auto.
  all: split; [reflexivity | now rewrite filter_app, length_app, Nat.add_0_r].
Qed.

Lemma run_keeps_completed es : forall c,
  countdownCompleted (state c) = true ->
  no_clear es c = true ->
  countdownCompleted (state (run es c)) = true /\
  completions (run es c) = completions c.
Proof.
  induction es as [|e es IH]; intros c Hc Hn; [auto|].
  cbn in Hn. apply andb_true_iff in Hn as [Hn1 Hn2].
  apply negb_true_iff in Hn1.
  destruct (step_keeps_completed e c Hc Hn1) as [Hc' Hk].
  destruct (IH (step e c) Hc' Hn2) as [Hc'' Hk'].
  change (run (e :: es) c) with (run es (step e c)).
  split; [exact Hc'' | now rewrite Hk'].
Qed.

Lemma due_at_zero ms c :
  mode (state c) = MODE_COUNTDOWN -> running (state c) = true ->
  countdownCompleted (state c) = false ->
  countdownTargetMs (state c) - ms <= 0 -> due ms c = true.
Proof.
  unfold due. intros -> -> -> H. now rewrite Z.max_l by lia.
Qed.

(** When the test passes, completion fires once, sets the flag and pauses:
    at once on the fallback clock, by a pause request on the worker clock. *)
Lemma completion_fires ms c :
  mode (state c) = MODE_COUNTDOWN -> running (state c) = true ->
  countdownCompleted (state c) = false ->
  countdownTargetMs (state c) - ms <= 0 ->
  let c' := updateDisplay ms c in
  effects c' = effects c ++ AnnounceCountdownComplete :: Pulse ::
                 (if muted (state c) then [] else [Beep; Vibrate]) /\
  completions c' = S (completions c) /\
  countdownCompleted (state c') = true /\
  (if workerFallback (state c)
   then running (state c') = false /\ fallbackInterval c' = None /\
        outbox c' = outbox c
   else outbox c' = outbox c ++ [WPause]).
Proof.
  intros Hm Hr Hc Ht. cbv zeta.
  rewrite updateDisplay_eq, (due_at_zero ms c Hm Hr Hc Ht).
  break c. cbn in Hm, Hr, Hc. subst.
  unfold handleCountdownComplete, handleCountdownComplete_with,
    pauseTimer_with, stopRenderLoop, completions.
  settle; rewrite <- ?app_assoc; cbn;
    rewrite ?filter_app, ?length_app; cbn; repeat split; auto; lia.
Qed.

End Completion.

Section ModeSwitch.

Lemma due_positive_target c :
  0 < countdownTargetMs (state c) -> due 0 c = false.
Proof.
  intros H. unfold due. destruct (mode (state c)); [reflexivity|].
  assert ((Z.max 0 (countdownTargetMs (state c) - 0) =? 0) = false) as ->
    by (apply Z.eqb_neq; lia).
  reflexivity.
Qed.

Lemma loaded_target_positive c :
  0 <= countdownTargetMs (state c) -> 0 < loaded_target c.
Proof.
  intros H. unfold loaded_target.
  assert (P : forall t1, 0 <= t1 -> 0 < (if t1 =? 0 then 5 * MS_PER_MINUTE else t1)).
  { intros t1 H1. destruct (t1 =? 0) eqn:E; [reflexivity|].
    apply Z.eqb_neq in E. lia. }
  apply P.
  destruct (storedCountdown (host c)) as [[|x s]|]; auto.
  destruct (parseInt (x :: s)) as [ms|]; auto.
  destruct (ms >? 0) eqn:E; auto.
  rewrite Z.gtb_ltb in E. apply Z.ltb_lt in E. lia.
Qed.

Ltac positive_target :=
  cbn;
  repeat match goal with
         | H : (_ >? _) = true |- _ => rewrite Z.gtb_ltb in H; apply Z.ltb_lt in H
         | H : (_ =? _) = false |- _ => apply Z.eqb_neq in H
         end;
  first [reflexivity | lia].

(** [if (state.running) pauseTimer()]: what it changes and what it keeps.
    On the fallback clock the session is paused on return; on the worker
    clock a pause request is posted and [running] stays as it was. *)
Lemma pause_if_running c :
  let p := if running (state c) then pauseTimer c else c in
  (mode (state p) = mode (state c) /\
   elapsedMs (state p) = elapsedMs (state c) /\
   countdownTargetMs (state p) = countdownTargetMs (state c) /\
   countdownCompleted (state p) = countdownCompleted (state c)) /\
  (running (state p) = running (state c) && negb (workerFallback (state c)) /\
   workerFallback (state p) = workerFallback (state c) /\
   isEditing p = isEditing c /\
   storedCountdown (host p) = storedCountdown (host c) /\
   editorValue (dom p) = editorValue (dom c)) /\
  outbox p = outbox c ++
    (if running (state c) && negb (workerFallback (state c)) then [WPause] else []) /\
  effects p = effects c.
Proof.
  break c. unfold pauseTimer, pauseTimer_with, stopRenderLoop.
  settle; rewrite ?app_nil_r; repeat split; reflexivity.
Qed.

(** What [setMode] does to a session in the other mode. *)
Lemma setMode_switches m c :
  mode (state c) <> m -> 0 <= countdownTargetMs (state c) ->
  let c' := setMode m c in
  mode (state c') = m /\ elapsedMs (state c') = 0 /\
  countdownCompleted (state c') = false /\
  countdownTargetMs (state c') =
    match m with
    | MODE_COUNTDOWN => loaded_target c
    | MODE_STOPWATCH => countdownTargetMs (state c)
    end /\
  running (state c') = running (state c) && negb (workerFallback (state c)) /\
  workerFallback (state c') = workerFallback (state c) /\
  outbox c' = outbox c ++
    (if running (state c) && negb (workerFallback (state c)) then [WPause] else []) /\
  effects c' = effects c.
Proof.
  intros Hm Ht. cbv zeta. unfold setMode.
  assert (mode_eqb (mode (state c)) m = false) as ->
    by (destruct (mode (state c)), m; auto; now elim Hm).
  unfold loaded_target.
  destruct (pause_if_running c) as ((_ & _ & <- & _) & (<- & <- & _ & <- & _) & <- & <-).
  rewrite <- (proj1 (proj2 (proj2 (proj1 (pause_if_running c))))) in Ht.
  generalize dependent (if running (state c) then pauseTimer c else c).
  clear c Hm. intros p Ht. break p. cbn in Ht.
  destruct m, sc as [[|x s]|]; cbn.
  all: rewrite ?updateDisplay_stopwatch by reflexivity; cbn.
  all: try destruct (parseInt (x :: s)) as [ms|]; cbn.
  all: repeat match goal with
           | |- context [?a >? 0] => destruct (a >? 0) eqn:?; cbn
           end.
  all: repeat match goal with
           | |- context [?a =? 0] => destruct (a =? 0) eqn:?; cbn
           end.
  all: rewrite ?updateDisplay_eq.
  all: rewrite ?due_positive_target by positive_target; cbn.
  all: repeat split; reflexivity.
Qed.

End ModeSwitch.

Section TargetInvariant.

Ltac nonneg :=
  repeat match goal with
         | H : (_ >? _) = true |- _ => rewrite Z.gtb_ltb in H; apply Z.ltb_lt in H
         | H : parseTime _ = Some _ |- _ =>
             apply parseTime_representable in H; destruct H as [[? _] _]
         end;
  first [assumption | reflexivity | lia | discriminate].

Lemma handleCountdownComplete_target c :
  countdownTargetMs (state (handleCountdownComplete c)) = countdownTargetMs (state c).
Proof.
  unfold handleCountdownComplete, handleCountdownComplete_with,
    pauseTimer_with, stopRenderLoop.
  break c. settle; reflexivity.
Qed.

Lemma updateDisplay_target ms c :
  countdownTargetMs (state (updateDisplay ms c)) = countdownTargetMs (state c).
Proof.
  rewrite updateDisplay_eq. destruct (due ms c); [|reflexivity].
  now rewrite handleCountdownComplete_target.
Qed.

(** The countdown target is never negative: it starts at 0 and is only
    ever set to a positive saved value, to five minutes, or to a parsed
    edit. *)
Lemma step_target_nonneg e c :
  0 <= countdownTargetMs (state c) ->
  0 <= countdownTargetMs (state (step e c)).
Proof.
  intros Ht. break c. cbn in Ht.
  destruct e as [now| | | | |v| | | |k now|id|id now|msg| |hid];
    try destruct k; try destruct msg;
    unfold step, toggleStartPause, startTimer, resetTimer, toggleMode, setMode,
      toggleMute, enterEditMode, exitEditMode, renderLoop, fallbackTick,
      onWorkerMessage, onWorkerError, fallbackToMainThread, onVisibilityChange,
      pauseTimer, pauseTimer_with, startRenderLoop, stopRenderLoop;
    repeat first
      [ progress cbn in *
      | rewrite updateDisplay_target
      | match goal with
        | |- context [match ?x with _ => _ end] => is_var x; destruct x
        | |- context [if ?x then _ else _] => destruct x eqn:?
        | |- context [match ?x with _ => _ end] => destruct x eqn:?
        end ];
    nonneg.
Qed.

Lemma run_target_nonneg es : forall c,
  0 <= countdownTargetMs (state c) ->
  0 <= countdownTargetMs (state (run es c)).
Proof.
  induction es as [|e es IH]; intros c Hc; [exact Hc|].
  apply (IH (step e c)). now apply step_target_nonneg.
Qed.

Lemma init_target_nonneg savedMode savedCountdown savedMute workerOk :
  0 <= countdownTargetMs (state (init savedMode savedCountdown savedMute workerOk)).
Proof.
  unfold init, loadState, initWorker, fallbackToMainThread, boot, setMode.
  destruct savedMode as [[|]|], savedCountdown as [[|x s]|], savedMute, workerOk;
    repeat first
      [ progress cbn in *
      | rewrite updateDisplay_target
      | match goal with
        | |- context [if ?x then _ else _] => destruct x eqn:?
        | |- context [match ?x with _ => _ end] => destruct x eqn:?
        end ];
    nonneg.
Qed.

End TargetInvariant.

Section CompletionClaim.

(** Each of the clearing events does clear the flag. *)
Lemma step_clears_completed e c :
  0 <= countdownTargetMs (state c) ->
  clears_completed e c = true ->
  countdownCompleted (state (step e c)) = false.
Proof.
  intros Ht Hcl.
  assert (Htoggle : countdownCompleted (state (toggleMode c)) = false).
  { unfold toggleMode. apply setMode_switches; [|exact Ht].
    now destruct (mode (state c)). }
  assert (Hstart : forall now, running (state c) = false ->
            countdownCompleted (state (toggleStartPause now c)) = false).
  { intros now Hr. unfold toggleStartPause, startTimer, startRenderLoop.
    rewrite Hr. break c. settle; reflexivity. }
  assert (Hreset : workerFallback (state c) = true ->
            countdownCompleted (state (resetTimer c)) = false).
  { intros Hw. unfold resetTimer, stopRenderLoop.
    rewrite Hw. break c. settle; reflexivity. }
  destruct e as [now| | | | |v| | | |k now|id|id now|msg| |hid];
    try destruct k; try destruct msg; cbn in Hcl;
    rewrite ?andb_false_r in Hcl; try discriminate;
    cbn [step];
    try (apply andb_true_iff in Hcl as [Hed Hcl];
         apply negb_true_iff in Hed; rewrite Hed);
    try apply negb_true_iff in Hcl; auto.
  unfold onWorkerMessage, stopRenderLoop. break c. settle; reflexivity.
Qed.

(** What a display update does when it finds a running countdown with
    nothing remaining: the completion event and its side effects fire once,
    [countdownCompleted] is set and the clock is paused (at once on the
    fallback clock, by a pause request on the worker clock); no later event
    fires it again while the flag stands, and a reset, a fresh start or a
    mode change clears the flag.  This starts from the call of
    [updateDisplay]; whether a countdown that reaches its target gets such
    a call is another matter (section [MissedCompletion] below). *)
Theorem completion_fires_exactly_once :
  (forall ms c,
     mode (state c) = MODE_COUNTDOWN -> running (state c) = true ->
     countdownCompleted (state c) = false ->
     countdownTargetMs (state c) - ms <= 0 ->
     let c' := updateDisplay ms c in
     completions c' = S (completions c) /\
     effects c' = effects c ++ AnnounceCountdownComplete :: Pulse ::
                    (if muted (state c) then [] else [Beep; Vibrate]) /\
     countdownCompleted (state c') = true /\
     (if workerFallback (state c)
      then running (state c') = false /\ fallbackInterval c' = None
      else outbox c' = outbox c ++ [WPause]) /\
     forall es, no_clear es c' = true ->
       completions (run es c') = S (completions c) /\
       countdownCompleted (state (run es c')) = true) /\
  (forall e c,
     0 <= countdownTargetMs (state c) -> clears_completed e c = true ->
     countdownCompleted (state (step e c)) = false).
Proof.
  split; [|exact step_clears_completed].
  intros ms c Hm Hr Hc Ht. cbv zeta.
  destruct (completion_fires ms c Hm Hr Hc Ht) as (He & Hn & Hf & Hp).
  repeat split; auto.
  - destruct (workerFallback (state c)); tauto.
  - destruct (run_keeps_completed es _ Hf H) as [_ Hk]. now rewrite Hk.
  - now apply run_keeps_completed.
Qed.

End CompletionClaim.

Section ElapsedUpdates.

(** An elapsed update stores the value and does nothing else. *)
Lemma elapsed_update_only_stores e c :
  is_elapsed_update e = true ->
  step e c = c \/ exists v, step e c = on_state (st_elapsedMs v) c.
Proof.
  destruct e as [now| | | | |v| | | |k now|id|id now|msg| |hid];
    try discriminate; [|destruct msg; try discriminate]; intros _; cbn.
  - destruct (existsb _ _); [right; eexists; reflexivity | left; reflexivity].
  - right. eexists. reflexivity.
Qed.

Lemma elapsed_updates_never_complete es : forall c,
  forallb is_elapsed_update es = true ->
  let c' := run es c in
  countdownCompleted (state c') = countdownCompleted (state c) /\
  running (state c') = running (state c) /\
  effects c' = effects c /\ outbox c' = outbox c /\
  frames (host c') = frames (host c).
Proof.
  induction es as [|e es IH]; intros c H; [cbn; auto 6|].
  cbn [forallb] in H. apply andb_true_iff in H as [He Hes].
  change (run (e :: es) c) with (run es (step e c)). cbv zeta.
  destruct (IH (step e c) Hes) as (-> & -> & -> & -> & ->).
  destruct (elapsed_update_only_stores e c He) as [-> | [v ->]]; auto 6.
Qed.

(** A rendered frame runs the completion test on the stored elapsed
    value. *)
Lemma frame_completes id c :
  existsb (Nat.eqb id) (frames (host c)) = true ->
  mode (state c) = MODE_COUNTDOWN -> running (state c) = true ->
  countdownCompleted (state c) = false ->
  countdownTargetMs (state c) - elapsedMs (state c) <= 0 ->
  let c' := step (Frame id) c in
  completions c' = S (completions c) /\ countdownCompleted (state c') = true.
Proof.
  intros Hid Hm Hr Hc Ht. cbv zeta. cbn [step]. rewrite Hid.
  set (c0 := on_host _ c).
  change (state c) with (state c0) in Hm, Hr, Hc, Ht.
  change (effects c) with (effects c0).
  unfold renderLoop. rewrite Hr.
  destruct (completion_fires (elapsedMs (state c0)) c0 Hm Hr Hc Ht)
    as (_ & Hn & Hf & _).
  assert (G : forall x,
            let y := (let '(i, c1) := requestAnimationFrame x in
                      on_state (st_animationFrameId (Some i)) c1) in
            effects y = effects x /\
            countdownCompleted (state y) = countdownCompleted (state x))
    by (intros x; break x; split; reflexivity).
  destruct (G (updateDisplay (elapsedMs (state c0)) c0)) as [G1 G2].
  unfold completions in *. rewrite G1, G2, Hn, Hf. auto.
Qed.

(** With rendering suspended, the first frame after the surface becomes
    visible again runs the test. *)
Lemma resume_completes c :
  animationFrameId (state c) = None ->
  mode (state c) = MODE_COUNTDOWN -> running (state c) = true ->
  countdownCompleted (state c) = false ->
  countdownTargetMs (state c) - elapsedMs (state c) <= 0 ->
  let c' := run [Visibility false; Frame (nextId (host c))] c in
  completions c' = S (completions c) /\ countdownCompleted (state c') = true.
Proof.
  intros Ha Hm Hr Hc Ht. cbv zeta.
  change (run [Visibility false; Frame (nextId (host c))] c)
    with (step (Frame (nextId (host c))) (step (Visibility false) c)).
  set (c1 := step (Visibility false) c).
  assert (E : state c1 = st_animationFrameId (Some (nextId (host c))) (state c) /\
              effects c1 = effects c /\
              existsb (Nat.eqb (nextId (host c))) (frames (host c1)) = true).
  { subst c1. cbn [step]. unfold onVisibilityChange, startRenderLoop.
    rewrite Hr, Ha. break c. cbn. repeat split.
    rewrite existsb_app. cbn. now rewrite Nat.eqb_refl, orb_true_r. }
  destruct E as (Es & Ee & Hid). clearbody c1.
  pose proof (frame_completes (nextId (host c)) c1 Hid) as F.
  rewrite Es in F.
  cbn [mode running countdownCompleted countdownTargetMs elapsedMs
       st_animationFrameId] in F.
  destruct (F Hm Hr Hc Ht) as [Hn Hf].
  unfold completions in *. rewrite Hn, Ee. auto.
Qed.

End ElapsedUpdates.

Section MissedCompletion.
Import System.

Lemma interval_ticks_are_elapsed_updates id nows :
  forallb is_elapsed_update (map (Interval id) nows) = true.
Proof. induction nows as [|n nows IH]; [reflexivity | exact IH]. Qed.

(** C2 does not hold of the code: a countdown can pass its target while
    Running without the completion event ever firing.  The input is a
    five-second countdown on the fallback clock (no worker could be
    constructed).  It is started at instant 1000 and its interval reports
    5000 ms at instant 6000; frame 2 then fires completion, once, and
    pauses the session, after which [renderLoop] still requests frame 3 and
    records its handle; frame 3 finds the session stopped and leaves the
    handle in place.  The target is then edited to ten seconds and the
    countdown started again at instant 7000: [startRenderLoop] finds a
    handle and requests no frame.  The interval of instant 18000 stores
    11000 ms against a target of 10000 ms: the session is Running with
    nothing remaining, no completion has fired for this run, the display
    still reads 00:00:10, and since no frame is pending no further interval
    callback changes that.  On the worker clock the same input completes a
    second time, because the 'paused' acknowledgement clears the handle. *)
Theorem stale_frame_handle_loses_completion :
  let c0 := init (Some MODE_COUNTDOWN) (Some (lit "5000")) false false in
  let c1 := Script.run [ClickStartPause 1000; Interval 1 6000; Frame 2; Frame 3] c0 in
  let c2 := Script.run [ClickDisplay; EditorInput (lit "00:00:10.00"); EditorEnter;
                        ClickStartPause 7000] c1 in
  let c3 := Script.step (Interval 4 18000) c2 in
  (completions c1 = 1%nat /\ running (state c1) = false /\
   countdownCompleted (state c1) = true /\
   animationFrameId (state c1) = Some 3%nat /\ frames (host c1) = []) /\
  (mode (state c2) = MODE_COUNTDOWN /\ running (state c2) = true /\
   countdownTargetMs (state c2) = 10000 /\ elapsedMs (state c2) = 0 /\
   countdownCompleted (state c2) = false /\
   animationFrameId (state c2) = Some 3%nat /\ frames (host c2) = [] /\
   timers (host c2) = [4%nat]) /\
  (running (state c3) = true /\ elapsedMs (state c3) = 11000 /\
   countdownTargetMs (state c3) = 10000 /\
   countdownCompleted (state c3) = false /\ completions c3 = 1%nat /\
   frames (host c3) = [] /\ timeMain (dom c3) = lit "00:00:10") /\
  (forall nows,
     let c4 := Script.run (map (Interval 4) nows) c3 in
     running (state c4) = true /\ countdownCompleted (state c4) = false /\
     completions c4 = 1%nat /\ frames (host c4) = []) /\
  let s1 := System.run [Main (ClickStartPause 1000); ToWorker 1000; ToMain; ToMain;
                        WorkerTimer 1 6000; ToMain; Main (Frame 1);
                        ToWorker 6000; ToMain]
              (start_up (Some MODE_COUNTDOWN) (Some (lit "5000")) false) in
  let s2 := System.run [Main ClickDisplay; Main (EditorInput (lit "00:00:10.00"));
                        Main EditorEnter; Main (ClickStartPause 7000);
                        ToWorker 7000; ToMain] s1 in
  let s3 := System.run [WorkerTimer 2 18000; ToMain; Main (Frame 3)] s2 in
  (completions (ctl s1) = 1%nat /\ animationFrameId (state (ctl s1)) = None) /\
  (running (state (ctl s2)) = true /\ frames (host (ctl s2)) = [3%nat]) /\
  (elapsedMs (state (ctl s3)) = 11000 /\ countdownCompleted (state (ctl s3)) = true /\
   completions (ctl s3) = 2%nat).
Proof.
  cbv zeta.
  split; [vm_compute; repeat split|].
  split; [vm_compute; repeat split|].
  split; [vm_compute; repeat split|].
  split; [|vm_compute; repeat split].
  intros nows.
  match goal with
  | |- context [Script.run (map (Interval 4) nows) ?c] =>
      destruct (elapsed_updates_never_complete (map (Interval 4%nat) nows) c
                  (interval_ticks_are_elapsed_updates 4%nat nows))
        as (Hc & Hr & He & _ & Hf)
  end.
  unfold completions. rewrite Hc, Hr, He, Hf.
  vm_compute. repeat split.
Qed.

End MissedCompletion.

Section RenderCadence.
Import Scenario.

(** C3, as stated, fails: a tick carrying an elapsed value past the target
    reaches a running countdown and no completion follows. *)
Lemma tick_completion_counterexample :
  ~ (forall elapsed c,
       mode (state c) = MODE_COUNTDOWN -> running (state c) = true ->
       countdownCompleted (state c) = false ->
       countdownTargetMs (state c) - elapsed <= 0 ->
       let c' := step (WorkerMessage (MTick elapsed)) c in
       countdownCompleted (state c') = true /\
       completions c' = S (completions c)).
Proof.
  intros H.
  destruct (H 6000 hidden_countdown eq_refl eq_refl eq_refl) as [Hf _].
  - vm_compute. discriminate.
  - vm_compute in Hf. discriminate.
Qed.

(** C3, amended. The completion check is part of the display update: an
    incoming elapsed value (a worker tick or a fallback interval callback)
    only stores [elapsedMs], so while rendering is suspended no number of
    elapsed updates fires completion; the check runs on each rendered frame
    of a running countdown, and after a suspension it fires at the first
    frame once the surface is visible again. *)
Theorem completion_check_runs_on_render :
  (forall elapsed c,
     step (WorkerMessage (MTick elapsed)) c = on_state (st_elapsedMs elapsed) c) /\
  (forall es c,
     forallb is_elapsed_update es = true ->
     countdownCompleted (state (run es c)) = countdownCompleted (state c) /\
     completions (run es c) = completions c /\
     outbox (run es c) = outbox c) /\
  (forall id c,
     existsb (Nat.eqb id) (frames (host c)) = true ->
     mode (state c) = MODE_COUNTDOWN -> running (state c) = true ->
     countdownCompleted (state c) = false ->
     countdownTargetMs (state c) - elapsedMs (state c) <= 0 ->
     completions (step (Frame id) c) = S (completions c) /\
     countdownCompleted (state (step (Frame id) c)) = true) /\
  (forall c,
     animationFrameId (state c) = None ->
     mode (state c) = MODE_COUNTDOWN -> running (state c) = true ->
     countdownCompleted (state c) = false ->
     countdownTargetMs (state c) - elapsedMs (state c) <= 0 ->
     completions (run [Visibility false; Frame (nextId (host c))] c)
     = S (completions c)).
Proof.
  split; [reflexivity|]. split; [|split].
  - intros es c H.
    destruct (elapsed_updates_never_complete es c H) as (Hc & _ & He & Ho & _).
    unfold completions. now rewrite He.
  - exact frame_completes.
  - intros c Ha Hm Hr Hc Ht. now apply resume_completes.
Qed.

Lemma completion_check_runs_on_render_witness :
  let c := run [WorkerMessage (MTick 6000)] hidden_countdown in
  completions c = 0%nat /\
  completions (run [Visibility false; Frame (nextId (host c))] c) = 1%nat /\
  completions (step (Frame 1)
                 (step (WorkerMessage (MTick 6000)) (System.ctl countdown_on_worker)))
  = 1%nat.
Proof.
  cbv zeta.
  destruct completion_check_runs_on_render as (_ & Hticks & Hframe & Hresume).
  split; [|split].
  - exact (proj1 (proj2 (Hticks [WorkerMessage (MTick 6000)] hidden_countdown eq_refl))).
  - refine (Hresume (run [WorkerMessage (MTick 6000)] hidden_countdown)
              eq_refl eq_refl eq_refl eq_refl _).
    vm_compute. discriminate.
  - refine (proj1 (Hframe 1%nat
                     (step (WorkerMessage (MTick 6000)) (System.ctl countdown_on_worker))
                     eq_refl eq_refl eq_refl eq_refl _)).
    vm_compute. discriminate.
Defined.

End RenderCadence.

Section WorkerFault.
Import Scenario.


(** The next start on the fallback clock counts on from the stored elapsed
    value. *)
Lemma startTimer_on_fallback now c :
  workerFallback (state c) = true -> running (state c) = false ->
  let c' := startTimer now c in
  running (state c') = true /\
  fallbackAccumulated c' = elapsedMs (state c) /\
  fallbackStartTime c' = now /\
  elapsedMs (state c') = elapsedMs (state c) /\
  (exists id, fallbackInterval c' = Some id /\
              timers (host c') = timers (host c) ++ [id]) /\
  forall later,
    elapsedMs (state (fallbackTick later c')) = elapsedMs (state c) + (later - now).
Proof.
  intros Hw Hr. cbv zeta. unfold startTimer, startRenderLoop, fallbackTick.
  break c. cbn in Hw, Hr. subst. settle; repeat split; eauto.
Qed.







End WorkerFault.

Section TimeEdit.
Import Scenario.

Lemma shown_session ms c : session (shown ms c) = session c.
Proof. reflexivity. Qed.

(** A submission the parser rejects changes no session field when the
    session is not running. *)
Lemma edit_rejected save c :
  running (state c) = false ->
  parseTime (editorValue (dom c)) = None ->
  session (exitEditMode save c) = session c.
Proof.
  intros Hr Hp. unfold exitEditMode. break c. cbn in Hr, Hp. subst.
  destruct ed; [|reflexivity]. cbn. rewrite Hp.
  destruct save; rewrite updateDisplay_idle by reflexivity; reflexivity.
Qed.

(** An accepted submission in Stopwatch mode overwrites [elapsedMs] only. *)
Lemma edit_accepted_stopwatch c ms :
  isEditing c = true -> mode (state c) = MODE_STOPWATCH ->
  parseTime (editorValue (dom c)) = Some ms ->
  session (exitEditMode true c) =
  {| s_mode := MODE_STOPWATCH; s_running := running (state c);
     s_elapsedMs := ms; s_targetMs := countdownTargetMs (state c);
     s_completedFlag := countdownCompleted (state c) |}.
Proof.
  intros He Hm Hp. unfold exitEditMode. break c. cbn in He, Hm, Hp. subst.
  cbn. rewrite Hp. cbn.
  rewrite updateDisplay_stopwatch by reflexivity. reflexivity.
Qed.

(** An accepted submission in Countdown mode overwrites [countdownTargetMs]
    and zeroes [elapsedMs]. *)
Lemma edit_accepted_countdown c ms :
  isEditing c = true -> running (state c) = false ->
  mode (state c) = MODE_COUNTDOWN ->
  parseTime (editorValue (dom c)) = Some ms ->
  session (exitEditMode true c) =
  {| s_mode := MODE_COUNTDOWN; s_running := false;
     s_elapsedMs := 0; s_targetMs := ms;
     s_completedFlag := countdownCompleted (state c) |}.
Proof.
  intros He Hr Hm Hp. unfold exitEditMode. break c. cbn in He, Hr, Hm, Hp.
  subst. cbn. rewrite Hp. cbn.
  rewrite updateDisplay_idle by reflexivity. reflexivity.
Qed.

(** Opening the editor pauses first: the session is paused on return on
    the fallback clock, and a pause request is posted on the worker clock;
    no other session field changes. *)
Lemma enterEditMode_pauses c :
  isEditing c = false ->
  let c' := enterEditMode c in
  isEditing c' = true /\
  running (state c') = running (state c) && negb (workerFallback (state c)) /\
  outbox c' = outbox c ++
    (if running (state c) && negb (workerFallback (state c)) then [WPause] else []) /\
  mode (state c') = mode (state c) /\
  elapsedMs (state c') = elapsedMs (state c) /\
  countdownTargetMs (state c') = countdownTargetMs (state c) /\
  countdownCompleted (state c') = countdownCompleted (state c).
Proof.
  intros He. cbv zeta. unfold enterEditMode. rewrite He.
  change (running (state (set_isEditing true c))) with (running (state c)).
  destruct (pause_if_running (set_isEditing true c))
    as ((Hm & Hel & Ht & Hc) & (Hr & _ & Hed & _) & Ho & _).
  change (running (state (set_isEditing true c))) with (running (state c)) in *.
  revert Hm Hel Ht Hc Hr Hed Ho.
  generalize (if running (state c) then pauseTimer (set_isEditing true c)
              else set_isEditing true c).
  intros p Hm Hel Ht Hc Hr Hed Ho. cbn in Hm, Hel, Ht, Hc, Hr, Hed, Ho.
  cbn. rewrite Hm, Hel, Ht, Hc, Hr, Hed, Ho. auto 8.
Qed.

(** The pause acknowledgement is what makes a session on the worker clock
    not running. *)
Lemma paused_ack_stops e c :
  running (state (onWorkerMessage (MPaused e) c)) = false.
Proof.
  unfold onWorkerMessage.
  rewrite updateDisplay_idle by now rewrite stopRenderLoop_running.
  cbn. now rewrite stopRenderLoop_running.
Qed.

(** What a submission does to a session that is not running, and what
    opening the editor does to one that is.  A submission that the parser
    rejects mutates no session field; an accepted one overwrites only
    [elapsedMs] in Stopwatch mode (running or not), and overwrites
    [countdownTargetMs] and zeroes [elapsedMs] in Countdown mode.  Opening
    the editor during a run asks for a pause first: the session is stopped
    on return on the fallback clock; on the worker clock the request is
    posted and the acknowledgement stops the session.  That a submission
    only ever meets a session that is not running is assumed here, not
    proved: on the worker clock it is not so (section [AcknowledgementLag]
    below). *)
Theorem time_edit_frame :
  (forall save c,
     running (state c) = false ->
     parseTime (editorValue (dom c)) = None ->
     session (exitEditMode save c) = session c) /\
  (forall c ms,
     isEditing c = true -> mode (state c) = MODE_STOPWATCH ->
     parseTime (editorValue (dom c)) = Some ms ->
     session (exitEditMode true c) =
     {| s_mode := MODE_STOPWATCH; s_running := running (state c);
        s_elapsedMs := ms; s_targetMs := countdownTargetMs (state c);
        s_completedFlag := countdownCompleted (state c) |}) /\
  (forall c ms,
     isEditing c = true -> running (state c) = false ->
     mode (state c) = MODE_COUNTDOWN ->
     parseTime (editorValue (dom c)) = Some ms ->
     session (exitEditMode true c) =
     {| s_mode := MODE_COUNTDOWN; s_running := false;
        s_elapsedMs := 0; s_targetMs := ms;
        s_completedFlag := countdownCompleted (state c) |}) /\
  (forall c,
     isEditing c = false ->
     isEditing (enterEditMode c) = true /\
     (workerFallback (state c) = true ->
      running (state (enterEditMode c)) = false) /\
     (workerFallback (state c) = false -> running (state c) = true ->
      outbox (enterEditMode c) = outbox c ++ [WPause] /\
      forall e, running (state (onWorkerMessage (MPaused e) (enterEditMode c))) = false)).
Proof.
  split; [exact edit_rejected|].
  split; [exact edit_accepted_stopwatch|].
  split; [exact edit_accepted_countdown|].
  intros c He.
  destruct (enterEditMode_pauses c He) as (H1 & H2 & H3 & _).
  split; [exact H1|]. split.
  - intros Hw. rewrite H2, Hw. now rewrite andb_false_r.
  - intros Hw Hr. rewrite H3, Hw, Hr. split; [reflexivity|].
    intros e. apply paused_ack_stops.
Qed.

Lemma time_edit_frame_witness :
  let c := on_dom (d_editorValue (lit "01:02:03.45")) (System.ctl editing_stopwatch) in
  (s_elapsedMs (session (exitEditMode true c)) = 3723450 /\
   session (exitEditMode true (on_dom (d_editorValue (lit "abc")) c)) = session c) /\
  (s_targetMs (session (exitEditMode true editing_countdown)) = 10000 /\
   s_elapsedMs (session (exitEditMode true editing_countdown)) = 0) /\
  running (state (enterEditMode countdown_on_fallback)) = false /\
  outbox (enterEditMode (System.ctl stopwatch_on_worker)) = [WPause].
Proof.
  cbv zeta.
  destruct time_edit_frame as (Hrej & Hsw & Hcd & Hen).
  split; [split|split; [|split]].
  - rewrite (Hsw (on_dom (d_editorValue (lit "01:02:03.45")) (System.ctl editing_stopwatch))
               3723450 eq_refl eq_refl eq_refl).
    reflexivity.
  - exact (Hrej true
             (on_dom (d_editorValue (lit "abc"))
                (on_dom (d_editorValue (lit "01:02:03.45")) (System.ctl editing_stopwatch)))
             eq_refl eq_refl).
  - rewrite (Hcd editing_countdown 10000 eq_refl eq_refl eq_refl eq_refl).
    split; reflexivity.
  - exact (proj1 (proj2 (Hen countdown_on_fallback eq_refl)) eq_refl).
  - exact (proj1 (proj2 (proj2 (Hen (System.ctl stopwatch_on_worker) eq_refl))
                   eq_refl eq_refl)).
Defined.

End TimeEdit.

Section ResetAndModeSwitch.
Import Scenario System.








(** On the worker clock the pause acknowledgement of a mode switch arrives
    after the switch and stores the elapsed value of the run. *)
Lemma paused_ack_stores_elapsed e c :
  elapsedMs (state (onWorkerMessage (MPaused e) c)) = e.
Proof.
  unfold onWorkerMessage.
  rewrite updateDisplay_idle by now rewrite stopRenderLoop_running.
  unfold stopRenderLoop. break c. destruct af; reflexivity.
Qed.

Lemma paused_ack_keeps_mode e c :
  mode (state (onWorkerMessage (MPaused e) c)) = mode (state c).
Proof.
  unfold onWorkerMessage.
  rewrite updateDisplay_idle by now rewrite stopRenderLoop_running.
  unfold stopRenderLoop. break c. destruct af; reflexivity.
Qed.

(** On the worker clock, for every running session: when the toggle
    returns the session is still Running with [elapsedMs] 0 and the pause
    only posted; the acknowledgement then stops it and stores the elapsed
    time of the run. *)
Lemma mode_switch_on_worker now s :
  workerFallback (state (ctl s)) = false ->
  outbox (ctl s) = [] -> Worker.posted (wk s) = [] ->
  running (state (ctl s)) = true -> Worker.running (wk s) = true ->
  0 <= countdownTargetMs (state (ctl s)) ->
  let s1 := System.step (Main ClickMode) s in
  (mode (state (ctl s1)) <> mode (state (ctl s)) /\
   running (state (ctl s1)) = true /\ elapsedMs (state (ctl s1)) = 0) /\
  let s2 := System.run [ToWorker now; ToMain] s1 in
  mode (state (ctl s2)) = mode (state (ctl s1)) /\
  running (state (ctl s2)) = false /\
  elapsedMs (state (ctl s2)) =
    Worker.accumulatedMs (wk s) + (now - Worker.startTime (wk s)).
Proof.
  destruct s as [c w]. cbn [ctl wk]. intros Hw Ho Hp Hr Hwr Ht. cbv zeta.
  cbn [System.step ctl wk Script.step].
  assert (Hm : mode (state c) <>
               match mode (state c) with
               | MODE_STOPWATCH => MODE_COUNTDOWN
               | MODE_COUNTDOWN => MODE_STOPWATCH
               end) by (destruct (mode (state c)); discriminate).
  destruct (setMode_switches _ c Hm Ht) as (H1 & H2 & _ & _ & H5 & _ & H7 & _).
  fold (toggleMode c) in H1, H2, H5, H7.
  rewrite Hw, Hr in H5, H7. rewrite Ho in H7. cbn in H5, H7.
  split.
  { rewrite H1. repeat split; auto. }
  change (System.run [ToWorker now; ToMain] {| ctl := toggleMode c; wk := w |})
    with (System.step ToMain
            (System.step (ToWorker now) {| ctl := toggleMode c; wk := w |})).
  cbn [System.step ctl wk]. rewrite H7. cbn [Worker.onmessage ctl wk].
  destruct (pause_reports_accumulated now w Hwr) as (Hq & _ & _).
  rewrite Hq, Hp. cbn [app ctl wk].
  repeat split.
  - now rewrite paused_ack_keeps_mode.
  - apply paused_ack_stops.
  - apply paused_ack_stores_elapsed.
Qed.

(** The session as [setMode] returns it.  A call with a new mode on a
    running session requests a pause first: on the fallback clock the
    session is Paused before the switch completes, on the worker clock the
    pause message is posted and the session is Paused when its
    acknowledgement arrives.  At its return [setMode] has set the mode,
    reset [elapsedMs] to 0 and cleared [countdownCompleted]; on a switch
    into Countdown mode the target is the saved value when that reads as a
    positive number, otherwise the current target, and five minutes
    (300000 ms) when that is 0.  On the worker clock the 0 does not outlast
    the acknowledgement (section [AcknowledgementLag] below). *)
Theorem setMode_pauses_then_resets :
  forall m c,
    mode (state c) <> m -> 0 <= countdownTargetMs (state c) ->
    let c' := setMode m c in
    (mode (state c') = m /\ elapsedMs (state c') = 0 /\
     countdownCompleted (state c') = false) /\
    (workerFallback (state c) = true ->
     running (state c') = false /\ outbox c' = outbox c) /\
    (workerFallback (state c) = false -> running (state c) = true ->
     running (state c') = true /\ outbox c' = outbox c ++ [WPause] /\
     forall e, running (state (onWorkerMessage (MPaused e) c')) = false /\
               mode (state (onWorkerMessage (MPaused e) c')) = m) /\
    countdownTargetMs (state c') =
      match m with
      | MODE_COUNTDOWN => loaded_target c
      | MODE_STOPWATCH => countdownTargetMs (state c)
      end /\
    (m = MODE_COUNTDOWN -> storedCountdown (host c) = None ->
     countdownTargetMs (state c) = 0 ->
     countdownTargetMs (state c') = 300000).
Proof.
  intros m c Hm Ht. cbv zeta.
  destruct (setMode_switches m c Hm Ht) as (H1 & H2 & H3 & H4 & H5 & _ & H7 & _).
  split; [auto|]. split; [|split; [|split]].
  - intros Hw. rewrite Hw, andb_false_r in H5, H7.
    rewrite app_nil_r in H7. auto.
  - intros Hw Hr. rewrite Hw, Hr in H5, H7. cbn in H5, H7.
    repeat split; auto.
    + apply paused_ack_stops.
    + now rewrite paused_ack_keeps_mode.
  - exact H4.
  - intros -> Hs H0. rewrite H4. unfold loaded_target. now rewrite Hs, H0.
Qed.

Lemma setMode_pauses_then_resets_witness :
  let c := setMode MODE_STOPWATCH countdown_on_fallback in
  let d := setMode MODE_COUNTDOWN (ctl stopwatch_on_worker) in
  (mode (state c) = MODE_STOPWATCH /\ elapsedMs (state c) = 0 /\
   running (state c) = false) /\
  (running (state d) = true /\ outbox d = [WPause] /\
   countdownTargetMs (state d) = 300000).
Proof.
  cbv zeta.
  assert (Hm : mode (state countdown_on_fallback) <> MODE_STOPWATCH)
    by (vm_compute; discriminate).
  assert (Ht : 0 <= countdownTargetMs (state countdown_on_fallback))
    by (vm_compute; discriminate).
  assert (Hm' : mode (state (ctl stopwatch_on_worker)) <> MODE_COUNTDOWN)
    by (vm_compute; discriminate).
  assert (Ht' : 0 <= countdownTargetMs (state (ctl stopwatch_on_worker)))
    by (vm_compute; discriminate).
  destruct (setMode_pauses_then_resets MODE_STOPWATCH countdown_on_fallback Hm Ht)
    as ((H1 & H2 & _) & Hf & _).
  destruct (setMode_pauses_then_resets MODE_COUNTDOWN (ctl stopwatch_on_worker) Hm' Ht')
    as (_ & _ & Hw & _ & Hd).
  split.
  - split; [exact H1|]. split; [exact H2|]. exact (proj1 (Hf eq_refl)).
  - destruct (Hw eq_refl eq_refl) as (Hr & Ho & _).
    split; [exact Hr|]. split; [exact Ho|].
    exact (Hd eq_refl eq_refl eq_refl).
Defined.

End ResetAndModeSwitch.

(** On the worker clock [state.running] and [state.elapsedMs] change when
    the worker's acknowledgement arrives, while [setMode] and
    [enterEditMode] test and overwrite them in the same turn in which they
    post their request. *)
Section AcknowledgementLag.
Import Scenario System.

(** C7 does not hold of the code on the worker clock.  The input is a
    stopwatch running on the worker clock with 5000 ms elapsed, whose mode
    is switched.  When [setMode] returns the switch is complete (Countdown
    mode, five-minute target, [elapsedMs] 0) and the session is still
    Running: 'Pause if running' has only posted the request, because
    [state.running] changes when the worker answers.  The worker pauses at
    instant 6000 and answers 'paused' with the 5000 ms of the stopwatch
    run; the handler stores them, so the session ends Paused in Countdown
    mode with [elapsedMs] 5000, not 0, showing 00:04:55.  On the fallback
    clock the same switch pauses at once and ends at 0, showing 00:05:00. *)
Theorem mode_switch_on_worker_keeps_elapsed :
  let s1 := System.step (Main ClickMode) stopwatch_on_worker in
  let s2 := System.run [ToWorker 6000; ToMain] s1 in
  let f := Script.run [ClickStartPause 1000; Interval 1 6000]
             (init None None false false) in
  (running (state (ctl stopwatch_on_worker)) = true /\
   mode (state (ctl stopwatch_on_worker)) = MODE_STOPWATCH /\
   elapsedMs (state (ctl stopwatch_on_worker)) = 5000) /\
  (mode (state (ctl s1)) = MODE_COUNTDOWN /\
   countdownTargetMs (state (ctl s1)) = 300000 /\
   elapsedMs (state (ctl s1)) = 0 /\
   running (state (ctl s1)) = true /\
   outbox (ctl s1) = [WPause]) /\
  (mode (state (ctl s2)) = MODE_COUNTDOWN /\
   running (state (ctl s2)) = false /\
   elapsedMs (state (ctl s2)) = 5000 /\
   timeMain (dom (ctl s2)) = lit "00:04:55" /\
   outbox (ctl s2) = [] /\ Worker.posted (wk s2) = []) /\
  (running (state f) = true /\ elapsedMs (state f) = 5000 /\
   mode (state (Script.step ClickMode f)) = MODE_COUNTDOWN /\
   running (state (Script.step ClickMode f)) = false /\
   elapsedMs (state (Script.step ClickMode f)) = 0 /\
   timeMain (dom (Script.step ClickMode f)) = lit "00:05:00").
Proof. vm_compute. repeat split. Qed.

(** C8 does not hold of the code on the worker clock.  The input is a
    five-second countdown on the worker clock: Space (a start request at
    instant 1000) and E are pressed before the worker has answered.
    [enterEditMode] tests [state.running], which is still false, and does
    not pause; the worker's 'started' then makes the session Running with
    the editor open.  The tick of instant 6000 stores 5000 ms.  A
    submission that the parser rejects now changes the session:
    [exitEditMode] ends in [updateDisplay], which finds the countdown due,
    sets [countdownCompleted], emits the completion effects and posts a
    pause.  An accepted submission in that state overwrites the target and
    zeroes [elapsedMs] while the worker goes on counting, so the next tick
    replaces the 0 with the time of the run.  On the fallback clock the
    same two keys leave the editor open on a session that is not
    Running. *)
Theorem edit_submission_during_run :
  let s0 := start_up (Some MODE_COUNTDOWN) (Some (lit "5000")) false in
  let s1 := System.run [Main (Key KeySpace 1000); Main (Key KeyE 1000);
                        ToWorker 1000; ToMain; ToMain] s0 in
  let s2 := System.run [WorkerTimer 1 6000; ToMain] s1 in
  let rejected := System.run [Main (EditorInput (lit "junk")); Main EditorEnter] s2 in
  let accepted := System.run [Main (EditorInput (lit "00:00:10.00"));
                              Main EditorEnter] s2 in
  let later := System.run [WorkerTimer 1 7000; ToMain] accepted in
  let f := Script.run [Key KeySpace 1000; Key KeyE 1000]
             (init (Some MODE_COUNTDOWN) (Some (lit "5000")) false false) in
  (isEditing (ctl s1) = true /\ running (state (ctl s1)) = true /\
   Worker.running (wk s1) = true /\ outbox (ctl s1) = []) /\
  (session (ctl s2) =
     {| s_mode := MODE_COUNTDOWN; s_running := true; s_elapsedMs := 5000;
        s_targetMs := 5000; s_completedFlag := false |}) /\
  (parseTime (lit "junk") = None /\
   session (ctl rejected) =
     {| s_mode := MODE_COUNTDOWN; s_running := true; s_elapsedMs := 5000;
        s_targetMs := 5000; s_completedFlag := true |} /\
   outbox (ctl rejected) = [WPause] /\
   effects (ctl rejected) = [AnnounceCountdownComplete; Pulse; Beep; Vibrate]) /\
  (session (ctl accepted) =
     {| s_mode := MODE_COUNTDOWN; s_running := true; s_elapsedMs := 0;
        s_targetMs := 10000; s_completedFlag := false |} /\
   session (ctl later) =
     {| s_mode := MODE_COUNTDOWN; s_running := true; s_elapsedMs := 6000;
        s_targetMs := 10000; s_completedFlag := false |}) /\
  (isEditing f = true /\ running (state f) = false).
Proof. vm_compute. repeat split. Qed.

End AcknowledgementLag.

Section Witnesses.
Import Scenario.

Lemma completion_fires_exactly_once_witness :
  let c' := updateDisplay 5000 countdown_on_fallback in
  completions c' = 1%nat /\
  running (state c') = false /\
  completions (run [Frame 2; Visibility true; Visibility false;
                    ClickDisplay; EditorEscape] c') = 1%nat /\
  countdownCompleted (state (step ClickReset c')) = false.
Proof.
  cbv zeta.
  destruct completion_fires_exactly_once as [Hfire Hclear].
  assert (Ht : countdownTargetMs (state countdown_on_fallback) - 5000 <= 0)
    by (vm_compute; discriminate).
  destruct (Hfire 5000 countdown_on_fallback eq_refl eq_refl eq_refl Ht)
    as (Hn & _ & _ & Hp & Hblock).
  split; [exact Hn|].
  split; [exact (proj1 Hp)|].
  split.
  - exact (proj1 (Hblock [Frame 2; Visibility true; Visibility false;
                          ClickDisplay; EditorEscape] eq_refl)).
  - apply Hclear; [vm_compute; discriminate | reflexivity].
Defined.

Lemma parseTime_trimmed_pattern_witness :
  CodecSpec.accepts (trim (lit " 1:2:3.4 ")) 3723040.
Proof.
  exact (proj1 (proj1 parseTime_trimmed_pattern (lit " 1:2:3.4 ") 3723040) eq_refl).
Defined.

End Witnesses.

(* ====================================================================== *)
(** * Further properties of the code *)
(* ====================================================================== *)

(* ====================================================================== *)
(** ** More on the codec *)
(* ====================================================================== *)

(* ====================================================================== *)
(** ** More on the codec: decimal strings, the whole of parse-after-format *)
(* ====================================================================== *)

Section DecimalStrings.
Import JS Codec CodecSpec.

Lemma digits_value_app l d v0 :
  fold_left (fun acc c => acc * 10 + digit_val c) (l ++ [d]) v0 =
  fold_left (fun acc c => acc * 10 + digit_val c) l v0 * 10 + digit_val d.
Proof. now rewrite fold_left_app. Qed.

Lemma nat_digits_S f n acc :
  nat_digits (S f) n acc =
  if n <? 10 then (ZERO + n mod 10) :: acc
  else nat_digits f (n / 10) ((ZERO + n mod 10) :: acc).
Proof. reflexivity. Qed.

(** With fuel for every bit of [n], [nat_digits] puts the decimal digits of
    [n] in front of the accumulator. *)
Lemma nat_digits_spec f : forall n acc,
  0 <= n < 2 ^ Z.of_nat (S f) ->
  exists ds,
    nat_digits (S f) n acc = ds ++ acc /\ ds <> [] /\
    Forall (fun c => is_digit c = true) ds /\
    forall v0, fold_left (fun a c => a * 10 + digit_val c) ds v0
               = v0 * 10 ^ Z.of_nat (List.length ds) + n.
Proof.
  induction f as [|f IH]; intros n acc Hn.
  - change (2 ^ Z.of_nat 1) with 2 in Hn.
    exists [ZERO + n mod 10]. rewrite nat_digits_S.
    assert ((n <? 10) = true) as -> by (apply Z.ltb_lt; lia).
    rewrite Z.mod_small by lia. unfold ZERO.
    repeat split; [discriminate | repeat constructor; apply is_digit_iff; lia |].
    intros v0. cbn. unfold digit_val. lia.
  - rewrite nat_digits_S. destruct (n <? 10) eqn:E.
    + apply Z.ltb_lt in E. exists [ZERO + n mod 10].
      rewrite Z.mod_small by lia. unfold ZERO.
      repeat split; [discriminate | repeat constructor; apply is_digit_iff; lia |].
      intros v0. cbn. unfold digit_val. lia.
    + apply Z.ltb_ge in E.
      assert (Hq : 0 <= n / 10 < 2 ^ Z.of_nat (S f)).
      { split; [apply Z.div_pos; lia|].
        apply Z.div_lt_upper_bound; [lia|].
        rewrite (Nat2Z.inj_succ (S f)), Z.pow_succ_r in Hn by lia. lia. }
      destruct (IH (n / 10) ((ZERO + n mod 10) :: acc) Hq)
        as (ds & Hds & Hne & Hall & Hval).
      exists (ds ++ [ZERO + n mod 10]).
      pose proof (Z.mod_pos_bound n 10 ltac:(lia)) as Hm.
      repeat split.
      * rewrite Hds. now rewrite <- app_assoc.
      * intros Hnil. apply app_eq_nil in Hnil as [_ Hnil]. discriminate.
      * apply Forall_app. split; [exact Hall|].
        repeat constructor. apply is_digit_iff. unfold ZERO. lia.
      * intros v0. rewrite digits_value_app, Hval, length_app.
        cbn [List.length]. rewrite Nat.add_1_r, Nat2Z.inj_succ, Z.pow_succ_r by lia.
        unfold digit_val, ZERO.
        pose proof (Z.div_mod n 10 ltac:(lia)). lia.
Qed.

Lemma String_of_nonneg n :
  0 <= n ->
  exists ds,
    String_of n = ds /\ ds <> [] /\
    Forall (fun c => is_digit c = true) ds /\ digits_value ds = n.
Proof.
  intros Hn. unfold String_of.
  assert ((n <? 0) = false) as -> by (apply Z.ltb_ge; lia).
  assert (Hb : 0 <= n < 2 ^ Z.of_nat (S (Z.to_nat (Z.log2 n)))).
  { split; [exact Hn|].
    rewrite Nat2Z.inj_succ, Z2Nat.id by apply Z.log2_nonneg.
    destruct (Z.eq_dec n 0) as [->|Hz]; [reflexivity|].
    apply Z.log2_spec. lia. }
  destruct (nat_digits_spec _ n [] Hb) as (ds & Hds & Hne & Hall & Hval).
  exists ds. rewrite Hds, app_nil_r. repeat split; auto.
  unfold digits_value. rewrite Hval. lia.
Qed.

(** [parseInt] reads any non-empty run of digits as its decimal value. *)
Lemma parseInt_all_digits ds :
  ds <> [] -> Forall (fun c => is_digit c = true) ds ->
  parseInt ds = Some (digits_value ds).
Proof.
  intros Hne Hall. destruct ds as [|c r]; [now elim Hne|].
  pose proof (Forall_inv Hall) as Hc. cbv beta in Hc.
  unfold parseInt. simpl dropWhile.
  rewrite (is_digit_not_ws _ Hc).
  destruct (is_digit_not_sign _ Hc) as [-> ->].
  rewrite (takeWhile_all _ _ Hall).
  now rewrite Z.mul_1_l.
Qed.

(** What [String] writes for a non-negative integer, [parseInt] reads
    back. *)
Lemma parseInt_String_of n :
  0 <= n -> parseInt (String_of n) = Some n.
Proof.
  intros Hn. destruct (String_of_nonneg n Hn) as (ds & -> & Hne & Hall & Hval).
  rewrite parseInt_all_digits by assumption. now rewrite Hval.
Qed.

End DecimalStrings.

Section ParseAfterFormat.
Import JS Codec CodecSpec.

Lemma dropWhile_all p l :
  Forall (fun c => p c = true) l -> forall r, dropWhile p (l ++ r) = dropWhile p r.
Proof.
  induction 1 as [|c l Hc _ IH]; intros r; [reflexivity|].
  cbn. now rewrite Hc.
Qed.

Lemma dropWhile_keeps p l x t :
  p x = false -> exists l', dropWhile p (l ++ x :: t) = l' ++ x :: t.
Proof.
  intros Hx. induction l as [|c l [l' IH]].
  - exists []. cbn. now rewrite Hx.
  - cbn. destruct (p c); [eauto|]. now exists (c :: l).
Qed.

(** Trimming keeps everything up to a character that is not white space,
    when the string starts with one. *)
Lemma trim_keeps_prefix a pre x r :
  is_ws a = false -> is_ws x = false ->
  exists r', trim (a :: pre ++ x :: r) = a :: pre ++ x :: r'.
Proof.
  intros Ha Hx. unfold trim. rewrite dropWhile_head by assumption.
  change (a :: pre ++ x :: r) with ((a :: pre) ++ x :: r).
  rewrite rev_app_distr.
  assert (Et : a :: pre = rev (rev (a :: pre))) by now rewrite rev_involutive.
  set (t := rev (a :: pre)) in *.
  change (rev (x :: r)) with (rev r ++ [x]). rewrite <- app_assoc. cbn [app].
  destruct (dropWhile_keeps is_ws (rev r) x t Hx) as [l' ->].
  exists (rev l'). rewrite rev_app_distr.
  change (rev (x :: t)) with (rev t ++ [x]). rewrite <- Et.
  rewrite <- app_assoc. reflexivity.
Qed.

Lemma trim_keeps_head a r :
  is_ws a = false -> exists r', trim (a :: r) = a :: r'.
Proof.
  intros Ha. unfold trim. rewrite dropWhile_head by assumption.
  cbn [rev].
  destruct (dropWhile_keeps is_ws (rev r) a [] Ha) as [l' ->].
  exists (rev l'). now rewrite rev_app_distr.
Qed.

Lemma String_of_negative n :
  n < 0 -> exists d ds, String_of n = MINUS :: d :: ds.
Proof.
  intros Hn. unfold String_of.
  assert ((n <? 0) = true) as -> by (apply Z.ltb_lt; lia).
  assert (Hb : 0 <= - n < 2 ^ Z.of_nat (S (Z.to_nat (Z.log2 (- n))))).
  { split; [lia|].
    rewrite Nat2Z.inj_succ, Z2Nat.id by apply Z.log2_nonneg.
    apply Z.log2_spec. lia. }
  destruct (nat_digits_spec _ (- n) [] Hb) as (ds & Hds & Hne & _).
  rewrite Hds, app_nil_r. destruct ds as [|d ds]; [now elim Hne|]. eauto.
Qed.

Lemma String_of_three_digits n :
  100 <= n ->
  exists a b c r,
    String_of n = a :: b :: c :: r /\
    is_digit a = true /\ is_digit b = true /\ is_digit c = true.
Proof.
  intros Hn.
  destruct (String_of_nonneg n ltac:(lia)) as (ds & -> & Hne & Hall & Hval).
  destruct ds as [|a [|b [|c r]]].
  - now elim Hne.
  - assert (D : digits12 [a]) by (split; [now left | exact Hall]).
    apply digits_value_bounds in D. lia.
  - assert (D : digits12 [a; b]) by (split; [now right | exact Hall]).
    apply digits_value_bounds in D. lia.
  - exists a, b, c, r. split; [reflexivity|].
    pose proof (Forall_inv Hall) as Ha.
    pose proof (Forall_inv (Forall_inv_tail Hall)) as Hb.
    pose proof (Forall_inv (Forall_inv_tail (Forall_inv_tail Hall))) as Hc.
    auto.
Qed.

(** The display string depends on [ms] through [floor(ms / 10)] only. *)
Lemma msToString_floor ms : msToString (ms - ms mod 10) = msToString ms.
Proof.
  unfold msToString, formatTime.
  replace ((ms - ms mod 10) / 10) with (ms / 10); [reflexivity|].
  pose proof (Z.div_mod ms 10 ltac:(lia)).
  replace (ms - ms mod 10) with (ms / 10 * 10) by lia.
  now rewrite Z.div_mul by lia.
Qed.

Lemma hours_of ms : ms / 10 / CENTISECONDS_PER_SECOND / 60 / 60 = ms / 3600000.
Proof.
  unfold CENTISECONDS_PER_SECOND. now rewrite !Z.div_div by lia.
Qed.

Lemma pattern_match_three_digits a b c r :
  is_digit a = true -> is_digit b = true -> is_digit c = true ->
  pattern_match (a :: b :: c :: r) = None.
Proof.
  intros Ha Hb Hc. unfold pattern_match, re_digits12. rewrite Ha, Hb.
  apply is_digit_iff in Hb, Hc. unfold re_char, COLON.
  assert ((c =? 58) = false) as -> by (apply Z.eqb_neq; lia).
  assert ((b =? 58) = false) as -> by (apply Z.eqb_neq; lia).
  reflexivity.
Qed.

Lemma parseTime_msToString ms :
  parseTime (msToString ms) =
  if (0 <=? ms) && (ms <? 100 * MS_PER_HOUR)
  then Some (ms - ms mod 10) else None.
Proof.
  change (100 * MS_PER_HOUR) with 360000000.
  destruct (0 <=? ms) eqn:E0; cbn [andb].
  - apply Z.leb_le in E0. destruct (ms <? 360000000) eqn:E1.
    + apply Z.ltb_lt in E1. rewrite <- msToString_floor.
      apply roundtrip_iff_representable.
      pose proof (Z.mod_pos_bound ms 10 ltac:(lia)).
      pose proof (Z.div_mod ms 10 ltac:(lia)).
      split; [change (100 * MS_PER_HOUR) with 360000000; lia|].
      replace (ms - ms mod 10) with (ms / 10 * 10) by lia.
      apply Z.mod_mul. lia.
    + apply Z.ltb_ge in E1.
      assert (Hh : 100 <= ms / 3600000) by (apply Z.div_le_lower_bound; lia).
      destruct (String_of_three_digits _ Hh) as (a & b & c & r & Hs & Ha & Hb & Hc).
      unfold parseTime, msToString, formatTime. cbn [hh mm ss cc].
      rewrite hours_of, Hs. unfold padStart at 1. cbn [List.length Nat.sub repeat app].
      destruct (trim_keeps_prefix a [b] c
                  (r ++ [COLON] ++ padStart 2 (String_of (Z.rem (ms / 10 / CENTISECONDS_PER_SECOND / 60) 60))
                     ++ [COLON] ++ padStart 2 (String_of (Z.rem (ms / 10 / CENTISECONDS_PER_SECOND) 60))
                     ++ [DOT] ++ padStart 2 (String_of (Z.rem (ms / 10) CENTISECONDS_PER_SECOND)))
                  (is_digit_not_ws _ Ha) (is_digit_not_ws _ Hc)) as [r' Ht].
      cbn [app] in Ht |- *. rewrite Ht.
      now rewrite pattern_match_three_digits.
  - apply Z.leb_gt in E0.
    assert (Hh : ms / 3600000 < 0) by (apply Z.div_lt_upper_bound; lia).
    destruct (String_of_negative _ Hh) as (d & ds & Hs).
    unfold parseTime, msToString, formatTime. cbn [hh mm ss cc].
    rewrite hours_of, Hs. unfold padStart at 1.
    replace (2 - List.length (MINUS :: d :: ds))%nat with 0%nat by (cbn; lia).
    cbn [repeat app].
    destruct (trim_keeps_head MINUS
                (d :: ds ++ [COLON] ++ padStart 2 (String_of (Z.rem (ms / 10 / CENTISECONDS_PER_SECOND / 60) 60))
                   ++ [COLON] ++ padStart 2 (String_of (Z.rem (ms / 10 / CENTISECONDS_PER_SECOND) 60))
                   ++ [DOT] ++ padStart 2 (String_of (Z.rem (ms / 10) CENTISECONDS_PER_SECOND)))
                eq_refl) as [r' Ht].
    cbn [app] in Ht |- *. rewrite Ht. reflexivity.
Qed.

(** X1. Parsing a display string, for every [ms]: from 0 up to (not
    including) one hundred hours the result is [ms] with its last decimal
    digit dropped; a negative [ms] or one of a hundred hours and more gives
    a string that [parseTime] rejects. *)
Theorem parse_format_total ms :
  (0 <= ms < 100 * MS_PER_HOUR ->
   parseTime (msToString ms) = Some (ms - ms mod 10)) /\
  (ms < 0 \/ 100 * MS_PER_HOUR <= ms ->
   parseTime (msToString ms) = None).
Proof.
  rewrite parseTime_msToString.
  change (100 * MS_PER_HOUR) with 360000000. split.
  - intros [H0 H1]. apply Z.leb_le in H0. apply Z.ltb_lt in H1.
    now rewrite H0, H1.
  - intros [H|H].
    + apply Z.leb_gt in H. now rewrite H.
    + apply Z.ltb_ge in H. now rewrite H, andb_false_r.
Qed.

Lemma parse_format_total_witness :
  parseTime (msToString 3723456) = Some 3723450 /\
  parseTime (msToString 360000000) = None.
Proof.
  split.
  - apply (proj1 (parse_format_total 3723456)).
    change (100 * MS_PER_HOUR) with 360000000. lia.
  - apply (proj2 (parse_format_total 360000000)).
    change (100 * MS_PER_HOUR) with 360000000. lia.
Defined.

(** X2. White space around the input does not matter to [parseTime]. *)
Theorem parseTime_ignores_outer_space pre post str :
  Forall (fun c => is_ws c = true) pre ->
  Forall (fun c => is_ws c = true) post ->
  parseTime (pre ++ str ++ post) = parseTime str.
Proof.
  intros Hpre Hpost. unfold parseTime.
  assert (E : trim (pre ++ str ++ post) = trim str); [|now rewrite E].
  unfold trim. rewrite dropWhile_all by assumption. f_equal.
  induction str as [|a s IH].
  - cbn [app]. rewrite <- (app_nil_r post), dropWhile_all by assumption.
    reflexivity.
  - cbn [app dropWhile]. destruct (is_ws a); [exact IH|].
    change (a :: s ++ post) with ((a :: s) ++ post).
    rewrite rev_app_distr, dropWhile_all; [reflexivity|].
    now apply Forall_rev.
Qed.

Lemma parseTime_ignores_outer_space_witness :
  parseTime (lit "  " ++ lit "1:2:3.4" ++ [10]) = Some 3723040.
Proof.
  rewrite (parseTime_ignores_outer_space (lit "  ") [10] (lit "1:2:3.4")).
  - reflexivity.
  - repeat constructor.
  - repeat constructor.
Defined.

(** X3. Every value [parseTime] returns is a whole number of centiseconds
    from 0 to 359999990, and ["99:59:59.99"] reaches that maximum. *)
Theorem parseTime_range :
  (forall str ms, parseTime str = Some ms ->
                  0 <= ms <= 359999990 /\ ms mod 10 = 0) /\
  parseTime (lit "99:59:59.99") = Some 359999990.
Proof.
  split; [|reflexivity].
  intros str ms H. apply parseTime_representable in H as [[H0 H1] Hm].
  change (100 * MS_PER_HOUR) with 360000000 in H1.
  split; [|exact Hm].
  pose proof (Z.div_mod ms 10 ltac:(lia)). lia.
Qed.

Lemma parseTime_range_witness :
  0 <= 3723450 <= 359999990 /\ 3723450 mod 10 = 0.
Proof.
  exact (proj1 parseTime_range (lit "01:02:03.45") 3723450 eq_refl).
Defined.

(** X4. Formatting undoes parsing on zero-padded strings: for fields in
    range, the value of ["hh:mm:ss.cc"] is displayed as that same string;
    and whatever string was accepted, the display of its value is eleven
    characters long and parses to the same value. *)
Theorem format_parse_canonical :
  (forall h m s c,
     0 <= h < 100 -> 0 <= m < 60 -> 0 <= s < 60 -> 0 <= c < 100 ->
     let str := two_digits h ++ [COLON] ++ two_digits m ++ [COLON] ++
                two_digits s ++ [DOT] ++ two_digits c in
     exists ms, parseTime str = Some ms /\ msToString ms = str) /\
  (forall str ms,
     parseTime str = Some ms ->
     parseTime (msToString ms) = Some ms /\
     List.length (msToString ms) = 11%nat).
Proof.
  split.
  - intros h m s c Hh Hm Hs Hc str.
    exists (h * 3600000 + m * 60000 + s * 1000 + c * 10).
    split; [now apply parseTime_canonical|].
    set (v := h * 3600000 + m * 60000 + s * 1000 + c * 10).
    assert (R : representable v).
    { split; [change (100 * MS_PER_HOUR) with 360000000; unfold v; lia|].
      unfold v.
      replace (h * 3600000 + m * 60000 + s * 1000 + c * 10)
        with ((h * 360000 + m * 6000 + s * 100 + c) * 10) by ring.
      apply Z.mod_mul. lia. }
    destruct (msToString_representable v R) as [_ ->].
    assert (E1 : v / 3600000 = h)
      by (symmetry; apply (Z.div_unique v 3600000 h (m * 60000 + s * 1000 + c * 10));
          [left|unfold v]; lia).
    assert (E2 : v / 60000 = h * 60 + m)
      by (symmetry; apply (Z.div_unique v 60000 _ (s * 1000 + c * 10));
          [left|unfold v]; lia).
    assert (E3 : v / 1000 = (h * 60 + m) * 60 + s)
      by (symmetry; apply (Z.div_unique v 1000 _ (c * 10)); [left|unfold v]; lia).
    assert (E4 : v / 10 = ((h * 60 + m) * 60 + s) * 100 + c)
      by (symmetry; apply (Z.div_unique v 10 _ 0); [left|unfold v]; lia).
    rewrite E1, E2, E3, E4.
    rewrite (Z.add_comm (h * 60) m), (Z.add_comm (_ * 60) s), (Z.add_comm (_ * 100) c).
    rewrite !Z.mod_add by lia.
    rewrite (Z.mod_small m), (Z.mod_small s), (Z.mod_small c) by lia.
    reflexivity.
  - intros str ms H. apply parseTime_representable in H.
    split; [now apply roundtrip_iff_representable|].
    destruct (msToString_representable ms H) as [_ ->]. reflexivity.
Qed.

Lemma format_parse_canonical_witness :
  exists ms, parseTime (lit "01:02:03.45") = Some ms /\
             msToString ms = lit "01:02:03.45".
Proof.
  exact (proj1 format_parse_canonical 1 2 3 45
           ltac:(lia) ltac:(lia) ltac:(lia) ltac:(lia)).
Defined.

End ParseAfterFormat.

(* ====================================================================== *)
(** ** More on the clock worker *)
(* ====================================================================== *)

Section WorkerMore.
Import Msg Worker WorkerRuns.

Lemma span_step a b w :
  running w = false ->
  let w' := run [Deliver (WStart None) a; Deliver WPause b] w in
  running w' = false /\ accumulatedMs w' = accumulatedMs w + (b - a) /\
  tickInterval w' = None /\
  posted w' = posted w ++ [MStarted (accumulatedMs w);
                           MPaused (accumulatedMs w + (b - a))].
Proof.
  intros Hr. destruct w as [r st acc ti iv nid po]. cbn in Hr. subst.
  cbn. rewrite <- app_assoc. repeat split.
Qed.

(** X5. Only running time is counted: after any series of resume/pause
    pairs, the worker is stopped and has accumulated its earlier value
    plus the lengths of the spans between each resume and its pause; the
    time spent paused adds nothing. *)
Theorem worker_counts_running_spans l : forall w,
  running w = false ->
  running (run (spans l) w) = false /\
  accumulatedMs (run (spans l) w) = accumulatedMs w + total l.
Proof.
  induction l as [|[a b] l IH]; intros w Hr.
  - cbn. split; [exact Hr | lia].
  - change (run (spans ((a, b) :: l)) w)
      with (run (spans l) (run [Deliver (WStart None) a; Deliver WPause b] w)).
    destruct (span_step a b w Hr) as (Hr' & Ha & _).
    destruct (IH _ Hr') as [H1 H2].
    split; [exact H1|]. rewrite H2, Ha. cbn [total]. lia.
Qed.

Lemma worker_counts_running_spans_witness :
  accumulatedMs (run (spans [(1000, 3000); (10000, 10500)]) initial) = 2500.
Proof.
  exact (proj2 (worker_counts_running_spans [(1000, 3000); (10000, 10500)]
                  initial eq_refl)).
Defined.

(** X6. Reports do not disturb the clock and agree with one another: a
    tick and a [getState] leave every clock variable as it was; on a
    running worker a tick, a [getState] and a pause at the same instant
    all report [accumulatedMs + (now - startTime)], and a later instant
    never reports less; on a stopped worker a tick posts nothing and
    [getState] reports the frozen [accumulatedMs]. *)
Theorem worker_reports_agree now w :
  (forall w', w' = tick now w \/ w' = getState now w ->
     running w' = running w /\ startTime w' = startTime w /\
     accumulatedMs w' = accumulatedMs w /\ tickInterval w' = tickInterval w /\
     intervals w' = intervals w) /\
  (running w = true ->
     let e := accumulatedMs w + (now - startTime w) in
     posted (tick now w) = posted w ++ [MTick e] /\
     posted (getState now w) = posted w ++ [MState true e] /\
     posted (pause now w) = posted w ++ [MPaused e] /\
     forall later e',
       now <= later ->
       posted (tick later w) = posted w ++ [MTick e'] -> e <= e') /\
  (running w = false ->
     posted (tick now w) = posted w /\
     posted (getState now w) = posted w ++ [MState false (accumulatedMs w)] /\
     posted (pause now w) = posted w).
Proof.
  destruct w as [r st acc ti iv nid po]. split; [|split].
  - intros w' [-> | ->]; unfold tick, getState; cbn; destruct r; cbn; auto.
  - cbn. intros ->. unfold tick, getState, pause. cbn.
    destruct ti; cbn; repeat split.
    all: intros later e' Hl He; apply app_inv_head in He;
      injection He as <-; lia.
  - cbn. intros ->. unfold tick, getState, pause. cbn. auto.
Qed.

Lemma worker_reports_agree_witness :
  let w := onmessage (WStart (Some (Some 250))) 1000 initial in
  posted (tick 1016 w) = posted w ++ [MTick 266] /\
  posted (pause 1016 w) = posted w ++ [MPaused 266].
Proof.
  cbv zeta.
  destruct (proj1 (proj2 (worker_reports_agree 1016
                            (onmessage (WStart (Some (Some 250))) 1000 initial)))
              eq_refl) as (H1 & _ & H3 & _).
  split; [exact H1 | exact H3].
Defined.

End WorkerMore.

(* ====================================================================== *)
(** ** The display update in closed form *)
(* ====================================================================== *)

Import SessionInv.

Section DisplayClosedForm.

Lemma due_true ms c :
  due ms c = true ->
  mode (state c) = MODE_COUNTDOWN /\ running (state c) = true /\
  countdownCompleted (state c) = false /\
  countdownTargetMs (state c) - ms <= 0.
Proof.
  unfold due. destruct (mode (state c)); [discriminate|].
  intros H. apply andb_true_iff in H as [H H3].
  apply andb_true_iff in H as [H1 H2].
  apply negb_true_iff in H3. apply Z.eqb_eq in H1.
  repeat split; auto. lia.
Qed.

Lemma updateDisplay_not_due ms c :
  due ms c = false -> updateDisplay ms c = shown ms c.
Proof. intros H. now rewrite updateDisplay_eq, H. Qed.

(** What a completing display update amounts to: the flag, the pause (at
    once on the fallback clock, requested on the worker clock), the button
    label and the signals. *)
Lemma updateDisplay_due ms c :
  due ms c = true ->
  updateDisplay ms c =
  emit (AnnounceCountdownComplete :: Pulse ::
          (if muted (state c) then [] else [Beep; Vibrate]))
    (on_dom (d_startPauseBtn LabelStart)
       (if workerFallback (state c) then
          shown (elapsedMs (state c))
            (stopRenderLoop
               (set_fallbackInterval None
                  (clearInterval (fallbackInterval c)
                     (set_fallbackAccumulated (elapsedMs (state c))
                        (on_state (st_running false)
                           (on_state (st_countdownCompleted true)
                              (shown ms c)))))))
        else
          postMessage WPause
            (on_state (st_countdownCompleted true) (shown ms c)))).
Proof.
  intros H. rewrite updateDisplay_eq, H.
  apply due_true in H as (Hm & Hr & _).
  break c. cbn in Hm, Hr. subst.
  unfold handleCountdownComplete, handleCountdownComplete_with,
    pauseTimer_with, stopRenderLoop.
  settle; unfold emit; cbn; rewrite <- ?app_assoc; reflexivity.
Qed.

End DisplayClosedForm.

Arguments due : simpl never.

(* ====================================================================== *)
(** ** Start-up *)
(* ====================================================================== *)

Section StartUp.

(** [loadState] ends with [setMode(state.mode)], which returns at its
    first line. *)
Lemma setMode_same c : setMode (mode (state c)) c = c.
Proof.
  unfold setMode.
  assert (mode_eqb (mode (state c)) (mode (state c)) = true) as ->
    by now destruct (mode (state c)).
  reflexivity.
Qed.

Lemma loadState_eq savedMode savedMute c :
  loadState savedMode savedMute c =
  (fun c1 => if savedMute then on_state (st_muted true) c1 else c1)
    (match savedMode with
     | Some MODE_COUNTDOWN =>
         on_state (st_countdownTargetMs
                     (loaded_target (on_state (st_mode MODE_COUNTDOWN) c)))
           (on_state (st_mode MODE_COUNTDOWN) c)
     | _ => c
     end).
Proof.
  unfold loadState. cbv beta zeta. rewrite setMode_same.
  destruct savedMode as [[|]|]; try reflexivity.
  f_equal. unfold loaded_target. break c. cbn.
  destruct sc as [[|x s]|]; cbn.
  all: try destruct (parseInt (x :: s)) as [ms|]; cbn.
  all: repeat match goal with
           | |- context [?a >? 0] => destruct (a >? 0) eqn:?; cbn
           end.
  all: repeat match goal with
           | |- context [?a =? 0] => destruct (a =? 0) eqn:?; cbn
           end.
  all: try reflexivity.
  all: repeat match goal with
         | H : (?a =? 0) = true |- _ => apply Z.eqb_eq in H; subst a
         end; try reflexivity.
Qed.

Lemma init_eq savedMode savedCountdown savedMute workerOk :
  init savedMode savedCountdown savedMute workerOk =
  shown 0 (initWorker workerOk
             (loadState savedMode savedMute (boot savedCountdown))).
Proof.
  unfold init. apply updateDisplay_idle.
  rewrite loadState_eq. unfold initWorker, fallbackToMainThread.
  now destruct workerOk, savedMute, savedMode as [[|]|].
Qed.

Lemma init_bookkeeping savedMode savedCountdown savedMute workerOk :
  let c := init savedMode savedCountdown savedMute workerOk in
  running (state c) = false /\ workerFallback (state c) = negb workerOk /\
  fallbackInterval c = None /\ frames (host c) = [] /\
  timers (host c) = [] /\ outbox c = [] /\
  countdownCompleted (state c) = false.
Proof.
  cbv zeta. rewrite init_eq, loadState_eq.
  unfold initWorker, fallbackToMainThread.
  destruct workerOk, savedMute, savedMode as [[|]|]; cbn;
    repeat split; auto.
Qed.

(** X7. Start-up leaves an idle session: not running, nothing elapsed,
    no completion pending, not editing, no frame or interval scheduled,
    nothing posted to the worker, no signal emitted.  The mode is the saved
    one (Stopwatch unless Countdown was saved), mute is as saved, and the
    fallback clock is chosen exactly when no worker could be constructed.
    In Countdown mode the target is the saved value when that reads as a
    positive number and five minutes otherwise, so it is always positive;
    in Stopwatch mode the saved value is not read. *)
Theorem init_is_idle savedMode savedCountdown savedMute workerOk :
  let c := init savedMode savedCountdown savedMute workerOk in
  idle_at_zero c /\
  mode (state c) =
    (match savedMode with
     | Some MODE_COUNTDOWN => MODE_COUNTDOWN
     | _ => MODE_STOPWATCH
     end) /\
  countdownTargetMs (state c) =
    (match savedMode with
     | Some MODE_COUNTDOWN => loaded_target (boot savedCountdown)
     | _ => 0
     end) /\
  0 < loaded_target (boot savedCountdown) /\
  muted (state c) = savedMute /\
  workerFallback (state c) = negb workerOk /\
  isEditing c = false /\ fallbackInterval c = None /\
  animationFrameId (state c) = None /\
  frames (host c) = [] /\ timers (host c) = [] /\
  outbox c = [] /\ effects c = [].
Proof.
  cbv zeta. rewrite init_eq, loadState_eq.
  unfold initWorker, fallbackToMainThread, idle_at_zero.
  assert (0 < loaded_target (boot savedCountdown))
    by (apply loaded_target_positive; cbn; lia).
  destruct workerOk, savedMute, savedMode as [[|]|]; cbn;
    repeat split; auto.
Qed.

End StartUp.

(* ====================================================================== *)
(** ** Bookkeeping invariants of the controller *)
(* ====================================================================== *)

Ltac open_handler :=
  unfold step, toggleStartPause, startTimer, resetTimer, toggleMode, setMode,
    enterEditMode, exitEditMode, toggleMute, fallbackTick,
    onWorkerMessage, onWorkerError, fallbackToMainThread, onVisibilityChange,
    pauseTimer, pauseTimer_with, setInterval;
  cbv beta iota zeta.

Section RenderLoop.

(** [one_frame] looks at the pending frames and the recorded handle only:
    a function that leaves both alone keeps it. *)
Lemma one_frame_layer (f : Ctl -> Ctl) :
  (forall x, frames (host (f x)) = frames (host x)) ->
  (forall x, animationFrameId (state (f x)) = animationFrameId (state x)) ->
  forall c, one_frame c -> one_frame (f c).
Proof. unfold one_frame. intros H1 H2 c. rewrite H1, H2. auto. Qed.

Lemma stopRenderLoop_stops c :
  one_frame c ->
  frames (host (stopRenderLoop c)) = [] /\
  animationFrameId (state (stopRenderLoop c)) = None.
Proof.
  unfold one_frame, stopRenderLoop.
  intros [H | (i & H1 & H2)].
  - destruct (animationFrameId (state c)) eqn:E; cbn; rewrite H; cbn; auto.
  - rewrite H1. cbn. rewrite H2. cbn. now rewrite Nat.eqb_refl.
Qed.

Lemma stopRenderLoop_one_frame c : one_frame c -> one_frame (stopRenderLoop c).
Proof. intros H. left. now apply stopRenderLoop_stops. Qed.

Lemma startRenderLoop_one_frame c : one_frame c -> one_frame (startRenderLoop c).
Proof.
  unfold one_frame, startRenderLoop.
  intros [H | (i & H1 & H2)].
  - destruct (animationFrameId (state c)); [now left|].
    right. cbn. rewrite H. eexists. split; reflexivity.
  - rewrite H1. right. now exists i.
Qed.

Ltac walk :=
  repeat first
    [ assumption
    | match goal with
      | |- one_frame (if ?b then _ else _) => destruct b eqn:?
      | |- one_frame (match ?x with _ => _ end) => destruct x eqn:?
      | |- one_frame (stopRenderLoop _) => apply stopRenderLoop_one_frame
      | |- one_frame (startRenderLoop _) => apply startRenderLoop_one_frame
      | |- one_frame (?f ?X) =>
          apply (one_frame_layer f);
          [ intro; reflexivity | intro; reflexivity | ]
      end ].

Lemma updateDisplay_one_frame ms c :
  one_frame c -> one_frame (updateDisplay ms c).
Proof.
  intros H. destruct (due ms c) eqn:E.
  - rewrite (updateDisplay_due ms c E). walk.
  - rewrite (updateDisplay_not_due ms c E). walk.
Qed.

Lemma updateDisplay_no_frames ms c :
  frames (host c) = [] -> frames (host (updateDisplay ms c)) = [].
Proof.
  intros H. destruct (due ms c) eqn:E.
  - rewrite (updateDisplay_due ms c E).
    destruct (workerFallback (state c)); [|exact H].
    unfold stopRenderLoop; cbn.
    destruct (animationFrameId (state c)); cbn; rewrite H; reflexivity.
  - now rewrite (updateDisplay_not_due ms c E).
Qed.

Lemma renderLoop_one_frame c :
  frames (host c) = [] -> one_frame (renderLoop c).
Proof.
  intros H. unfold renderLoop.
  destruct (running (state c)); [|now left].
  right. cbn. rewrite (updateDisplay_no_frames _ _ H).
  eexists. split; reflexivity.
Qed.

Lemma fired_frame id c :
  one_frame c -> existsb (Nat.eqb id) (frames (host c)) = true ->
  Timers.clear (Some id) (frames (host c)) = [].
Proof.
  intros [H | (i & _ & H)]; rewrite H; cbn; [discriminate|].
  now destruct (id =? i)%nat.
Qed.

Lemma step_one_frame e c : one_frame c -> one_frame (step e c).
Proof.
  intros H.
  destruct e as [now| | | | |v| | | |k now|id|id now|msg| |hid];
    [ | | | | | | | | | destruct k | | | destruct msg | | ];
    open_handler;
    repeat first
      [ progress walk
      | match goal with
        | |- one_frame (updateDisplay _ _) => apply updateDisplay_one_frame
        end ].
  apply renderLoop_one_frame. cbn. now apply fired_frame.
Qed.

Lemma run_one_frame es : forall c, one_frame c -> one_frame (run es c).
Proof.
  induction es as [|e es IH]; intros c Hc; [exact Hc|].
  apply (IH (step e c)). now apply step_one_frame.
Qed.

End RenderLoop.

Section RenderLoopTheorem.

(** X8. The render loop never doubles up: in every state the controller
    can reach from start-up, whatever the events and their order, at most
    one animation frame is pending, and a pending frame is the one whose
    handle is in [state.animationFrameId] (so that [stopRenderLoop] cancels
    it). *)
Theorem render_loop_single_frame savedMode savedCountdown savedMute workerOk es :
  one_frame (run es (init savedMode savedCountdown savedMute workerOk)).
Proof.
  apply run_one_frame. left.
  apply (init_bookkeeping savedMode savedCountdown savedMute workerOk).
Qed.

End RenderLoopTheorem.

Section FallbackClock.

(** [fallback_clock] looks at five things only. *)
Lemma fallback_clock_layer (f : Ctl -> Ctl) :
  (forall x, workerFallback (state (f x)) = workerFallback (state x)) ->
  (forall x, outbox (f x) = outbox x) ->
  (forall x, timers (host (f x)) = timers (host x)) ->
  (forall x, fallbackInterval (f x) = fallbackInterval x) ->
  (forall x, running (state (f x)) = running (state x)) ->
  forall c, fallback_clock c -> fallback_clock (f c).
Proof.
  unfold fallback_clock. intros H1 H2 H3 H4 H5 c.
  rewrite H1, H2, H3, H4, H5. auto.
Qed.

Lemma stopRenderLoop_fallback_clock c :
  fallback_clock c -> fallback_clock (stopRenderLoop c).
Proof.
  unfold stopRenderLoop. destruct (animationFrameId (state c)); auto.
Qed.

Lemma startRenderLoop_fallback_clock c :
  fallback_clock c -> fallback_clock (startRenderLoop c).
Proof.
  unfold startRenderLoop. destruct (animationFrameId (state c)); auto.
Qed.

(** The pause on the fallback clock: the interval is cleared and
    forgotten, the session is stopped. *)
Lemma fallback_stop i x :
  workerFallback (state x) = true -> outbox x = [] ->
  timers (host x) = match i with Some j => [j] | None => [] end ->
  running (state x) = false ->
  fallback_clock (set_fallbackInterval None (clearInterval i x)).
Proof.
  unfold fallback_clock. cbn. intros H1 H2 H3 H4.
  rewrite H3, H4. repeat split; auto.
  - destruct i; cbn; [now rewrite Nat.eqb_refl | reflexivity].
  - intros H. discriminate H.
Qed.

(** The start on the fallback clock: one interval is set and held. *)
Lemma fallback_start id x :
  workerFallback (state x) = true -> outbox x = [] ->
  timers (host x) = [] -> running (state x) = true ->
  fallback_clock
    (set_fallbackInterval (Some id)
       (on_host (fun h => h_nextId (S id) (h_timers (timers h ++ [id]) h)) x)).
Proof.
  unfold fallback_clock. cbn. intros H1 H2 H3 H4.
  rewrite H3, H4. repeat split; auto. intros _. discriminate.
Qed.

Lemma fallback_clock_stopped c :
  fallback_clock c -> running (state c) = false ->
  fallbackInterval c = None /\ timers (host c) = [].
Proof.
  intros (_ & _ & H3 & H4) Hr.
  destruct (fallbackInterval c) as [i|]; [|auto].
  rewrite Hr in H4. destruct H4 as [_ H4].
  assert (false = true) by (apply H4; discriminate). discriminate.
Qed.

Ltac walk :=
  repeat first
    [ assumption
    | match goal with
      | |- fallback_clock (if ?b then _ else _) => destruct b eqn:?
      | |- fallback_clock (match ?x with _ => _ end) => destruct x eqn:?
      | |- fallback_clock (stopRenderLoop _) => apply stopRenderLoop_fallback_clock
      | |- fallback_clock (startRenderLoop _) => apply startRenderLoop_fallback_clock
      | |- fallback_clock (?f ?X) =>
          apply (fallback_clock_layer f);
          [ intro; reflexivity | intro; reflexivity | intro; reflexivity
          | intro; reflexivity | intro; reflexivity | ]
      end ].

(** On the worker branch of a handler the invariant's first part is
    contradicted. *)
Ltac off_worker :=
  match goal with
  | H : fallback_clock ?c, E : workerFallback _ = false |- _ =>
      cbn in E; rewrite (proj1 H) in E; discriminate E
  end.

Ltac stop_block H :=
  apply fallback_stop; cbn; first [ apply H | reflexivity ].

Lemma updateDisplay_fallback_clock ms c :
  fallback_clock c -> fallback_clock (updateDisplay ms c).
Proof.
  intros H. destruct (due ms c) eqn:E.
  - rewrite (updateDisplay_due ms c E). walk; [|off_worker].
    stop_block H.
  - rewrite (updateDisplay_not_due ms c E). walk.
Qed.

(** The reset on the fallback clock. *)
Lemma fallback_reset c :
  fallback_clock c ->
  fallback_clock
    (on_state (st_running false)
       (if running (state c)
        then set_fallbackInterval None (clearInterval (fallbackInterval c) c)
        else c)).
Proof.
  intros H. destruct (running (state c)) eqn:Hr.
  - destruct H as (H1 & H2 & H3 & H4). unfold fallback_clock. cbn.
    rewrite H3. repeat split; auto.
    + destruct (fallbackInterval c); cbn; [now rewrite Nat.eqb_refl | reflexivity].
    + intros E. discriminate E.
  - destruct (fallback_clock_stopped c H Hr) as [Hi Ht].
    destruct H as (H1 & H2 & H3 & H4). unfold fallback_clock. cbn.
    rewrite Hi in *. repeat split; auto.
    intros E. discriminate E.
Qed.

Lemma step_fallback_clock e c :
  is_worker_message e = false ->
  fallback_clock c -> fallback_clock (step e c).
Proof.
  intros He H.
  destruct e as [now| | | | |v| | | |k now|id|id now|msg| |hid];
    [ | | | | | | | | | destruct k | | | discriminate He | | ];
    open_handler; unfold renderLoop, requestAnimationFrame; cbv beta iota zeta;
    repeat first
      [ progress walk
      | off_worker
      | match goal with
        | |- fallback_clock (updateDisplay _ _) =>
            apply updateDisplay_fallback_clock
        | |- fallback_clock (set_fallbackInterval None (clearInterval _ _)) =>
            stop_block H
        | |- fallback_clock (on_state (st_running false) (if _ then _ else _)) =>
            apply fallback_reset
        | Hr : running (state c) = false
          |- fallback_clock (set_fallbackInterval (Some _) _) =>
            apply fallback_start; cbn;
            first [ apply H | apply (fallback_clock_stopped c H Hr)
                  | reflexivity ]
        end ].
  destruct H as (_ & H2 & H3 & H4). unfold fallback_clock. cbn. auto.
Qed.

Lemma run_fallback_clock es : forall c,
  forallb (fun e => negb (is_worker_message e)) es = true ->
  fallback_clock c -> fallback_clock (run es c).
Proof.
  induction es as [|e es IH]; intros c He Hc; [exact Hc|].
  cbn in He. apply andb_true_iff in He as [He1 He2].
  apply negb_true_iff in He1.
  apply (IH (step e c) He2). now apply step_fallback_clock.
Qed.

End FallbackClock.


Section FallbackClockTheorem.

(** X9. When no worker could be constructed and so no worker message ever
    arrives: in every state the controller can reach, nothing has been
    posted to the missing worker, the session runs exactly while an
    interval is held in [fallbackInterval], and that interval is the only
    live one (none is leaked, none is set twice). *)
Theorem fallback_clock_consistent savedMode savedCountdown savedMute es :
  forallb (fun e => negb (is_worker_message e)) es = true ->
  fallback_clock (run es (init savedMode savedCountdown savedMute false)).
Proof.
  intros He. apply run_fallback_clock; [exact He|].
  destruct (init_bookkeeping savedMode savedCountdown savedMute false)
    as (Hr & Hw & Hi & _ & Ht & Ho & _).
  unfold fallback_clock. rewrite Hw, Ho, Ht, Hi, Hr.
  repeat split; auto; intros E; first [discriminate E | now elim E].
Qed.

Lemma fallback_clock_consistent_witness :
  fallback_clock
    (run [ClickStartPause 1000; Interval 1 1016; Frame 2; ClickMode;
          ClickStartPause 2000; ClickReset]
       (init None (Some (lit "5000")) false false)).
Proof.
  apply (fallback_clock_consistent None (Some (lit "5000")) false
           [ClickStartPause 1000; Interval 1 1016; Frame 2; ClickMode;
            ClickStartPause 2000; ClickReset]).
  reflexivity.
Defined.

End FallbackClockTheorem.

(* ====================================================================== *)
(** ** Completion belongs to Countdown mode *)
(* ====================================================================== *)

Section CountdownOnly.

Lemma completed_in_countdown_layer (f : Ctl -> Ctl) :
  (forall x, mode (state (f x)) = mode (state x)) ->
  (forall x, countdownCompleted (state (f x)) = countdownCompleted (state x)) ->
  forall c, completed_in_countdown c -> completed_in_countdown (f c).
Proof.
  unfold completed_in_countdown. intros H1 H2 c. rewrite H1, H2. auto.
Qed.

Lemma cleared_in_countdown x :
  completed_in_countdown (on_state (st_countdownCompleted false) x).
Proof. intros H. discriminate H. Qed.

Lemma stopRenderLoop_in_countdown c :
  completed_in_countdown c -> completed_in_countdown (stopRenderLoop c).
Proof.
  unfold stopRenderLoop. destruct (animationFrameId (state c)); auto.
Qed.

Lemma startRenderLoop_in_countdown c :
  completed_in_countdown c -> completed_in_countdown (startRenderLoop c).
Proof.
  unfold startRenderLoop. destruct (animationFrameId (state c)); auto.
Qed.

Ltac walk :=
  repeat first
    [ assumption
    | match goal with
      | |- completed_in_countdown (if ?b then _ else _) => destruct b eqn:?
      | |- completed_in_countdown (match ?x with _ => _ end) => destruct x eqn:?
      | |- completed_in_countdown (on_state (st_countdownCompleted false) _) =>
          apply cleared_in_countdown
      | |- completed_in_countdown (stopRenderLoop _) =>
          apply stopRenderLoop_in_countdown
      | |- completed_in_countdown (startRenderLoop _) =>
          apply startRenderLoop_in_countdown
      | |- completed_in_countdown (?f ?X) =>
          apply (completed_in_countdown_layer f);
          [ intro; reflexivity | intro; reflexivity | ]
      end ].

Lemma updateDisplay_in_countdown ms c :
  completed_in_countdown c -> completed_in_countdown (updateDisplay ms c).
Proof.
  intros H. destruct (due ms c) eqn:E.
  - rewrite (updateDisplay_due ms c E).
    apply due_true in E as (Hm & _).
    walk; intros _; exact Hm.
  - rewrite (updateDisplay_not_due ms c E). walk.
Qed.

Lemma step_in_countdown e c :
  completed_in_countdown c -> completed_in_countdown (step e c).
Proof.
  intros H.
  destruct e as [now| | | | |v| | | |k now|id|id now|msg| |hid];
    [ | | | | | | | | | destruct k | | | destruct msg | | ];
    open_handler; unfold renderLoop, requestAnimationFrame; cbv beta iota zeta;
    repeat first
      [ progress walk
      | match goal with
        | |- completed_in_countdown (updateDisplay _ _) =>
            apply updateDisplay_in_countdown
        end ].
Qed.

Lemma run_in_countdown es : forall c,
  completed_in_countdown c -> completed_in_countdown (run es c).
Proof.
  induction es as [|e es IH]; intros c Hc; [exact Hc|].
  apply (IH (step e c)). now apply step_in_countdown.
Qed.

(** In Stopwatch mode no event emits the completion signals, not even the
    one that switches to Countdown mode. *)
Lemma stopwatch_step_quiet e c :
  mode (state c) = MODE_STOPWATCH -> 0 <= countdownTargetMs (state c) ->
  completions (step e c) = completions c.
Proof.
  intros Hm Ht.
  assert (Hmode : completions (toggleMode c) = completions c).
  { unfold toggleMode. rewrite Hm.
    assert (Hne : mode (state c) <> MODE_COUNTDOWN) by (rewrite Hm; discriminate).
    destruct (setMode_switches MODE_COUNTDOWN c Hne Ht)
      as (_ & _ & _ & _ & _ & _ & _ & He).
    unfold completions. now rewrite He. }
  destruct e as [now| | | | |v| | | |k now|id|id now|msg| |hid];
    [ | | exact Hmode | | | | | | | destruct k; [ | | | ] | | | destruct msg | | ].
  all: try (cbn [step]; destruct (isEditing c); [reflexivity | exact Hmode]).
  all: clear Hmode; break c; cbn in Hm; subst;
    unfold step, toggleStartPause, startTimer, resetTimer,
      toggleMute, enterEditMode, exitEditMode, renderLoop, fallbackTick,
      onWorkerMessage, onWorkerError, fallbackToMainThread, onVisibilityChange,
      pauseTimer, pauseTimer_with, startRenderLoop, stopRenderLoop, completions;
    settle; rewrite ?filter_app, ?length_app; cbn; auto.
Qed.

End CountdownOnly.

Section CountdownOnlyTheorems.

(** X10. Completion belongs to Countdown mode.  In every state the
    controller can reach from start-up, the completion flag is set only in
    Countdown mode; and while the mode is Stopwatch no event emits the
    completion signals, whatever the elapsed time and also when the event
    is the switch to Countdown mode. *)
Theorem completion_only_in_countdown savedMode savedCountdown savedMute workerOk es :
  let c := run es (init savedMode savedCountdown savedMute workerOk) in
  (countdownCompleted (state c) = true -> mode (state c) = MODE_COUNTDOWN) /\
  (mode (state c) = MODE_STOPWATCH ->
   forall e, completions (step e c) = completions c).
Proof.
  cbv zeta. split.
  - apply run_in_countdown. intros H.
    destruct (init_bookkeeping savedMode savedCountdown savedMute workerOk)
      as (_ & _ & _ & _ & _ & _ & Hc).
    rewrite Hc in H. discriminate H.
  - intros Hm e. apply stopwatch_step_quiet; [exact Hm|].
    apply run_target_nonneg, init_target_nonneg.
Qed.

Lemma completion_only_in_countdown_witness :
  (let c := run [ClickStartPause 1000; Interval 1 6000; Frame 2]
              (init (Some MODE_COUNTDOWN) (Some (lit "5000")) false false) in
   countdownCompleted (state c) = true /\ mode (state c) = MODE_COUNTDOWN) /\
  (let c := run [ClickStartPause 1000; Interval 1 6000]
              (init None None false false) in
   completions (step (Frame 2) c) = completions c).
Proof.
  split.
  - split; [reflexivity|].
    apply (proj1 (completion_only_in_countdown (Some MODE_COUNTDOWN)
                    (Some (lit "5000")) false false
                    [ClickStartPause 1000; Interval 1 6000; Frame 2])).
    reflexivity.
  - apply (proj2 (completion_only_in_countdown None None false false
                    [ClickStartPause 1000; Interval 1 6000])).
    reflexivity.
Defined.

(** X11. The countdown target is never negative: in every state the
    controller can reach from start-up, whatever was saved and whatever is
    typed, [state.countdownTargetMs] is at least 0. *)
Theorem target_never_negative savedMode savedCountdown savedMute workerOk es :
  0 <= countdownTargetMs
         (state (run es (init savedMode savedCountdown savedMute workerOk))).
Proof. apply run_target_nonneg, init_target_nonneg. Qed.

End CountdownOnlyTheorems.

(* ====================================================================== *)
(** ** The controller and the worker stay in step *)
(* ====================================================================== *)

Import Channel.

Section Requests.

Lemma requests_ok_layer (f : Ctl -> Ctl) :
  (forall x, outbox (f x) = outbox x) ->
  forall c, requests_ok c -> requests_ok (f c).
Proof. unfold requests_ok. intros H c. now rewrite H. Qed.

Lemma requests_ok_post m x :
  request_ok m = true -> requests_ok x -> requests_ok (postMessage m x).
Proof.
  unfold requests_ok. cbn. intros Hm Hx.
  rewrite forallb_app, Hx. cbn. now rewrite Hm.
Qed.

Lemma stopRenderLoop_requests_ok c :
  requests_ok c -> requests_ok (stopRenderLoop c).
Proof. unfold stopRenderLoop. destruct (animationFrameId (state c)); auto. Qed.

Lemma startRenderLoop_requests_ok c :
  requests_ok c -> requests_ok (startRenderLoop c).
Proof. unfold startRenderLoop. destruct (animationFrameId (state c)); auto. Qed.

Ltac walk :=
  repeat first
    [ assumption
    | match goal with
      | |- requests_ok (if ?b then _ else _) => destruct b eqn:?
      | |- requests_ok (match ?x with _ => _ end) => destruct x eqn:?
      | |- requests_ok (postMessage _ _) =>
          apply requests_ok_post; [reflexivity|]
      | |- requests_ok (stopRenderLoop _) => apply stopRenderLoop_requests_ok
      | |- requests_ok (startRenderLoop _) => apply startRenderLoop_requests_ok
      | |- requests_ok (?f ?X) =>
          apply (requests_ok_layer f); [ intro; reflexivity | ]
      end ].

Lemma updateDisplay_requests_ok ms c :
  requests_ok c -> requests_ok (updateDisplay ms c).
Proof.
  intros H. destruct (due ms c) eqn:E.
  - rewrite (updateDisplay_due ms c E). walk.
  - rewrite (updateDisplay_not_due ms c E). walk.
Qed.

Lemma step_requests_ok e c : requests_ok c -> requests_ok (step e c).
Proof.
  intros H.
  destruct e as [now| | | | |v| | | |k now|id|id now|msg| |hid];
    [ | | | | | | | | | destruct k | | | destruct msg | | ];
    open_handler; unfold renderLoop, requestAnimationFrame; cbv beta iota zeta;
    repeat first
      [ progress walk
      | match goal with
        | |- requests_ok (updateDisplay _ _) => apply updateDisplay_requests_ok
        end ].
Qed.

Lemma run_requests_ok es : forall c, requests_ok c -> requests_ok (run es c).
Proof.
  induction es as [|e es IH]; intros c Hc; [exact Hc|].
  apply (IH (step e c)). now apply step_requests_ok.
Qed.

(** X12. The controller only ever asks the worker for three things: a
    start that carries [fromMs], a pause, a reset.  Whatever the events,
    every message it has posted since start-up is one of these; it never
    sends a start without [fromMs], a [getState] or an unknown type. *)
Theorem controller_requests savedMode savedCountdown savedMute workerOk es :
  forallb request_ok
    (outbox (run es (init savedMode savedCountdown savedMute workerOk))) = true.
Proof.
  apply run_requests_ok. unfold requests_ok.
  destruct (init_bookkeeping savedMode savedCountdown savedMute workerOk)
    as (_ & _ & _ & _ & _ & Ho & _).
  now rewrite Ho.
Qed.

End Requests.

Section InStep.

Lemma on_worker_clock_layer r (f : Ctl -> Ctl) :
  (forall x, workerFallback (state (f x)) = workerFallback (state x)) ->
  (forall x, running (state (f x)) = running (state x)) ->
  forall c, on_worker_clock r c -> on_worker_clock r (f c).
Proof. unfold on_worker_clock. intros H1 H2 c. now rewrite H1, H2. Qed.

Lemma stopRenderLoop_on_worker_clock r c :
  on_worker_clock r c -> on_worker_clock r (stopRenderLoop c).
Proof. unfold stopRenderLoop. destruct (animationFrameId (state c)); auto. Qed.

Lemma startRenderLoop_on_worker_clock r c :
  on_worker_clock r c -> on_worker_clock r (startRenderLoop c).
Proof. unfold startRenderLoop. destruct (animationFrameId (state c)); auto. Qed.

Ltac walk :=
  repeat first
    [ assumption
    | match goal with
      | |- on_worker_clock _ (if ?b then _ else _) => destruct b eqn:?
      | |- on_worker_clock _ (match ?x with _ => _ end) => destruct x eqn:?
      | |- on_worker_clock _ (stopRenderLoop _) =>
          apply stopRenderLoop_on_worker_clock
      | |- on_worker_clock _ (startRenderLoop _) =>
          apply startRenderLoop_on_worker_clock
      | |- on_worker_clock _ (?f ?X) =>
          apply (on_worker_clock_layer _ f);
          [ intro; reflexivity | intro; reflexivity | ]
      end ].

(** On the fallback branch of a handler the first part is contradicted. *)
Ltac off_fallback :=
  match goal with
  | H : on_worker_clock _ ?c, E : workerFallback _ = true |- _ =>
      cbn in E; rewrite (proj1 H) in E; discriminate E
  end.

Lemma updateDisplay_on_worker_clock r ms c :
  on_worker_clock r c -> on_worker_clock r (updateDisplay ms c).
Proof.
  intros H. destruct (due ms c) eqn:E.
  - rewrite (updateDisplay_due ms c E). walk. off_fallback.
  - rewrite (updateDisplay_not_due ms c E). walk.
Qed.

(** On the worker clock the controller's own events never touch
    [state.running]: they post requests and wait for the answer. *)
Lemma step_on_worker_clock r e c :
  injected (System.Main e) = false ->
  on_worker_clock r c -> on_worker_clock r (step e c).
Proof.
  intros He H.
  destruct e as [now| | | | |v| | | |k now|id|id now|msg| |hid];
    [ | | | | | | | | | destruct k | | | discriminate He | discriminate He | ];
    open_handler; unfold renderLoop, requestAnimationFrame; cbv beta iota zeta;
    repeat first
      [ progress walk
      | off_fallback
      | match goal with
        | |- on_worker_clock _ (updateDisplay _ _) =>
            apply updateDisplay_on_worker_clock
        end ].
Qed.

Lemma replay_running_app l1 l2 r :
  replay_running (l1 ++ l2) r = replay_running l2 (replay_running l1 r).
Proof. unfold replay_running. apply fold_left_app. Qed.

(** What the worker posts on a request replays to its new [running]. *)
Lemma onmessage_replay m now w :
  exists l,
    Worker.posted (Worker.onmessage m now w) = Worker.posted w ++ l /\
    replay_running l (Worker.running w) =
    Worker.running (Worker.onmessage m now w).
Proof.
  destruct w as [r st acc ti iv nid po].
  destruct m as [p| | | |]; cbn;
    unfold Worker.start, Worker.pause, Worker.reset, Worker.getState; cbn.
  - destruct r; cbn; [exists []|eexists [_]]; cbn;
      rewrite ?app_nil_r; split; reflexivity.
  - destruct r; cbn; [destruct ti; cbn; eexists [_]|exists []]; cbn;
      rewrite ?app_nil_r; split; reflexivity.
  - destruct r; cbn; [eexists [_; _]|eexists [_]]; cbn;
      rewrite <- ?app_assoc; split; reflexivity.
  - eexists [_]. split; reflexivity.
  - exists []. now rewrite app_nil_r.
Qed.

Lemma tick_replay id now w r :
  replay_running (Worker.posted (Worker.step (Worker.Fire id now) w)) r =
  replay_running (Worker.posted w) r /\
  Worker.running (Worker.step (Worker.Fire id now) w) = Worker.running w.
Proof.
  cbn. destruct (existsb (Nat.eqb id) (Worker.intervals w)); [|auto].
  unfold Worker.tick. destruct (Worker.running w) eqn:E; cbn; [|auto].
  rewrite replay_running_app. auto.
Qed.

(** What a worker message does to the controller's [running]. *)
Lemma onWorkerMessage_running m c :
  workerFallback (state c) = false ->
  on_worker_clock (running_after m (running (state c))) (onWorkerMessage m c).
Proof.
  intros Hw. unfold on_worker_clock.
  destruct m as [|e|e|e| |r e]; unfold onWorkerMessage; cbv zeta.
  - now split.
  - now split.
  - unfold startRenderLoop. cbn.
    destruct (animationFrameId (state c)); now split.
  - rewrite updateDisplay_idle by apply stopRenderLoop_running.
    unfold stopRenderLoop. cbn.
    destruct (animationFrameId (state c)); now split.
  - rewrite updateDisplay_idle by apply stopRenderLoop_running.
    unfold stopRenderLoop. cbn.
    destruct (animationFrameId (state c)); now split.
  - now split.
Qed.

Lemma step_in_step st s :
  injected st = false -> in_step s -> in_step (System.step st s).
Proof.
  intros Hi [Hw Hr]. destruct s as [c w]. cbn in Hw, Hr.
  destruct st as [e|now| |id now]; cbn [System.step System.ctl System.wk].
  - destruct (step_on_worker_clock (running (state c)) e c Hi) as [Hw' Hr'];
      [now split|].
    split; cbn; [exact Hw'|]. now rewrite Hr'.
  - destruct (outbox c) as [|m ob]; [now split|].
    destruct (onmessage_replay m now w) as (l & Hp & Hl).
    split; cbn; [exact Hw|].
    now rewrite Hp, replay_running_app, Hr.
  - destruct (Worker.posted w) as [|m po] eqn:Ep; [split; cbn; [exact Hw|]|].
    + now rewrite Ep.
    + destruct (onWorkerMessage_running m c Hw) as [Hw' Hr'].
      split; [exact Hw'|].
      cbn [System.ctl System.wk System.take_posted Worker.posted
           Worker.running].
      rewrite Hr', Ep. exact Hr.
  - destruct (tick_replay id now w (running (state c))) as [Hp Hk].
    split; cbn; [exact Hw|]. cbn in Hp, Hk. now rewrite Hp, Hk.
Qed.

Lemma run_in_step sts : forall s,
  forallb (fun st => negb (injected st)) sts = true ->
  in_step s -> in_step (System.run sts s).
Proof.
  induction sts as [|st sts IH]; intros s Hi Hs; [exact Hs|].
  cbn in Hi. apply andb_true_iff in Hi as [Hi1 Hi2].
  apply negb_true_iff in Hi1.
  apply (IH (System.step st s) Hi2). now apply step_in_step.
Qed.

(** X13. The controller and the worker stay in step.  From start-up with
    a working worker, under any interleaving of user events, deliveries in
    either direction and worker ticks (but no worker message or error other
    than the worker's own), the session stays on the worker clock, and
    [state.running], once the worker's messages still in flight have
    arrived, is the worker's [running]; with no message in flight the two
    are equal. *)
Theorem controller_and_worker_in_step savedMode savedCountdown savedMute sts :
  forallb (fun st => negb (injected st)) sts = true ->
  let s := System.run sts (System.start_up savedMode savedCountdown savedMute) in
  workerFallback (state (System.ctl s)) = false /\
  replay_running (Worker.posted (System.wk s))
    (running (state (System.ctl s))) = Worker.running (System.wk s) /\
  (Worker.posted (System.wk s) = [] ->
   running (state (System.ctl s)) = Worker.running (System.wk s)).
Proof.
  intros Hi. cbv zeta.
  assert (H : in_step (System.run sts
                         (System.start_up savedMode savedCountdown savedMute))).
  { apply run_in_step; [exact Hi|].
    destruct (init_bookkeeping savedMode savedCountdown savedMute true)
      as (Hr & Hw & _).
    split; [exact Hw|]. cbn. now rewrite Hr. }
  destruct H as [Hw Hr]. repeat split; auto.
  intros Hp. now rewrite Hp in Hr.
Qed.

Lemma controller_and_worker_in_step_witness :
  let s := System.run
             [System.Main (ClickStartPause 1000); System.ToWorker 1000;
              System.ToMain; System.ToMain; System.WorkerTimer 1 1016;
              System.Main ClickReset; System.ToWorker 1020; System.ToMain;
              System.ToMain; System.ToMain]
             (System.start_up None None false) in
  Worker.posted (System.wk s) = [] /\
  running (state (System.ctl s)) = Worker.running (System.wk s).
Proof.
  cbv zeta. split; [reflexivity|].
  apply (controller_and_worker_in_step None None false
           [System.Main (ClickStartPause 1000); System.ToWorker 1000;
            System.ToMain; System.ToMain; System.WorkerTimer 1 1016;
            System.Main ClickReset; System.ToWorker 1020; System.ToMain;
            System.ToMain; System.ToMain]);
    reflexivity.
Defined.

End InStep.

(* ====================================================================== *)
(** ** What a display update keeps, and what it shows *)
(* ====================================================================== *)

Section DisplayUpdate.

Lemma kept_layer (f : Ctl -> Ctl) :
  (forall x, kept (f x) = kept x) -> forall c, kept (f c) = kept c.
Proof. auto. Qed.

Lemma stopRenderLoop_kept c : kept (stopRenderLoop c) = kept c.
Proof. unfold stopRenderLoop. now destruct (animationFrameId (state c)). Qed.

Ltac peel_kept :=
  repeat match goal with
         | |- kept (stopRenderLoop ?X) = _ => rewrite (stopRenderLoop_kept X)
         | |- kept (?f ?X) = _ => rewrite (kept_layer f (fun x => eq_refl) X)
         end.

Lemma updateDisplay_kept ms c : kept (updateDisplay ms c) = kept c.
Proof.
  destruct (due ms c) eqn:E.
  - rewrite (updateDisplay_due ms c E).
    destruct (workerFallback (state c)); peel_kept; reflexivity.
  - rewrite (updateDisplay_not_due ms c E). peel_kept. reflexivity.
Qed.

Lemma updateDisplay_keeps ms c :
  let c' := updateDisplay ms c in
  mode (state c') = mode (state c) /\
  elapsedMs (state c') = elapsedMs (state c) /\
  countdownTargetMs (state c') = countdownTargetMs (state c) /\
  muted (state c') = muted (state c) /\
  workerFallback (state c') = workerFallback (state c) /\
  isEditing c' = isEditing c /\
  storedCountdown (host c') = storedCountdown (host c) /\
  editorValue (dom c') = editorValue (dom c).
Proof.
  cbv zeta. pose proof (updateDisplay_kept ms c) as H. unfold kept in H.
  injection H as H1 H2 H3 H4 H5 H6 H7 H8. repeat split; assumption.
Qed.

Lemma shown_text ms c :
  display_text (shown ms c) =
  msToString (match mode (state c) with
              | MODE_COUNTDOWN => Z.max 0 (countdownTargetMs (state c) - ms)
              | MODE_STOPWATCH => ms
              end).
Proof.
  unfold display_text, shown, msToString. cbv zeta.
  cbn [on_dom dom d_display timeMain timeMs].
  repeat (rewrite <- app_assoc; cbn [app]). reflexivity.
Qed.

Lemma display_text_layer (f : Ctl -> Ctl) :
  (forall x, display_text (f x) = display_text x) ->
  forall c, display_text (f c) = display_text c.
Proof. auto. Qed.

Ltac peel_text :=
  repeat match goal with
         | |- display_text (shown _ _) = _ => fail 1
         | |- display_text (?f ?X) = _ =>
             rewrite (display_text_layer f (fun x => eq_refl) X)
         end.

Lemma updateDisplay_text c :
  display_text (updateDisplay (elapsedMs (state c)) c) =
  msToString
    (match mode (state c) with
     | MODE_COUNTDOWN =>
         Z.max 0 (countdownTargetMs (state c) - elapsedMs (state c))
     | MODE_STOPWATCH => elapsedMs (state c)
     end).
Proof.
  destruct (due (elapsedMs (state c)) c) eqn:E.
  - rewrite (updateDisplay_due _ c E).
    destruct (workerFallback (state c)).
    + peel_text. rewrite shown_text.
      match goal with
      | |- context [stopRenderLoop ?X] =>
          pose proof (stopRenderLoop_kept X) as K
      end.
      unfold kept in K. injection K as -> _ -> _ _ _ _ _. reflexivity.
    + peel_text. apply shown_text.
  - rewrite (updateDisplay_not_due _ c E). apply shown_text.
Qed.

Lemma msToString_zero : msToString 0 = lit "00:00:00.00".
Proof. reflexivity. Qed.

(** X14. What the display shows after [updateDisplay(state.elapsedMs)]:
    in Stopwatch mode the elapsed time, in Countdown mode the target minus
    the elapsed time and never less than zero, each in the form of
    [msToString]; also when this very update completes the countdown and
    pauses the session.  At or past the target the text is
    ["00:00:00.00"]. *)
Theorem display_shows_time c :
  let c' := updateDisplay (elapsedMs (state c)) c in
  display_text c' =
    msToString
      (match mode (state c) with
       | MODE_COUNTDOWN =>
           Z.max 0 (countdownTargetMs (state c) - elapsedMs (state c))
       | MODE_STOPWATCH => elapsedMs (state c)
       end) /\
  (mode (state c) = MODE_COUNTDOWN ->
   countdownTargetMs (state c) <= elapsedMs (state c) ->
   display_text c' = lit "00:00:00.00").
Proof.
  cbv zeta. split; [apply updateDisplay_text|].
  intros Hm Ht. rewrite updateDisplay_text, Hm, Z.max_l by lia.
  apply msToString_zero.
Qed.

Lemma display_shows_time_witness :
  let c := Scenario.countdown_on_fallback in
  display_text (updateDisplay (elapsedMs (state c)) c) = lit "00:00:00.00".
Proof.
  cbv zeta.
  apply (proj2 (display_shows_time Scenario.countdown_on_fallback)).
  - reflexivity.
  - vm_compute. discriminate.
Defined.

End DisplayUpdate.

(* ====================================================================== *)
(** ** The two clocks measure alike *)
(* ====================================================================== *)

Import WorkerRuns.

Section TwoClocks.

Lemma startTimer_workerFallback now c :
  workerFallback (state (startTimer now c)) = workerFallback (state c).
Proof.
  unfold startTimer. destruct (running (state c)); [reflexivity|].
  cbv zeta. cbn [on_state state st_countdownCompleted workerFallback].
  destruct (workerFallback (state c)) eqn:Ew; [|cbn; exact Ew].
  unfold startRenderLoop, setInterval. cbn.
  destruct (animationFrameId (state c)); cbn; exact Ew.
Qed.

(** One start, one sample of the clock and the pause, on the fallback
    clock. *)
Lemma fallback_span_step a b c :
  workerFallback (state c) = true -> running (state c) = false ->
  let c' := pauseTimer (fallbackTick b (startTimer a c)) in
  workerFallback (state c') = true /\ running (state c') = false /\
  elapsedMs (state c') = elapsedMs (state c) + (b - a).
Proof.
  intros Hw Hr. cbv zeta.
  destruct (startTimer_on_fallback a c Hw Hr) as (Hr1 & _ & _ & _ & _ & Ht).
  cbv zeta in Hr1, Ht.
  pose proof (startTimer_workerFallback a c) as Hw1. rewrite Hw in Hw1.
  assert (Hr2 : running (state (fallbackTick b (startTimer a c))) = true)
    by exact Hr1.
  assert (Hw2 : workerFallback (state (fallbackTick b (startTimer a c))) = true)
    by exact Hw1.
  destruct (pause_if_running (fallbackTick b (startTimer a c)))
    as ((_ & He & _) & (Hr3 & Hw3 & _) & _).
  cbv zeta in He, Hr3, Hw3. rewrite Hr2 in He, Hr3, Hw3.
  rewrite Hw3, Hr3, He, Hw2, Ht. auto.
Qed.

(** X15. The fallback clock measures what the worker clock measures.
    Start both stopped and with the same elapsed time; run the same series
    of spans on each, where on the worker a span is a resume and a pause
    and on the fallback clock a start, the interval callback at the instant
    of the pause, and the pause.  Then both end stopped with the same
    elapsed time: the earlier value plus the lengths of the spans. *)
Theorem fallback_clock_measures_like_worker l : forall c w,
  workerFallback (state c) = true -> running (state c) = false ->
  Worker.running w = false ->
  Worker.accumulatedMs w = elapsedMs (state c) ->
  elapsedMs (state (fallback_spans l c)) = elapsedMs (state c) + total l /\
  Worker.accumulatedMs (Worker.run (spans l) w) =
  elapsedMs (state (fallback_spans l c)) /\
  running (state (fallback_spans l c)) = false /\
  Worker.running (Worker.run (spans l) w) = false.
Proof.
  induction l as [|[a b] l IH]; intros c w Hw Hr Hwr Hacc.
  - cbn. repeat split; auto. lia.
  - change (Worker.run (spans ((a, b) :: l)) w)
      with (Worker.run (spans l)
              (Worker.run [Worker.Deliver (WStart None) a;
                           Worker.Deliver WPause b] w)).
    cbn [fallback_spans].
    destruct (fallback_span_step a b c Hw Hr) as (Hw' & Hr' & He').
    destruct (span_step a b w Hwr) as (Hwr' & Hacc' & _).
    destruct (IH _ _ Hw' Hr' Hwr') as (H1 & H2 & H3 & H4).
    { rewrite Hacc', He', Hacc. reflexivity. }
    repeat split; auto.
    rewrite H1, He'. cbn [total]. lia.
Qed.

Lemma fallback_clock_measures_like_worker_witness :
  elapsedMs
    (state (fallback_spans [(1000, 3000); (10000, 10500)]
              (init None None false false))) = 2500 /\
  Worker.accumulatedMs
    (Worker.run (spans [(1000, 3000); (10000, 10500)]) Worker.initial) = 2500.
Proof.
  destruct (fallback_clock_measures_like_worker
              [(1000, 3000); (10000, 10500)]
              (init None None false false) Worker.initial
              eq_refl eq_refl eq_refl eq_refl) as (H1 & H2 & _).
  split; [exact H1|]. rewrite H2. exact H1.
Defined.

End TwoClocks.

(* ====================================================================== *)
(** ** Editing and the saved countdown *)
(* ====================================================================== *)

Section EditingMore.

Lemma String_of_nonempty n : 0 <= n -> exists x s, String_of n = x :: s.
Proof.
  intros Hn. destruct (String_of_nonneg n Hn) as (ds & -> & Hne & _).
  destruct ds as [|x s]; [now elim Hne|]. now exists x, s.
Qed.

(** What is saved for a target reads back as that target. *)
Lemma loaded_target_saved ms c :
  0 <= ms -> storedCountdown (host c) = Some (String_of ms) ->
  countdownTargetMs (state c) = 0 ->
  loaded_target c = if ms =? 0 then 5 * MS_PER_MINUTE else ms.
Proof.
  intros Hms Hs Ht. unfold loaded_target. rewrite Hs, Ht.
  destruct (String_of_nonempty ms Hms) as (x & s & E).
  pose proof (parseInt_String_of ms Hms) as Hp. rewrite E in Hp |- *.
  rewrite Hp. destruct (ms >? 0) eqn:G.
  - rewrite Z.gtb_ltb in G. apply Z.ltb_lt in G.
    assert ((ms =? 0) = false) as -> by (apply Z.eqb_neq; lia). reflexivity.
  - rewrite Z.gtb_ltb in G. apply Z.ltb_ge in G.
    assert (ms = 0) as -> by lia. reflexivity.
Qed.

(** X16. An edited countdown target survives a restart.  When an edit in
    Countdown mode is accepted with value [ms], [ms] becomes the target and
    [String(ms)] is saved; the next start-up in Countdown mode, given what
    was saved, comes up with target [ms] again, except that a target of 0
    comes back as five minutes. *)
Theorem countdown_target_persists c ms savedMute workerOk :
  isEditing c = true -> mode (state c) = MODE_COUNTDOWN ->
  parseTime (editorValue (dom c)) = Some ms ->
  let c' := exitEditMode true c in
  countdownTargetMs (state c') = ms /\
  storedCountdown (host c') = Some (String_of ms) /\
  countdownTargetMs
    (state (init (Some MODE_COUNTDOWN) (storedCountdown (host c'))
              savedMute workerOk)) =
  (if ms =? 0 then 5 * MS_PER_MINUTE else ms).
Proof.
  intros He Hm Hp. cbv zeta.
  assert (Hms : 0 <= ms)
    by (apply parseTime_representable in Hp; destruct Hp as [[? _] _]; assumption).
  unfold exitEditMode. rewrite He. cbn [negb].
  cbn [set_isEditing dom state]. rewrite Hp, Hm.
  destruct (updateDisplay_keeps
              (elapsedMs
                 (state
                    (on_host (h_storedCountdown (Some (String_of ms)))
                       (on_state (st_elapsedMs 0)
                          (on_state (st_countdownTargetMs ms)
                             (set_isEditing false c))))))
              (on_host (h_storedCountdown (Some (String_of ms)))
                 (on_state (st_elapsedMs 0)
                    (on_state (st_countdownTargetMs ms)
                       (set_isEditing false c)))))
    as (_ & _ & Ht & _ & _ & _ & Hs & _).
  rewrite Ht, Hs. cbn [on_host on_state host state h_storedCountdown
                       storedCountdown st_countdownTargetMs st_elapsedMs
                       countdownTargetMs].
  repeat split.
  rewrite init_eq, loadState_eq.
  unfold initWorker, fallbackToMainThread.
  transitivity (loaded_target (boot (Some (String_of ms)))).
  - now destruct workerOk, savedMute.
  - now apply loaded_target_saved.
Qed.

Lemma countdown_target_persists_witness :
  let c' := exitEditMode true Scenario.editing_countdown in
  countdownTargetMs (state c') = 10000 /\
  countdownTargetMs
    (state (init (Some MODE_COUNTDOWN) (storedCountdown (host c')) false true))
  = 10000.
Proof.
  cbv zeta.
  destruct (countdown_target_persists Scenario.editing_countdown 10000
              false true eq_refl eq_refl eq_refl) as (H1 & _ & H3).
  split; [exact H1 | exact H3].
Defined.

(** X17. Opening the editor and confirming what it offers.  In Stopwatch
    mode the elapsed time loses its fraction of a centisecond, and is left
    alone when it is negative or a hundred hours and more (the offered text
    is then rejected).  In Countdown mode the editor offers the target, not
    the remaining time: confirming it keeps the target (cut to a whole
    centisecond) and puts the elapsed time back to 0, so the progress of a
    countdown is given up; a target of a hundred hours and more is
    rejected and nothing changes. *)
Theorem edit_confirm_unchanged c :
  isEditing c = false ->
  let c' := exitEditMode true (enterEditMode c) in
  let fits v := (0 <=? v) && (v <? 100 * MS_PER_HOUR) in
  isEditing c' = false /\ mode (state c') = mode (state c) /\
  match mode (state c) with
  | MODE_STOPWATCH =>
      countdownTargetMs (state c') = countdownTargetMs (state c) /\
      elapsedMs (state c') =
        (if fits (elapsedMs (state c))
         then elapsedMs (state c) - elapsedMs (state c) mod 10
         else elapsedMs (state c))
  | MODE_COUNTDOWN =>
      if fits (countdownTargetMs (state c))
      then countdownTargetMs (state c') =
             countdownTargetMs (state c) - countdownTargetMs (state c) mod 10 /\
           elapsedMs (state c') = 0
      else countdownTargetMs (state c') = countdownTargetMs (state c) /\
           elapsedMs (state c') = elapsedMs (state c)
  end.
Proof.
  intros He. cbv zeta. unfold enterEditMode. rewrite He.
  cbv zeta.
  destruct (pause_if_running (set_isEditing true c))
    as ((Hm & Hel & Ht & _) & (_ & _ & Hed & _ & _) & _ & _).
  cbv zeta in Hm, Hel, Ht, Hed.
  set (p := if running (state (set_isEditing true c))
            then pauseTimer (set_isEditing true c)
            else set_isEditing true c) in *.
  cbn [set_isEditing state isEditing] in Hm, Hel, Ht, Hed.
  unfold exitEditMode.
  cbn [on_dom isEditing dom d_editorValue editorValue set_isEditing state].
  rewrite Hed. cbn [negb]. rewrite Hm.
  match goal with
  | |- context [updateDisplay ?ms ?X] =>
      destruct (updateDisplay_keeps ms X) as (Km & Ke & Kt & _ & _ & Ked & _ & _)
  end.
  cbv zeta in Km, Ke, Kt, Ked. rewrite Km, Ke, Kt, Ked. clear Km Ke Kt Ked.
  destruct (mode (state c)) eqn:Emode; rewrite parseTime_msToString.
  - rewrite Hel.
    destruct ((0 <=? elapsedMs (state c)) &&
              (elapsedMs (state c) <? 100 * MS_PER_HOUR));
      cbn; rewrite ?Hm, ?Ht, ?Hel; auto.
  - rewrite Ht.
    destruct ((0 <=? countdownTargetMs (state c)) &&
              (countdownTargetMs (state c) <? 100 * MS_PER_HOUR));
      cbn; rewrite ?Hm, ?Ht, ?Hel; auto.
Qed.

Lemma edit_confirm_unchanged_witness :
  let c := Scenario.countdown_on_fallback in
  let c' := exitEditMode true (enterEditMode c) in
  elapsedMs (state c) = 5000 /\
  countdownTargetMs (state c') = 5000 /\ elapsedMs (state c') = 0.
Proof.
  cbv zeta. split; [reflexivity|].
  exact (proj2 (proj2 (edit_confirm_unchanged Scenario.countdown_on_fallback
                         eq_refl))).
Defined.

End EditingMore.

(* ====================================================================== *)
(** ** Signals, visibility and the frame handle *)
(* ====================================================================== *)

Section Signals.

Lemma effects_layer (f : Ctl -> Ctl) :
  (forall x, effects (f x) = effects x) -> forall c, effects (f c) = effects c.
Proof. auto. Qed.

Lemma stopRenderLoop_effects c : effects (stopRenderLoop c) = effects c.
Proof. unfold stopRenderLoop. now destruct (animationFrameId (state c)). Qed.

Lemma updateDisplay_due_effects ms c :
  due ms c = true ->
  effects (updateDisplay ms c) =
  effects c ++ AnnounceCountdownComplete :: Pulse ::
    (if muted (state c) then [] else [Beep; Vibrate]).
Proof.
  intros E. rewrite (updateDisplay_due ms c E).
  cbn [emit effects]. f_equal.
  destruct (workerFallback (state c));
    repeat match goal with
           | |- effects (stopRenderLoop ?X) = _ =>
               rewrite (stopRenderLoop_effects X)
           | |- effects (?f ?X) = _ =>
               rewrite (effects_layer f (fun x => eq_refl) X)
           end; reflexivity.
Qed.

Lemma toggleMute_twice c : toggleMute (toggleMute c) = c.
Proof. break c. unfold toggleMute. cbn. now destruct mu. Qed.

(** X18. Mute silences the completion, and only the sound.  A display
    update that completes the countdown always announces and pulses; the
    beep and the vibration are added exactly when the session is not
    muted.  [toggleMute] flips that and nothing else: the same update after
    one toggle emits the other set of signals, and two toggles give the
    controller back as it was. *)
Theorem mute_silences_completion ms c :
  due ms c = true ->
  effects (updateDisplay ms c) =
    effects c ++ AnnounceCountdownComplete :: Pulse ::
      (if muted (state c) then [] else [Beep; Vibrate]) /\
  effects (updateDisplay ms (toggleMute c)) =
    effects c ++ AnnounceCountdownComplete :: Pulse ::
      (if muted (state c) then [Beep; Vibrate] else []) /\
  toggleMute (toggleMute c) = c.
Proof.
  intros E. split; [now apply updateDisplay_due_effects|].
  split; [|apply toggleMute_twice].
  assert (E' : due ms (toggleMute c) = true) by exact E.
  rewrite (updateDisplay_due_effects ms (toggleMute c) E').
  unfold toggleMute. cbn [on_state state effects st_muted muted].
  now destruct (muted (state c)).
Qed.

Lemma mute_silences_completion_witness :
  let c := Scenario.countdown_on_fallback in
  effects (updateDisplay 6000 (toggleMute c)) =
  effects c ++ [AnnounceCountdownComplete; Pulse].
Proof.
  cbv zeta.
  exact (proj1 (proj2 (mute_silences_completion 6000
                         Scenario.countdown_on_fallback eq_refl))).
Defined.

End Signals.

Section Visibility.

Lemma stopRenderLoop_session c :
  session (stopRenderLoop c) = session c /\
  timers (host (stopRenderLoop c)) = timers (host c) /\
  fallbackInterval (stopRenderLoop c) = fallbackInterval c /\
  nextId (host (stopRenderLoop c)) = nextId (host c) /\
  outbox (stopRenderLoop c) = outbox c /\
  effects (stopRenderLoop c) = effects c /\
  dom (stopRenderLoop c) = dom c.
Proof.
  unfold stopRenderLoop. destruct (animationFrameId (state c)); repeat split.
Qed.

(** X19. Hiding the page stops the rendering and nothing else.  On
    [visibilitychange] to hidden the pending frame is cancelled and its
    handle forgotten, while the session, the clock's interval, the
    messages and the display stay as they are, so time goes on being
    counted.  Coming back, a running session gets exactly one frame
    again; a stopped one gets none. *)
Theorem hiding_stops_rendering_only c :
  one_frame c ->
  let h := onVisibilityChange true c in
  let v := onVisibilityChange false h in
  (frames (host h) = [] /\ animationFrameId (state h) = None) /\
  (session h = session c /\ timers (host h) = timers (host c) /\
   fallbackInterval h = fallbackInterval c /\ outbox h = outbox c /\
   effects h = effects c /\ dom h = dom c) /\
  (if running (state c)
   then frames (host v) = [nextId (host c)] /\
        animationFrameId (state v) = Some (nextId (host c)) /\
        session v = session c
   else frames (host v) = []).
Proof.
  intros H. cbv zeta. unfold onVisibilityChange.
  destruct (stopRenderLoop_stops c H) as [Hf Ha].
  destruct (stopRenderLoop_session c) as (Hs & Ht & Hi & Hn & Ho & He & Hd).
  split; [now split|]. split; [repeat split; assumption|].
  assert (Hr : running (state (stopRenderLoop c)) = running (state c))
    by apply stopRenderLoop_running.
  rewrite Hr. destruct (running (state c)) eqn:Er.
  - unfold startRenderLoop. rewrite Ha. cbn.
    rewrite Hf, Hn. repeat split.
    unfold session in *. cbn. exact Hs.
  - rewrite updateDisplay_idle by exact Hr. exact Hf.
Qed.

Lemma hiding_stops_rendering_only_witness :
  let h := onVisibilityChange true Scenario.countdown_on_fallback in
  frames (host h) = [] /\ session h = session Scenario.countdown_on_fallback.
Proof.
  cbv zeta.
  assert (H : one_frame Scenario.countdown_on_fallback)
    by (right; exists 2%nat; split; reflexivity).
  destruct (hiding_stops_rendering_only Scenario.countdown_on_fallback H)
    as ((Hf & _) & (Hs & _) & _).
  split; [exact Hf | exact Hs].
Defined.

End Visibility.

Section StaleHandle.

Lemma renderLoop_completing c :
  workerFallback (state c) = true -> running (state c) = true ->
  due (elapsedMs (state c)) c = true -> frames (host c) = [] ->
  let c' := renderLoop c in
  running (state c') = false /\ countdownCompleted (state c') = true /\
  workerFallback (state c') = true /\
  frames (host c') = [nextId (host c)] /\
  animationFrameId (state c') = Some (nextId (host c)) /\
  nextId (host c') = S (nextId (host c)).
Proof.
  intros Hw Hr Hd Hf. cbv zeta. unfold renderLoop. rewrite Hr.
  rewrite (updateDisplay_due _ c Hd), Hw.
  unfold requestAnimationFrame, stopRenderLoop. cbn.
  destruct (animationFrameId (state c)); cbn; rewrite Hf; repeat split;
    exact Hw.
Qed.

Lemma startTimer_with_handle now x j :
  running (state x) = false -> workerFallback (state x) = true ->
  animationFrameId (state x) = Some j -> frames (host x) = [] ->
  let c3 := startTimer now x in
  running (state c3) = true /\ frames (host c3) = [] /\
  animationFrameId (state c3) = Some j.
Proof.
  intros Hr Hw Ha Hf. cbv zeta. unfold startTimer. rewrite Hr. cbv zeta.
  assert (workerFallback
            (state (on_state (st_countdownCompleted false) x)) = true) as ->
    by exact Hw.
  unfold setInterval, startRenderLoop. cbv beta iota zeta.
  match goal with
  | |- context [match animationFrameId (state ?y) with _ => _ end] =>
      change (animationFrameId (state y)) with (animationFrameId (state x))
  end.
  rewrite Ha. cbn. rewrite Hf, Ha. repeat split.
Qed.

(** X20. A completion on the fallback clock leaves a frame handle behind.
    Take a running countdown on the fallback clock whose target is
    reached, with its frame [i] pending.  When the frame fires, the
    countdown completes and the session pauses, but [renderLoop] goes on
    to request a new frame [j] and records it.  When [j] fires the session
    is stopped, so nothing is done, and the handle stays.  A start after
    that finds a handle and requests no frame: the session runs with no
    frame pending, until a pause, a reset or a visibility change clears
    the handle. *)
Theorem fallback_completion_leaves_handle c i now :
  workerFallback (state c) = true -> mode (state c) = MODE_COUNTDOWN ->
  running (state c) = true -> countdownCompleted (state c) = false ->
  countdownTargetMs (state c) <= elapsedMs (state c) ->
  frames (host c) = [i] ->
  let j := nextId (host c) in
  let c1 := step (Frame i) c in
  let c2 := step (Frame j) c1 in
  let c3 := startTimer now c2 in
  (running (state c1) = false /\ countdownCompleted (state c1) = true /\
   frames (host c1) = [j] /\ animationFrameId (state c1) = Some j) /\
  (c2 = on_host (h_frames []) c1) /\
  (running (state c3) = true /\ frames (host c3) = [] /\
   animationFrameId (state c3) = Some j).
Proof.
  intros Hw Hm Hr Hc Ht Hf. cbv zeta.
  set (c0 := on_host (fun h => h_frames (Timers.clear (Some i) (frames h)) h) c).
  assert (E1 : step (Frame i) c = renderLoop c0).
  { cbn [step]. rewrite Hf. cbn [existsb]. now rewrite Nat.eqb_refl. }
  assert (Hd : due (elapsedMs (state c0)) c0 = true).
  { apply due_at_zero; try assumption. cbn. lia. }
  assert (Hf0 : frames (host c0) = []).
  { unfold c0. cbn. rewrite Hf. cbn. now rewrite Nat.eqb_refl. }
  destruct (renderLoop_completing c0 Hw Hr Hd Hf0)
    as (R1 & R2 & R3 & R4 & R5 & R6).
  cbv zeta in R1, R2, R3, R4, R5, R6.
  change (nextId (host c0)) with (nextId (host c)) in R4, R5, R6.
  rewrite E1. split; [now repeat split|].
  assert (E2 : step (Frame (nextId (host c))) (renderLoop c0) =
               on_host (h_frames []) (renderLoop c0)).
  { cbn [step]. rewrite R4. cbn [existsb]. rewrite Nat.eqb_refl. cbn [orb].
    unfold renderLoop at 1.
    cbn [on_host state running]. rewrite R1.
    unfold on_host. rewrite R4. cbn [Timers.clear filter negb].
    rewrite Nat.eqb_refl. reflexivity. }
  rewrite E2. split; [reflexivity|].
  apply startTimer_with_handle; [exact R1 | exact R3 | exact R5 | reflexivity].
Qed.

Lemma fallback_completion_leaves_handle_witness :
  let c := Scenario.countdown_on_fallback in
  let c3 := startTimer 7000 (step (Frame 3) (step (Frame 2) c)) in
  running (state c3) = true /\ frames (host c3) = [].
Proof.
  cbv zeta.
  destruct (fallback_completion_leaves_handle Scenario.countdown_on_fallback
              2%nat 7000 eq_refl eq_refl eq_refl eq_refl
              ltac:(vm_compute; discriminate) eq_refl)
    as (_ & _ & H1 & H2 & _).
  split; [exact H1 | exact H2].
Defined.

End StaleHandle.

Section StartRequest.

Lemma startTimer_on_worker now c :
  workerFallback (state c) = false -> running (state c) = false ->
  outbox (startTimer now c) =
    outbox c ++ [WStart (Some (Some (elapsedMs (state c))))] /\
  running (state (startTimer now c)) = false /\
  elapsedMs (state (startTimer now c)) = elapsedMs (state c).
Proof.
  intros Hw Hr. unfold startTimer. rewrite Hr. cbv zeta.
  assert (workerFallback
            (state (on_state (st_countdownCompleted false) c)) = false) as ->
    by exact Hw.
  cbn. rewrite Hr. repeat split.
Qed.

(** X21. A start hands the controller's elapsed time to the worker.  On
    the worker clock, with the session stopped and no request in flight, a
    click on Start posts one start request that carries
    [state.elapsedMs]; a stopped worker that receives it at [now] takes
    that value as its accumulated time, whatever it had accumulated
    itself, answers ['started'] with it, and from then on reports
    [elapsedMs + (t - now)] at every tick. *)
Theorem start_hands_over_elapsed c w click now :
  workerFallback (state c) = false -> running (state c) = false ->
  outbox c = [] -> Worker.running w = false ->
  let s := System.run [System.Main (ClickStartPause click); System.ToWorker now]
             {| System.ctl := c; System.wk := w |} in
  outbox (System.ctl s) = [] /\
  Worker.running (System.wk s) = true /\
  Worker.accumulatedMs (System.wk s) = elapsedMs (state c) /\
  Worker.posted (System.wk s) =
    Worker.posted w ++ [MStarted (elapsedMs (state c))] /\
  forall t,
    Worker.posted (Worker.tick t (System.wk s)) =
    Worker.posted (System.wk s) ++ [MTick (elapsedMs (state c) + (t - now))].
Proof.
  intros Hw Hr Ho Hwr. cbv zeta.
  destruct (startTimer_on_worker click c Hw Hr) as (So & _ & _).
  rewrite Ho in So. cbn [app] in So.
  unfold System.run. cbn [fold_left System.step System.ctl System.wk step].
  unfold toggleStartPause. rewrite Hr, So.
  cbn [System.ctl System.wk System.take_outbox outbox tl Worker.onmessage
       Worker.fromMs_or].
  destruct w as [r st acc ti iv nid po]. cbn in Hwr. subst r.
  unfold Worker.start, Worker.tick. cbn. repeat split.
  now rewrite So.
Qed.

Lemma start_hands_over_elapsed_witness :
  let s := System.run [System.Main (ClickStartPause 9000); System.ToWorker 9001]
             {| System.ctl := System.ctl Scenario.editing_stopwatch;
                System.wk := System.wk Scenario.editing_stopwatch |} in
  Worker.accumulatedMs (System.wk s) =
  elapsedMs (state (System.ctl Scenario.editing_stopwatch)).
Proof.
  cbv zeta.
  exact (proj1 (proj2 (proj2
           (start_hands_over_elapsed
              (System.ctl Scenario.editing_stopwatch)
              (System.wk Scenario.editing_stopwatch) 9000 9001
              eq_refl eq_refl eq_refl eq_refl)))).
Defined.

End StartRequest.

(* ====================================================================== *)
(** ** Strict equality of strings *)
(* ====================================================================== *)

Section StrictEqFacts.
Import StrictEq.

Lemma str_eqb_eq a : forall b, str_eqb a b = true <-> a = b.
Proof.
  induction a as [|x a IH]; intros [|y b]; cbn; split; try discriminate; auto.
  - intros H. apply andb_true_iff in H as [H1 H2].
    apply Z.eqb_eq in H1. apply IH in H2. now subst.
  - intros H. injection H as -> ->. rewrite Z.eqb_refl. now apply IH.
Qed.

End StrictEqFacts.

(* ====================================================================== *)
(** ** Themes *)
(* ====================================================================== *)

Section Themes.
Import StrictEq Theme.

Lemma indexOf_unknown t :
  ~ known t -> indexOf t themes = -1.
Proof.
  unfold known, themes, indexOf. intros H. cbn [indexOf_from].
  destruct (str_eqb AUTO t) eqn:E1;
    [apply str_eqb_eq in E1; subst; elim H; cbn; auto|].
  destruct (str_eqb LIGHT t) eqn:E2;
    [apply str_eqb_eq in E2; subst; elim H; cbn; auto|].
  destruct (str_eqb DARK t) eqn:E3;
    [apply str_eqb_eq in E3; subst; elim H; cbn; auto|].
  reflexivity.
Qed.

Lemma known_cases t : known t -> t = AUTO \/ t = LIGHT \/ t = DARK.
Proof. intros [<-|[<-|[<-|[]]]]; auto. Qed.

(** X22. Cycling the theme.  From any theme, also one that is not in the
    list (a damaged saved value), [cycleTheme] lands on one of the three
    themes, sets the document's [data-theme] attribute to match it (absent
    for ['auto']) and saves it.  From an unknown theme the next one is
    ['auto']; from a known one the order is auto, light, dark, auto, so
    three clicks come back to where they started. *)
Theorem theme_cycle u :
  let u' := cycleTheme u in
  (known (theme u') /\ dataTheme u' = attribute_for (theme u') /\
   storedTheme u' = Some (theme u')) /\
  (~ known (theme u) -> theme u' = AUTO) /\
  (known (theme u) ->
   theme u' <> theme u /\
   theme (cycleTheme (cycleTheme u')) = theme u).
Proof.
  cbv zeta. split; [|split].
  - destruct (str_eqb AUTO (theme u)) eqn:E1;
      [|destruct (str_eqb LIGHT (theme u)) eqn:E2;
        [|destruct (str_eqb DARK (theme u)) eqn:E3]];
      unfold cycleTheme, indexOf, themes, known; cbn [indexOf_from];
      rewrite ?E1, ?E2, ?E3; cbn; auto 6.
  - intros H. unfold cycleTheme. now rewrite (indexOf_unknown _ H).
  - intros H. destruct (known_cases _ H) as [E|[E|E]];
      destruct u as [t d tx al st]; cbn in E; subst;
      split; try discriminate; reflexivity.
Qed.

Lemma theme_cycle_witness :
  theme (cycleTheme (loadTheme (Some (lit "blue")) (boot (Some (lit "blue")))))
  = AUTO /\
  theme (cycleTheme (cycleTheme (cycleTheme (boot None)))) = AUTO.
Proof.
  split.
  - apply (proj1 (proj2 (theme_cycle
                           (loadTheme (Some (lit "blue"))
                              (boot (Some (lit "blue"))))))).
    unfold known. cbn. intros [H|[H|[H|[]]]]; discriminate H.
  - apply (proj2 (proj2 (theme_cycle (boot None)))).
    unfold known. cbn. auto.
Defined.

End Themes.

(* ====================================================================== *)
(** ** The service worker's cache *)
(* ====================================================================== *)

Section ServiceWorkerFacts.
Import StrictEq ServiceWorker.
Context {Response : Type}.
Implicit Types (s : CacheStorage Response) (net : Network Response).

Lemma str_eqb_refl a : str_eqb a a = true.
Proof. now apply str_eqb_eq. Qed.

Lemma str_eqb_sym a b : str_eqb a b = str_eqb b a.
Proof.
  destruct (str_eqb a b) eqn:E1, (str_eqb b a) eqn:E2; auto.
  - apply str_eqb_eq in E1. subst. now rewrite str_eqb_refl in E2.
  - apply str_eqb_eq in E2. subst. now rewrite str_eqb_refl in E1.
Qed.

(** Deleting a list of keys one after the other. *)
Lemma delete_all keys : forall s,
  fold_left (fun s key => caches_delete key s) keys s =
  filter (fun e => negb (existsb (fun key => str_eqb (fst e) key) keys)) s.
Proof.
  induction keys as [|k keys IH]; intros s; cbn [fold_left existsb].
  - induction s as [|e s IHs]; [reflexivity|]. cbn. now f_equal.
  - rewrite IH. unfold caches_delete.
    induction s as [|e s IHs]; [reflexivity|]. cbn [filter].
    destruct (str_eqb (fst e) k); cbn [negb orb filter]; [exact IHs|].
    destruct (existsb (fun key => str_eqb (fst e) key) keys); cbn [negb];
      [exact IHs | now rewrite IHs].
Qed.

Lemma activate_eq s :
  activate s = filter (fun e => str_eqb (fst e) CACHE_NAME) s.
Proof.
  unfold activate. cbv zeta. rewrite delete_all.
  apply filter_ext_in. intros e He.
  destruct (str_eqb (fst e) CACHE_NAME) eqn:E.
  - apply str_eqb_eq in E. apply negb_true_iff.
    destruct (existsb _ _) eqn:X; [|reflexivity].
    apply existsb_exists in X as (k & Hk & Ek).
    apply filter_In in Hk as [_ Hk]. apply negb_true_iff in Hk.
    apply str_eqb_eq in Ek. rewrite <- Ek, E, str_eqb_refl in Hk.
    discriminate Hk.
  - apply negb_false_iff. apply existsb_exists.
    exists (fst e). split; [|apply str_eqb_refl].
    apply filter_In. split; [now apply in_map|]. now rewrite E.
Qed.

(** X23. Activation keeps the current cache and nothing else: after the
    ['activate'] handler the storage holds exactly the caches named
    [CACHE_NAME], unchanged; every cache under another name is deleted,
    and the current one never is. *)
Theorem activate_keeps_only_current s :
  activate s = filter (fun e => str_eqb (fst e) CACHE_NAME) s /\
  (forall key, In key (caches_keys (activate s)) -> key = CACHE_NAME) /\
  (forall c, In (CACHE_NAME, c) s -> In (CACHE_NAME, c) (activate s)).
Proof.
  split; [apply activate_eq|]. rewrite activate_eq. split.
  - intros key H. unfold caches_keys in H.
    apply in_map_iff in H as (e & <- & He).
    apply filter_In in He as [_ He]. now apply str_eqb_eq in He.
  - intros c H. apply filter_In. split; [exact H|]. apply str_eqb_refl.
Qed.

Lemma caches_match_open name s url :
  caches_match (caches_open name s) url = caches_match s url.
Proof.
  unfold caches_open. destruct (existsb _ s); [reflexivity|].
  induction s as [|[n c] s IH]; [reflexivity|]. cbn.
  destruct (cache_match c url); [reflexivity | exact IH].
Qed.

Lemma fetch_all_spec net urls : forall entries,
  fetch_all net urls = Some entries ->
  map fst entries = urls /\
  forall u r, In (u, r) entries -> net u = Ok r.
Proof.
  induction urls as [|u urls IH]; intros entries H; cbn in H.
  - injection H as <-. split; [reflexivity | intros ? ? []].
  - destruct (net u) as [r| |] eqn:E; try discriminate.
    destruct (fetch_all net urls) as [rs|]; [|discriminate].
    injection H as <-. destruct (IH rs eq_refl) as [H1 H2].
    split; [cbn; now rewrite H1|].
    intros u' r' [Hin|Hin]; [injection Hin as <- <-; exact E | now apply H2].
Qed.

(** In a cache that begins with entries fetched from [net], a URL among
    them is matched by what [net] answered. *)
Lemma cache_match_fetched net (l : list (jsstring * Response)) old url :
  (forall u r, In (u, r) l -> net u = Ok r) ->
  In url (map fst l) ->
  exists r, net url = Ok r /\ cache_match (l ++ old) url = Some r.
Proof.
  intros Hl Hin. induction l as [|[u r] l IH]; [destruct Hin|].
  cbn [app cache_match]. destruct (str_eqb u url) eqn:E.
  - apply str_eqb_eq in E. subst u. exists r. split; [|reflexivity].
    apply Hl. now left.
  - apply IH.
    + intros u' r' H. apply Hl. now right.
    + destruct Hin as [Hin|Hin]; [|exact Hin].
      cbn in Hin. subst u. now rewrite str_eqb_refl in E.
Qed.

Lemma caches_match_current net entries s url :
  (forall u r, In (u, r) entries -> net u = Ok r) ->
  In url (map fst entries) ->
  existsb (fun e => str_eqb (fst e) CACHE_NAME) s = true ->
  exists r, net url = Ok r /\
    caches_match
      (filter (fun e => str_eqb (fst e) CACHE_NAME)
         (put_all CACHE_NAME entries s)) url = Some r.
Proof.
  intros He Hu Hs. induction s as [|[n c] s IH]; [discriminate Hs|].
  cbn [put_all map fst snd]. destruct (str_eqb n CACHE_NAME) eqn:E.
  - cbn [filter fst]. rewrite E. cbn [caches_match].
    destruct (cache_match_fetched net (rev entries) c url) as (r & Hr & Hm).
    + intros u r H. apply He. now apply in_rev.
    + rewrite map_rev. now apply in_rev in Hu.
    + exists r. now rewrite Hm.
  - cbn [filter fst]. rewrite E. apply IH.
    cbn [existsb fst] in Hs. now rewrite E in Hs.
Qed.

Lemma caches_open_has name s :
  existsb (fun e => str_eqb (fst e) name) (caches_open name s) = true.
Proof.
  unfold caches_open.
  destruct (existsb (fun e => str_eqb (fst e) name) s) eqn:E; [exact E|].
  rewrite existsb_app. cbn. now rewrite str_eqb_refl, !orb_true_r.
Qed.

(** X24. The installed assets are served without the network.  When the
    ['install'] handler succeeds, then after activation the ['fetch']
    handler answers a request for any of the six assets with the very
    response that was fetched at installation, whatever the network does
    by then, an error included.  When the installation fails, because one
    asset could not be fetched with an ok status, nothing is stored: every
    request is matched as before. *)
Theorem installed_assets_served_offline net s :
  (forall s1, install net s = (true, s1) ->
     forall url, In url ASSETS ->
     forall later : Network Response,
     exists r, net url = Ok r /\ fetch later (activate s1) url = Some r) /\
  (forall s1, install net s = (false, s1) ->
     forall url, caches_match s1 url = caches_match s url).
Proof.
  unfold install. cbv zeta.
  destruct (fetch_all net ASSETS) as [entries|] eqn:F; split;
    intros s1 H; try discriminate H; injection H as <-.
  - intros url Hu later.
    destruct (fetch_all_spec net ASSETS entries F) as [Hk He].
    rewrite activate_eq.
    destruct (caches_match_current net entries (caches_open CACHE_NAME s) url He)
      as (r & Hr & Hm).
    + now rewrite Hk.
    + apply caches_open_has.
    + exists r. split; [exact Hr|]. unfold fetch. now rewrite Hm.
  - intros url. apply caches_match_open.
Qed.

End ServiceWorkerFacts.

Section ServiceWorkerWitnesses.
Import StrictEq ServiceWorker.

Lemma activate_keeps_only_current_witness :
  caches_keys
    (activate [(lit "minimal-timer-v0", [(lit "/", 0)]);
               (CACHE_NAME, [(lit "/", 1)])]) = [CACHE_NAME] /\
  In (CACHE_NAME, [(lit "/", 1)])
    (activate [(lit "minimal-timer-v0", [(lit "/", 0)]);
               (CACHE_NAME, [(lit "/", 1)])]).
Proof.
  split; [reflexivity|].
  apply (proj2 (proj2 (activate_keeps_only_current
                         [(lit "minimal-timer-v0", [(lit "/", 0)]);
                          (CACHE_NAME, [(lit "/", 1)])]))).
  cbn. auto.
Defined.

(** Every asset is answered with the length of its URL; later the network
    is down. *)
Lemma installed_assets_served_offline_witness :
  exists r,
    fetch (fun _ => NetworkError)
      (activate (snd (install (fun url => Ok (List.length url)) [])))
      (lit "/worker.js") = Some r.
Proof.
  destruct (proj1 (installed_assets_served_offline
                     (fun url => Ok (List.length url)) [])
              _ eq_refl (lit "/worker.js")
              ltac:(cbn; auto 10) (fun _ => NetworkError)) as (r & _ & H).
  exists r. exact H.
Defined.

End ServiceWorkerWitnesses.
